(** * rttanalyzer: the streaming trace pipeline, embedded and verified

    A shallow embedding of the Go packages [sink] (trace parser, cursor
    tracker, watch list), [rttanalyzer] (roster, trace file reader),
    [miner] (per-file worker loop) and [watchdog] (worker lifecycle),
    with the setup code around them ([sqlinput], the reader of AWR
    reports, and [loadConfig] of package [main]), followed by the
    properties of the pipeline.

    Conventions.
    - A Go [string] is a sequence of bytes: Rocq's [string] of [ascii].
    - Go's [int] and [int64] are 64-bit two's complement integers: [Z]
      with the wrap-around of arithmetic written out ([wrap64]).
    - Go's [float64] is IEEE 754 binary64 with round-to-nearest-even:
      [spec_float] with [prec = 53] and [emax = 1024].
    - A Go function returning [(T, error)] returns a [res T]; a run-time
      panic and [log.Fatal] (which ends the process) are results of their
      own, so that they cannot be mistaken for a returned error.
    - Go maps are [gmap]s; the global [Debug] flags are [false] (their
      default), so the debug prints are left out.
    - What belongs to the system the program runs on and is only passed
      on by it is an interface: the functions of [path/filepath]
      ([Filepath]), the largest offset of the file system ([FileSystem]),
      and [strconv.ParseFloat]. *)

From Stdlib Require Import ZArith Lia List Ascii String SpecFloat.
From stdpp Require Import base option list gmap strings sorting.

Local Open Scope string_scope.
Local Open Scope Z_scope.
Local Open Scope list_scope.

(** ** Results *)

(** The [error] values of the pipeline.  [fmt.Errorf] builds a fresh error
    around the text of another one ([ErrWrap]); [errExistingCursor] is a
    package-level value compared by identity. *)
Inductive error : Type :=
| ErrExistingCursor
| ErrSyntax (fn s : string)          (* strconv.NumError, ErrSyntax *)
| ErrRange (fn s : string)           (* strconv.NumError, ErrRange *)
| ErrWords (fn : string) (n : nat)   (* "expected number of words ..." *)
| ErrNotFound (busTx sqlID : string) (* setViolations: no such BusTx *)
| ErrWrap (ctx : string) (e : error) (* fmt.Errorf("ctx: %v", err) *)
| ErrIO (op path : string)           (* an *os.PathError *)
| ErrJSON (what : string)            (* encoding/json errors *)
| ErrOther (what : string).

Inductive res (A : Type) : Type :=
| Ok (a : A)      (* normal return, nil error *)
| Err (e : error) (* normal return, non-nil error *)
| Panic (what : string) (* run-time panic: the goroutine unwinds *)
| Fatal (what : string). (* log.Fatal: os.Exit(1) *)
Arguments Ok {A} a.
Arguments Err {A} e.
Arguments Panic {A} what.
Arguments Fatal {A} what.

(** [res] is a monad: a function body is a sequence of binds, and the first
    step that does not return normally ends it. *)
#[global] Instance res_ret : MRet res := fun A a => Ok a.
#[global] Instance res_bind : MBind res := fun A B k r =>
  match r with
  | Ok a => k a
  | Err e => Err e
  | Panic w => Panic w
  | Fatal w => Fatal w
  end.

Definition is_Ok {A} (r : res A) : bool :=
  match r with Ok _ => true | _ => false end.

(** ** 64-bit integers *)

Definition minInt64 : Z := - 2 ^ 63.
Definition maxInt64 : Z := 2 ^ 63 - 1.
Definition wrap64 (z : Z) : Z := (z + 2 ^ 63) mod 2 ^ 64 - 2 ^ 63.
Definition inInt64 (z : Z) : bool := (minInt64 <=? z) && (z <=? maxInt64).

(** ** Bytes, runes and the [strings] package *)

Module GoStrings.

Definition byteZ (c : ascii) : Z := Z.of_N (N_of_ascii c).
Definition byte_of (z : Z) : ascii := ascii_of_N (Z.to_N z).
Definition LF : ascii := byte_of 10.
Definition CR : ascii := byte_of 13.

Definition len (s : string) : Z := Z.of_nat (String.length s).

Definition between (lo hi : Z) (c : ascii) : bool :=
  (lo <=? byteZ c) && (byteZ c <=? hi).

(** [utf8.RuneError], U+FFFD. *)
Definition RuneError : Z := 65533.
(** Continuation byte 10xxxxxx. *)
Definition cont (c : ascii) : bool := between 128 191 c.
Definition low6 (c : ascii) : Z := Z.land (byteZ c) 63.

(** [decodeRunes s]: the runes a [for range s] loop (that is, repeated
    [utf8.DecodeRuneInString]) sees, each with the bytes it spans.  An
    invalid or truncated sequence yields [RuneError] of width one. *)
Fixpoint decodeRunes (s : string) : list (Z * string) :=
  match s with
  | EmptyString => []
  | String c0 s1 =>
    let bad := fun _ : unit => (RuneError, String c0 "") :: decodeRunes s1 in
    if byteZ c0 <? 128 then (byteZ c0, String c0 "") :: decodeRunes s1
    else if between 194 223 c0 then
      match s1 with
      | String c1 s2 =>
        if cont c1
        then (Z.lor (Z.shiftl (Z.land (byteZ c0) 31) 6) (low6 c1),
              String c0 (String c1 "")) :: decodeRunes s2
        else bad tt
      | _ => bad tt
      end
    else if between 224 239 c0 then
      match s1 with
      | String c1 (String c2 s3) =>
        let lo := if byteZ c0 =? 224 then 160 else 128 in
        let hi := if byteZ c0 =? 237 then 159 else 191 in
        if between lo hi c1 && cont c2
        then (Z.lor (Z.shiftl (Z.land (byteZ c0) 15) 12)
                (Z.lor (Z.shiftl (low6 c1) 6) (low6 c2)),
              String c0 (String c1 (String c2 ""))) :: decodeRunes s3
        else bad tt
      | _ => bad tt
      end
    else if between 240 244 c0 then
      match s1 with
      | String c1 (String c2 (String c3 s4)) =>
        let lo := if byteZ c0 =? 240 then 144 else 128 in
        let hi := if byteZ c0 =? 244 then 143 else 191 in
        if between lo hi c1 && cont c2 && cont c3
        then (Z.lor (Z.shiftl (Z.land (byteZ c0) 7) 18)
                (Z.lor (Z.shiftl (low6 c1) 12)
                   (Z.lor (Z.shiftl (low6 c2) 6) (low6 c3))),
              String c0 (String c1 (String c2 (String c3 ""))))
             :: decodeRunes s4
        else bad tt
      | _ => bad tt
      end
    else bad tt
  end.

(** [strings.FieldsFunc]: the maximal runs of runes that do not satisfy
    [f]; empty runs are dropped.  [cur] is the field being read. *)
Fixpoint fieldsOf (f : Z -> bool) (cur : string) (rs : list (Z * string))
  : list string :=
  match rs with
  | [] => if String.eqb cur "" then [] else [cur]
  | (r, bytes) :: rs' =>
    if f r
    then (if String.eqb cur "" then [] else [cur]) ++ fieldsOf f "" rs'
    else fieldsOf f (cur +:+ bytes) rs'
  end.

Definition FieldsFunc (s : string) (f : Z -> bool) : list string :=
  fieldsOf f "" (decodeRunes s).

Definition inZs (zs : list Z) (r : Z) : bool := existsb (Z.eqb r) zs.

(** [unicode.IsSpace]: the Latin-1 spaces and the White_Space table. *)
Definition IsSpace (r : Z) : bool :=
  inZs [9; 10; 11; 12; 13; 32; 133; 160; 5760; 8232; 8233; 8239; 8287; 12288] r
  || ((8192 <=? r) && (r <=? 8202)).

(** [strings.Fields]. *)
Definition Fields (s : string) : list string := FieldsFunc s IsSpace.

(** [strings.TrimSpace]: the string without its leading and trailing
    runes that satisfy [unicode.IsSpace]. *)
Fixpoint dropSpaces (rs : list (Z * string)) : list (Z * string) :=
  match rs with
  | [] => []
  | (r, bytes) :: rs' => if IsSpace r then dropSpaces rs' else rs
  end.

Definition TrimSpace (s : string) : string :=
  foldr (fun rb acc => rb.2 +:+ acc) ""
    (reverse (dropSpaces (reverse (dropSpaces (decodeRunes s))))).

(** [strings.HasPrefix s p]. *)
Definition HasPrefix (s p : string) : bool := String.prefix p s.

(** [strings.Contains s sub]. *)
Fixpoint Contains (s sub : string) : bool :=
  String.prefix sub s ||
  match s with
  | EmptyString => false
  | String _ s' => Contains s' sub
  end.

(** [s[n:]]: a slice expression panics when [n > len(s)]. *)
Fixpoint sliceFrom (n : nat) (s : string) : res string :=
  match n, s with
  | O, _ => Ok s
  | S n', String _ s' => sliceFrom n' s'
  | S _, EmptyString => Panic "slice bounds out of range"
  end.

(** [strings.Replace(s, old, "", n)] for a one-byte [old] and [n >= 0]:
    the first [n] occurrences of the byte are removed. *)
Fixpoint removeByte (old : ascii) (n : nat) (s : string) : string :=
  match n, s with
  | O, _ => s
  | _, EmptyString => s
  | S n', String c s' =>
    if Ascii.eqb c old then removeByte old n' s'
    else String c (removeByte old n s')
  end.

(** [words[i]] of a slice: an index out of range panics. *)
Definition index {A} (l : list A) (i : nat) : res A :=
  match l !! i with
  | Some x => Ok x
  | None => Panic "index out of range"
  end.

(** [l[n:]] of a slice. *)
Definition sliceList {A} (n : nat) (l : list A) : res (list A) :=
  if (n <=? length l)%nat then Ok (drop n l)
  else Panic "slice bounds out of range".

End GoStrings.

(** ** [strconv.Atoi] *)

Module strconv.
Import GoStrings.

Definition isDigit (c : ascii) : bool := between 48 57 c.

Fixpoint digitsValue (acc : Z) (s : string) : option Z :=
  match s with
  | EmptyString => Some acc
  | String c s' =>
    if isDigit c then digitsValue (acc * 10 + (byteZ c - 48)) s' else None
  end.

(** An optional sign, then one or more decimal digits; the value must fit
    a 64-bit [int]. *)
Definition Atoi (s : string) : res Z :=
  let '(neg, body) :=
    match s with
    | String c s' =>
      if Ascii.eqb c "+" then (false, s')
      else if Ascii.eqb c "-" then (true, s')
      else (false, s)
    | EmptyString => (false, s)
    end in
  match body with
  | EmptyString => Err (ErrSyntax "Atoi" s)
  | _ =>
    match digitsValue 0 body with
    | None => Err (ErrSyntax "Atoi" s)
    | Some n =>
      let v := if neg : bool then - n else n in
      if inInt64 v then Ok v else Err (ErrRange "Atoi" s)
    end
  end.

End strconv.

(** ** [float64] *)

Module float64.

Definition prec : Z := 53.
Definition emax : Z := 1024.

(** The conversion [float64(n)] of an integer: the nearest binary64 value,
    ties to even. *)
Definition ofInt (n : Z) : spec_float := binary_normalize prec emax n 0 false.
Definition div (x y : spec_float) : spec_float := SFdiv prec emax x y.
Definition ltb (x y : spec_float) : bool := SFltb x y.
Definition leb (x y : spec_float) : bool := SFleb x y.
(** The zero value of a [float64] field. *)
Definition zero : spec_float := S754_zero false.

End float64.

(** ** Package [cursor] *)

Module cursor.

Record Cursor : Type := NewCursor {
  CursorID : Z;
  SQLID : string;
  BusinessTxName : string;
  ELAThreshold : Z;
  hashValue : string;
  length : Z;
  depth : Z;
  uID : Z;
  lID : Z;
  oct : Z
}.

End cursor.

(** ** Package [sink]: cursor tracker, watch list and trace parser *)

Module sink.
Import GoStrings.

Inductive traceRecordKind : Type :=
| traceRecordTypeInvalid
| traceRecordTypeParsingInCursor
| traceRecordTypeParseExecFetch.

(** *** The cursor tracker *)

(** The state of a [sync.RWMutex]: whether a writer holds it, and how many
    readers do.  The model runs one goroutine at a time, so no acquisition
    ever waits; the state records who holds the lock at each point. *)
Record RWMutex : Type := mkRWMutex { writer : bool; readers : nat }.

Record CursorTrackerProtected : Type := mkTracker {
  mu : RWMutex;
  Cursors : gmap Z cursor.Cursor
}.

Definition Lock (c : CursorTrackerProtected) : CursorTrackerProtected :=
  mkTracker (mkRWMutex true (readers (mu c))) (Cursors c).
Definition Unlock (c : CursorTrackerProtected) : CursorTrackerProtected :=
  mkTracker (mkRWMutex false (readers (mu c))) (Cursors c).
Definition RLock (c : CursorTrackerProtected) : CursorTrackerProtected :=
  mkTracker (mkRWMutex (writer (mu c)) (S (readers (mu c)))) (Cursors c).
Definition RUnlock (c : CursorTrackerProtected) : CursorTrackerProtected :=
  mkTracker (mkRWMutex (writer (mu c)) (Nat.pred (readers (mu c)))) (Cursors c).
Definition withCursors (m : gmap Z cursor.Cursor)
  (c : CursorTrackerProtected) : CursorTrackerProtected :=
  mkTracker (mu c) m.

(** The tracker [watchdog.output] creates: no cursor, nobody holds the lock. *)
Definition newTracker : CursorTrackerProtected :=
  mkTracker (mkRWMutex false 0) ∅.

Definition get (key : Z) (c : CursorTrackerProtected)
  : option cursor.Cursor * CursorTrackerProtected :=
  let c1 := RLock c in
  (Cursors c1 !! key, RUnlock c1).

Definition hasValue (key : Z) (c : CursorTrackerProtected)
  : bool * CursorTrackerProtected :=
  let c1 := RLock c in
  let ok := bool_decide (is_Some (Cursors c1 !! key)) in
  (ok, RUnlock c1).

Definition set (key : Z) (value : cursor.Cursor) (c : CursorTrackerProtected)
  : CursorTrackerProtected :=
  let c1 := Lock c in
  Unlock (withCursors (<[key := value]> (Cursors c1)) c1).

Definition delete (key : Z) (c : CursorTrackerProtected)
  : CursorTrackerProtected :=
  let c1 := Lock c in
  Unlock (withCursors (base.delete key (Cursors c1)) c1).

(** [compareAndSet].  The closure [open] runs against the tracker as it is
    at the call, which lets a caller observe that the write lock is held.
    The deferred [Unlock] runs on every return and while a panic unwinds,
    not when the process exits. *)
Definition compareAndSet (key : Z)
  (open : CursorTrackerProtected -> res cursor.Cursor)
  (c : CursorTrackerProtected)
  : res cursor.Cursor * CursorTrackerProtected :=
  let c1 := Lock c in
  match Cursors c1 !! key with
  | Some _ => (Err ErrExistingCursor, Unlock c1)
  | None =>
    match open c1 with
    | Ok cur =>
      (Ok cur, Unlock (withCursors (<[key := cur]> (Cursors c1)) c1))
    | Err e =>
      (Err (ErrWrap "compareAndSet: error from calling open" e), Unlock c1)
    | Panic w => (Panic w, Unlock c1)
    | Fatal w => (Fatal w, c1)
    end
  end.

(** *** The watch list *)

Record MonitoredSQL : Type := mkMonitoredSQL {
  BusinessTxName : string;
  ELAThreshold : Z;
  SQLID : list string;
  LastELA : spec_float;
  WorstELA : spec_float;
  NumViolations : Z
}.

(** [loadSQL], from the point where the file is opened.  [opened] is the
    result of [os.Open]; on success it carries what the successive calls of
    [csv.Reader.Read] return before [io.EOF], each a record (its fields) or
    a read error. *)
Fixpoint loadRecords (reads : list (res (list string)))
  (s : list MonitoredSQL) : res (list MonitoredSQL) :=
  match reads with
  | [] => Ok s
  | rd :: reads' =>
    record ← rd;
    f1 ← index record 1;
    match strconv.Atoi f1 with
    | Ok elaThres =>
      f0 ← index record 0;
      ids ← sliceList 2 record;
      loadRecords reads'
        (s ++ [mkMonitoredSQL f0 elaThres ids float64.zero float64.zero 0])
    | Err e => Err e
    | Panic w => Panic w
    | Fatal w => Fatal w
    end
  end.

Definition loadSQL (opened : res (list (res (list string))))
  : res (list MonitoredSQL) :=
  reads ← opened; loadRecords reads [].

(** [interestingSQL]: the first watch-list entry that lists the SQL id. *)
Fixpoint interestingSQL (getSQLID : string) (wantSQL : list MonitoredSQL)
  : bool * string * Z :=
  match wantSQL with
  | [] => (false, "", -1)
  | sw :: rest =>
    if existsb (String.eqb getSQLID) (SQLID sw)
    then (true, BusinessTxName sw, ELAThreshold sw)
    else interestingSQL getSQLID rest
  end.

(** [setViolations] updates, in place, the first entry whose name is
    [busTxName], and returns its worst and last elapsed times and its count
    of violations. *)
Definition recordViolation (sw : MonitoredSQL) (elaF : spec_float)
  : MonitoredSQL :=
  mkMonitoredSQL (BusinessTxName sw) (ELAThreshold sw) (SQLID sw)
    elaF
    (if float64.ltb (WorstELA sw) elaF then elaF else WorstELA sw)
    (wrap64 (NumViolations sw + 1)).

Fixpoint setViolations (wantSQL : list MonitoredSQL) (busTxName : string)
  (threshold : spec_float) (sqlID : string) (elaF : spec_float)
  : res (spec_float * spec_float * Z) * list MonitoredSQL :=
  match wantSQL with
  | [] => (Err (ErrNotFound busTxName sqlID), [])
  | sw :: rest =>
    if String.eqb (BusinessTxName sw) busTxName then
      let sw' := recordViolation sw elaF in
      (Ok (WorstELA sw', LastELA sw', NumViolations sw'), sw' :: rest)
    else
      let '(r, rest') := setViolations rest busTxName threshold sqlID elaF in
      (r, sw :: rest')
  end.

(** *** The trace parser *)

Record parsedSummary : Type := mkSummary {
  isViolation : bool;
  businessTxName : string;
  threshold : spec_float;
  sqlID : string;
  worstELA : spec_float;
  lastELA : spec_float;
  numViolations : Z
}.

(** [&parsedSummary{}]: the empty non-violation. *)
Definition emptySummary : parsedSummary :=
  mkSummary false "" float64.zero "" float64.zero float64.zero 0.

Definition traceRecordType (rec : string) : traceRecordKind :=
  if HasPrefix rec "PARSING IN CURSOR" && Contains rec "sqlid"
  then traceRecordTypeParsingInCursor
  else if HasPrefix rec "PARSE #" || HasPrefix rec "EXEC #"
          || HasPrefix rec "FETCH #"
  then traceRecordTypeParseExecFetch
  else traceRecordTypeInvalid.

(** [parseSQLID] returns the SQL id and the cursor number's text. *)
Definition parseSQLID (rec : string) : res (string * string) :=
  let words := Fields rec in
  if (List.length words <=? 12)%nat
  then Err (ErrWords "parseSQLID" (List.length words))
  else
    w12 ← index words 12;
    id ← sliceFrom 7 w12;
    w3 ← index words 3;
    cur ← sliceFrom 1 w3;
    Ok (removeByte "'" 2 id, cur).

Record parsedOtherAttr : Type := mkOtherAttr {
  oa_hashValue : string;
  oa_length : Z;
  oa_depth : Z;
  oa_uID : Z;
  oa_lID : Z;
  oa_oct : Z
}.

(** [strconv.Atoi(words[i][4:])], its error wrapped as [parseOtherAttr]
    wraps it. *)
Definition attrInt (words : list string) (i : nat) (what : string) : res Z :=
  w ← index words i;
  v ← sliceFrom 4 w;
  match strconv.Atoi v with
  | Err e => Err (ErrWrap what e)
  | r => r
  end.

Definition parseOtherAttr (rec : string) : res parsedOtherAttr :=
  let words := Fields rec in
  if (List.length words <=? 10)%nat
  then Err (ErrWords "parseOtherAttr" (List.length words))
  else
    length ← attrInt words 4 "parseOtherAttr: can't parse length";
    depth ← attrInt words 5 "parseOtherAttr: can't parse depth";
    uID ← attrInt words 6 "parseOtherAttr: can't parse uID";
    oct ← attrInt words 7 "parseOtherAttr: can't parse oct";
    lID ← attrInt words 8 "parseOtherAttr: can't parse lID";
    w10 ← index words 10;
    hv ← sliceFrom 3 w10;
    Ok (mkOtherAttr hv length depth uID lID oct).

Definition openCursor (rec : string) (getCursorID : Z)
  (getSQLID businessTxName : string) (elaThreshold : Z)
  : res cursor.Cursor :=
  otherAttr ← parseOtherAttr rec;
  Ok (cursor.NewCursor getCursorID getSQLID businessTxName elaThreshold
        (oa_hashValue otherAttr) (oa_length otherAttr) (oa_depth otherAttr)
        (oa_uID otherAttr) (oa_lID otherAttr) (oa_oct otherAttr)).

(** What [parsingInCursor] returns beside its error: [newCursor], then the
    cursor id, SQL id, business-tx name and threshold. *)
Definition pic : Type := (bool * Z * string * string * Z)%type.

Definition parsingInCursor (rec : string) (wantSQL : list MonitoredSQL)
  (curTracker : CursorTrackerProtected)
  : res pic * CursorTrackerProtected :=
  match parseSQLID rec with
  | Ok (getSQLID, getCursorString) =>
    match strconv.Atoi getCursorString with
    | Ok getCursorID =>
      let '(isInterestingSQL, businessTxName, elaThreshold) :=
        interestingSQL getSQLID wantSQL in
      if negb isInterestingSQL then (Ok (true, -1, "", "", -1), curTracker)
      else
        let '(r, curTracker') :=
          compareAndSet getCursorID
            (fun _ => openCursor rec getCursorID getSQLID businessTxName
                        elaThreshold)
            curTracker in
        match r with
        | Err ErrExistingCursor =>
          (Ok (false, getCursorID, getSQLID, businessTxName, elaThreshold),
           curTracker')
        | Err e => (Err e, curTracker')
        | Ok _ => (Ok (true, -1, "", "", -1), curTracker')
        | Panic w => (Panic w, curTracker')
        | Fatal w => (Fatal w, curTracker')
        end
    | Err e =>
      (Err (ErrWrap "parsingInCursor: error in CursorID string->int conversion" e),
       curTracker)
    | Panic w => (Panic w, curTracker)
    | Fatal w => (Fatal w, curTracker)
    end
  | Err e => (Err e, curTracker)
  | Panic w => (Panic w, curTracker)
  | Fatal w => (Fatal w, curTracker)
  end.

(** The separators of a PARSE, EXEC or FETCH record. *)
Definition execSeparator (r : Z) : bool :=
  inZs [byteZ "#"; byteZ ":"; byteZ ","; byteZ "="; byteZ " "] r.

(** What [parseExec] returns beside its error: whether the cursor is known,
    then its number, the verb, the CPU and the elapsed microseconds. *)
Definition pef : Type := (bool * Z * string * Z * Z)%type.

Definition parseExec (rec : string) (curTracker : CursorTrackerProtected)
  : res pef * CursorTrackerProtected :=
  let words := FieldsFunc rec execSeparator in
  if (List.length words <=? 5)%nat
  then (Err (ErrWords "parseExec" (List.length words)), curTracker)
  else
    match (cursorType ← index words 0;
           cursorString ← index words 1;
           Ok (cursorType, cursorString)) with
    | Ok (cursorType, cursorString) =>
      match strconv.Atoi cursorString with
      | Ok cursorInt =>
        let '(known, curTracker') := hasValue cursorInt curTracker in
        if negb known then (Ok (false, 0, "", 0, 0), curTracker')
        else
          (cString ← index words 3;
           cInt ← match strconv.Atoi cString with
                  | Err _ => Fatal "parseExec: cannot get CPU"
                  | r => r
                  end;
           eString ← index words 5;
           eInt ← match strconv.Atoi eString with
                  | Err _ => Fatal "parseExec: cannot get ELA"
                  | r => r
                  end;
           Ok (true, cursorInt, cursorType, cInt, eInt),
           curTracker')
      | Err e =>
        (Err (ErrWrap "parseExec: cursor# doesn't appear to be a number" e),
         curTracker)
      | Panic w => (Panic w, curTracker)
      | Fatal w => (Fatal w, curTracker)
      end
    | Err e => (Err e, curTracker)
    | Panic w => (Panic w, curTracker)
    | Fatal w => (Fatal w, curTracker)
    end.

(** The state [parseRecord] works on: the watch list, whose entries it
    updates in place, and the cursor tracker. *)
Definition pstate : Type := (list MonitoredSQL * CursorTrackerProtected)%type.

(** The two ways a step that does not return normally leaves [parseRecord]. *)
Definition abort {A B} (r : res A) : res B :=
  match r with
  | Ok _ => Panic "unreachable"
  | Err e => Err e
  | Panic w => Panic w
  | Fatal w => Fatal w
  end.

Definition parseRecord (rec : string) (wantSQL : list MonitoredSQL)
  (curTracker : CursorTrackerProtected) : res parsedSummary * pstate :=
  match traceRecordType rec with
  | traceRecordTypeInvalid => (Ok emptySummary, (wantSQL, curTracker))
  | traceRecordTypeParsingInCursor =>
    match parsingInCursor rec wantSQL curTracker with
    | (Ok (newCursor, getCursorID, getSQLID, businessTxName, elaThreshold),
       ct1) =>
      if newCursor then (Ok emptySummary, (wantSQL, ct1))
      else
        match get getCursorID ct1 with
        | (None, ct2) => (Panic "nil pointer dereference", (wantSQL, ct2))
        | (Some open, ct2) =>
          if String.eqb getSQLID (cursor.SQLID open)
          then (Ok emptySummary, (wantSQL, ct2))
          else
            let ct3 := delete getCursorID ct2 in
            match openCursor rec getCursorID getSQLID businessTxName
                    elaThreshold with
            | Ok cur => (Ok emptySummary, (wantSQL, set getCursorID cur ct3))
            | r => (abort r, (wantSQL, ct3))
            end
        end
    | (Err e, ct1) =>
      (Err (ErrWrap "parseRecord: error from calling parsingInCursor" e),
       (wantSQL, ct1))
    | (Panic w, ct1) => (Panic w, (wantSQL, ct1))
    | (Fatal w, ct1) => (Fatal w, (wantSQL, ct1))
    end
  | traceRecordTypeParseExecFetch =>
    match parseExec rec curTracker with
    | (Ok (isKnown, cursorID, cursorType, cpu, ela), ct1) =>
      if negb isKnown then (Ok emptySummary, (wantSQL, ct1))
      else
        match get cursorID ct1 with
        | (None, ct2) => (Panic "nil pointer dereference", (wantSQL, ct2))
        | (Some curTemp, ct2) =>
          let threshold := float64.ofInt (cursor.ELAThreshold curTemp) in
          let elaF := float64.div (float64.ofInt ela) (float64.ofInt 1000) in
          if float64.ltb elaF threshold
          then (Ok emptySummary, (wantSQL, ct2))
          else
            match setViolations wantSQL (cursor.BusinessTxName curTemp)
                    threshold (cursor.SQLID curTemp) elaF with
            | (Ok (worstELA, lastELA, numViolations), wantSQL') =>
              (Ok (mkSummary true (cursor.BusinessTxName curTemp) threshold
                     (cursor.SQLID curTemp) worstELA lastELA numViolations),
               (wantSQL', ct2))
            | (r, wantSQL') => (abort r, (wantSQL', ct2))
            end
        end
    | (r, ct1) => (abort r, (wantSQL, ct1))
    end
  end.

End sink.

(** ** Package [path/filepath] *)

(** The path functions the pipeline calls.  They belong to Go's library and
    the pipeline relies on nothing but their results, so they are taken as
    an interface. *)
Class Filepath : Type := {
  Join : string -> string -> string;
  Dir : string -> string;
  Base : string -> string;
  Ext : string -> string
}.

(** ** Files *)

(** What the pipeline relies on of the file system a trace file lives on:
    the largest offset [Seek] accepts there.  [Seek] to an absolute offset
    fails (EINVAL) for a negative offset and for one beyond that limit; the
    limit is a property of the file system (about 2^44 on ext4, 2^63 - 1
    on others), so it is taken as an interface. *)
Class FileSystem : Type := {
  maxOffset : Z
}.

(** ** Package [encoding/json], as the roster uses it *)

Module json.
Import GoStrings.

(** The UTF-8 encoding of U+FFFD. *)
Definition replacement : string :=
  String (byte_of 239) (String (byte_of 191) (String (byte_of 189) "")).

(** A string value encodes as a JSON string coerced to valid UTF-8: every
    byte that does not start a valid sequence is replaced by U+FFFD.
    Reading the JSON string back yields the coerced bytes. *)
Definition coerceRune (rb : Z * string) : string :=
  let '(r, bytes) := rb in
  if (r =? RuneError) && (String.length bytes =? 1)%nat
  then replacement else bytes.

Definition coerce (s : string) : string :=
  foldr (fun rb acc => coerceRune rb +:+ acc) "" (decodeRunes s).

Definition validUTF8 (s : string) : Prop := coerce s = s.

End json.

(** ** Package [rttanalyzer]: roster and trace file reader *)

Module rttanalyzer.
Import GoStrings.

(** [recordsCount], the size of a batch. *)
Definition recordsCount : nat := 1.

Record jsonTraceFile : Type := mkJsonTraceFile {
  jName : string;
  jDirectoryName : string;
  jVersion : Z;
  jOffset : Z
}.

(** A [Roster]: its map [R], [None] when the map is nil.  (Its mutex
    guards [Save] against other goroutines and has no effect on what one
    [Save] computes.) *)
Record Roster : Type := mkRoster {
  R : option (gmap string jsonTraceFile)
}.

Record TraceFile : Type := mkTraceFile {
  Name : string;
  DirectoryName : string;
  version : Z;
  offset : Z;
  fileHandle : string (* the path the handle was opened on *)
}.

(** *** The roster file *)

(** What [json.MarshalIndent] writes for a [*Roster] and [json.Unmarshal]
    reads back: the object [{"R": ...}], where [...] is [null] for a nil
    map and otherwise the object of the entries, keys in increasing order;
    keys and string fields are coerced to valid UTF-8.  The embedded mutex
    has no exported field and contributes nothing. *)
Definition rosterDoc : Type := option (list (string * jsonTraceFile)).

Definition encodeEntry (kv : string * jsonTraceFile) : string * jsonTraceFile :=
  (json.coerce kv.1,
   mkJsonTraceFile (json.coerce (jName kv.2)) (json.coerce (jDirectoryName kv.2))
     (jVersion kv.2) (jOffset kv.2)).

Definition keyLe (a b : string * jsonTraceFile) : Prop :=
  String.leb a.1 b.1 = true.

#[global] Instance keyLe_dec a b : Decision (keyLe a b).
Proof. unfold keyLe. apply _. Defined.

Definition Marshal (r : Roster) : rosterDoc :=
  match R r with
  | None => None
  | Some m => Some (encodeEntry <$> merge_sort keyLe (map_to_list m))
  end.

(** Decoding an object into a map stores the members in the order they
    are read: a later member replaces an earlier one with the same key. *)
Definition Unmarshal (d : rosterDoc) : Roster :=
  match d with
  | None => mkRoster None
  | Some kvs => mkRoster (Some (foldl (fun m kv => <[kv.1 := kv.2]> m) ∅ kvs))
  end.

(** The file the roster is persisted in. *)
Inductive rosterFileState : Type :=
| NoFile                       (* the file does not exist *)
| Unreadable                   (* reading it fails for another reason *)
| NotJSON                      (* its content is not a JSON roster *)
| RosterJSON (d : rosterDoc).

(** The disk as [Save] and [LoadRoster] see it.  [mkdirFails] and
    [writeFails] say whether [os.MkdirAll] and [ioutil.WriteFile] fail.
    [ioutil.WriteFile] opens the file with [O_TRUNC] and then writes:
    [truncated] says where a failing write fails.  When it is [false] the
    open is refused (permission) and the file is as it was; when it is
    [true] the file has been opened and emptied, and the write stops
    before the end (disk full), leaving a strict prefix of the document. *)
Record Disk : Type := mkDisk {
  rosterFile : rosterFileState;
  mkdirFails : bool;
  writeFails : bool;
  truncated : bool
}.

Definition LoadRoster (fileName : string) (d : Disk) : res Roster :=
  match rosterFile d with
  | NoFile => Ok (mkRoster (Some ∅))
  | Unreadable => Err (ErrIO "read" fileName)
  | NotJSON => Err (ErrJSON "Unmarshal")
  | RosterJSON doc => Ok (Unmarshal doc)
  end.

Section WithFilepath.
Context `{Filepath}.

(** [Roster.Save].  The entry is stored in the map before anything is
    written, and stays there when the write fails.  The document
    [MarshalIndent] writes is one JSON object, so no strict prefix of it
    is a JSON document: after a write that stopped early the file is
    [NotJSON]. *)
Definition Save (fileName : string) (tf : TraceFile) (r : Roster) (d : Disk)
  : res unit * Roster * Disk :=
  let traceKey := Join (DirectoryName tf) (Name tf) in
  match R r with
  | None => (Panic "assignment to entry in nil map", r, d)
  | Some m =>
    let r' := mkRoster (Some (<[traceKey :=
                mkJsonTraceFile (Name tf) (DirectoryName tf) (version tf)
                  (offset tf)]> m)) in
    let out := Marshal r' in
    if mkdirFails d then (Err (ErrIO "mkdir" (Dir fileName)), r', d)
    else if writeFails d then
      if truncated d
      then (Err (ErrIO "write" fileName), r',
            mkDisk NotJSON (mkdirFails d) (writeFails d) (truncated d))
      else (Err (ErrIO "open" fileName), r', d)
    else (Ok tt, r',
          mkDisk (RosterJSON out) (mkdirFails d) (writeFails d)
            (truncated d))
  end.

(** [OpenTraceFile] and [Roster.TraceFile].  [exists_] says whether
    [os.Open] finds the trace file. *)
Definition OpenTraceFile (fileName : string) (exists_ : bool)
  : res TraceFile :=
  if exists_
  then Ok (mkTraceFile (Base fileName) (Dir fileName) 1 0 fileName)
  else Err (ErrIO "open" fileName).

Definition TraceFileOf (r : Roster) (fileName : string) (exists_ : bool)
  : res TraceFile :=
  match R r ≫= (.!! fileName) with
  | None => OpenTraceFile fileName exists_
  | Some rf =>
    if exists_
    then Ok (mkTraceFile (jName rf) (jDirectoryName rf) (jVersion rf)
               (jOffset rf) fileName)
    else Err (ErrIO "open" fileName)
  end.

(** The path of the roster file, [RosterFile]: a package variable,
    initialised once to [filepath.Join(Dir(), "rtta.roster")] when the
    package is loaded.  [Dir()] returns [RttaHome], which is still the
    empty string then; setting [RttaHome] later does not change
    [RosterFile]. *)
Definition RosterFile : string := Join "" "rtta.roster".

Definition UpdateRoster (tf : TraceFile) (r : Roster) (d : Disk)
  : res unit * Roster * Disk :=
  Save RosterFile tf r d.

End WithFilepath.

(** *** The trace file reader *)

(** [bufio.ScanLines] over the bytes [s]: the lines, each without its line
    feed, and whether a line feed ended it.  Only the last line can lack
    one, and an empty last line is no line. *)
Fixpoint splitLines (s : string) : list (string * bool) :=
  match s with
  | EmptyString => []
  | String c s' =>
    if Ascii.eqb c LF then ("", true) :: splitLines s'
    else
      match splitLines s' with
      | [] => [(String c "", false)]
      | (l, t) :: ls => (String c l, t) :: ls
      end
  end.

(** [dropCR]: a trailing carriage return is not part of the token. *)
Fixpoint dropCR (s : string) : string :=
  match s with
  | EmptyString => ""
  | String c EmptyString => if Ascii.eqb c CR then "" else s
  | String c s' => String c (dropCR s')
  end.

(** [bufio.MaxScanTokenSize]. *)
Definition MaxScanTokenSize : Z := 65536.

(** The tokens successive calls of [Scanner.Scan] deliver: the lines, up to
    the first one that does not fit the scanner's buffer (there [Scan]
    returns false for good). *)
Fixpoint scanTokens (lines : list (string * bool)) : list string :=
  match lines with
  | [] => []
  | (l, _) :: ls =>
    if len l <? MaxScanTokenSize
    then dropCR l :: scanTokens ls
    else []
  end.

(** The loop of [ReadRecords] over the tokens still to come. *)
Fixpoint readLoop (tokens : list string) (n : nat) (off : Z)
  (records : list string) : list string * Z :=
  match tokens with
  | [] => (records, off)
  | tok :: rest =>
    if (n <? recordsCount)%nat
    then readLoop rest (S n) (wrap64 (off + wrap64 (len tok + 1)))
           (records ++ [tok +:+ String LF ""])
    else (records, off)
  end.

Definition withOffset (off : Z) (tf : TraceFile) : TraceFile :=
  mkTraceFile (Name tf) (DirectoryName tf) (version tf) off (fileHandle tf).

(** The bytes of [s] from position [n] on; none when the file is shorter. *)
Fixpoint skip (n : nat) (s : string) : string :=
  match n, s with
  | O, _ => s
  | S n', String _ s' => skip n' s'
  | S _, EmptyString => ""
  end.

Section WithFileSystem.
Context `{FileSystem}.

(** Whether [Seek(off, io.SeekStart)] succeeds on a file whose content is
    [data]: the offset is not negative and not beyond the largest offset
    of the file system.  A file is never longer than that limit, so an
    offset inside the file is always accepted; an offset beyond the end of
    the file is accepted up to the limit. *)
Definition seekable (data : string) (off : Z) : bool :=
  (0 <=? off) && (off <=? Z.max (len data) maxOffset).

(** [seek]: [Seek(tf.offset, io.SeekStart)], which returns the offset. *)
Definition seek (data : string) (tf : TraceFile) : res TraceFile :=
  if seekable data (offset tf) then Ok tf
  else Err (ErrIO "seek" (fileHandle tf)).

(** [ReadRecords], on a trace file whose content is [data]. *)
Definition ReadRecords (data : string) (tf : TraceFile)
  : res (list string) * TraceFile :=
  match seek data tf with
  | Ok tf1 =>
    let rest := skip (Z.to_nat (offset tf1)) data in
    let '(records, off) :=
      readLoop (scanTokens (splitLines rest)) 0 (offset tf1) [] in
    (Ok records, withOffset off tf1)
  | Err e => (Err e, tf)
  | Panic w => (Panic w, tf)
  | Fatal w => (Fatal w, tf)
  end.

(** *** [readRecords2], the reader built on [bufio.Reader.ReadString] *)

(** [ReadString('\n')] on the bytes still to come: the line up to and
    including its line feed, and the bytes after it; [None] when the input
    ends before a line feed (the error [io.EOF], with the partial line). *)
Fixpoint readString (s : string) : option (string * string) :=
  match s with
  | EmptyString => None
  | String c s' =>
    if Ascii.eqb c LF then Some (String c "", s')
    else
      match readString s' with
      | Some (l, rest) => Some (String c l, rest)
      | None => None
      end
  end.

(** The loop of [readRecords2]: [count] iterations are left, [n] and [rnum]
    are its two counters, [off] is [tf.offset]. *)
Fixpoint readLoop2 (count : nat) (s records : string) (n rnum off : Z)
  : string * Z * Z :=
  match count with
  | O => (records, n, off)
  | S count' =>
    match readString s with
    | None => (records, rnum, off)
    | Some (rec, rest) =>
      readLoop2 count' rest (records +:+ rec) (wrap64 (n + 1))
        (wrap64 (rnum + 1)) (wrap64 (off + len rec))
    end
  end.

(** [readRecords2 recordsCount offset]: the file is read from [offset],
    while the bytes read are added to [tf.offset]. *)
Definition readRecords2 (data : string) (recordsCount offset_ : Z)
  (tf : TraceFile) : res (string * Z * Z) * TraceFile :=
  if negb (seekable data offset_)
  then (Err (ErrIO "seek" (fileHandle tf)), tf)
  else
    let '(records, n, off) :=
      readLoop2 (Z.to_nat recordsCount) (skip (Z.to_nat offset_) data) ""
        0 0 (offset tf) in
    (Ok (records, n, off), withOffset off tf).

End WithFileSystem.

End rttanalyzer.

(** ** The dumpers of package [sink] *)

Module dumpers.
Import sink.

(** The output media [watchdog.output] can set up. *)
Inductive media : Type := VarzMedia | PubSubMedia.

(** A dumper: the fields of [Generic] the parser works on, and what it has
    handed to its medium so far (a varz line written, a Pub/Sub message
    enqueued), oldest first.  [enqueueFails] says whether
    [rttpubsub.Enqueue] fails; the result of writing a varz file is
    ignored by [Varz.Dump]. *)
Record Generic : Type := mkGeneric {
  Media : media;
  DBName : string;
  MonitoredSQLs : list MonitoredSQL;
  CursorTracker : CursorTrackerProtected;
  emitted : list parsedSummary;
  enqueueFails : bool
}.

Definition withParsed (g : Generic) (st : pstate) : Generic :=
  mkGeneric (Media g) (DBName g) st.1 st.2 (emitted g) (enqueueFails g).

Definition emit (pr : parsedSummary) (g : Generic) : Generic :=
  mkGeneric (Media g) (DBName g) (MonitoredSQLs g) (CursorTracker g)
    (emitted g ++ [pr]) (enqueueFails g).

(** [Varz.Dump] and [PubSub.Dump]. *)
Definition Dump (traceRec : string) (g : Generic) : res unit * Generic :=
  match parseRecord traceRec (MonitoredSQLs g) (CursorTracker g) with
  | (Ok pr, st) =>
    let g' := withParsed g st in
    if negb (isViolation pr) then (Ok tt, g')
    else
      match Media g with
      | VarzMedia => (Ok tt, emit pr g')
      | PubSubMedia =>
        if enqueueFails g
        then (Err (ErrWrap "sink.Dump for PubSub: error in calling rttpubsub.Enqueue"
                     (ErrOther "Enqueue")), g')
        else (Ok tt, emit pr g')
      end
  | (r, st) => (abort r, withParsed g st)
  end.

End dumpers.

(** ** Package [miner] *)

Module miner.
Import rttanalyzer.

(** The [Dumper] interface. *)
Class Dumper (D : Type) : Type := { Dump : string -> D -> res unit * D }.

#[global] Instance sinkDumper : Dumper dumpers.Generic :=
  {| Dump := dumpers.Dump |}.

(** The dumper of the package's test: it appends what it is given. *)
#[global] Instance testDumper : Dumper string :=
  {| Dump := fun s str => (Ok tt, str +:+ s) |}.

(** The loop over a batch: the first [Dump] that fails ends it. *)
Fixpoint dumpAll {D} `{Dumper D} (strs : list string) (dumper : D)
  : res unit * D :=
  match strs with
  | [] => (Ok tt, dumper)
  | v :: rest =>
    match Dump v dumper with
    | (Ok _, dumper') => dumpAll rest dumper'
    | other => other
    end
  end.

(** What a Miner works on beside its dumper: its trace file (the state it
    owns, and the bytes the file holds), and the roster with its disk. *)
Record Env : Type := mkEnv {
  tf : TraceFile;
  data : string;
  roster : Roster;
  disk : Disk
}.

(** How one pass through the body of [Mine]'s loop ends. *)
Inductive pass : Type :=
| Again                      (* the batch was not empty: loop *)
| Receive                    (* the batch was empty: at [<-notify] *)
| Return (err : error)       (* [return err] *)
| Crash (fatal : bool) (what : string). (* a panic, or [log.Fatal] *)

Definition crashOf {A} (r : res A) : pass :=
  match r with
  | Ok _ => Again
  | Err e => Return e
  | Panic w => Crash false w
  | Fatal w => Crash true w
  end.

Section Mine.
Context `{Filepath} `{FileSystem} {D : Type} `{Dumper D}.

(** One pass: read a batch, dump it, and on an empty batch persist the
    offset.  What [UpdateRoster] returns is dropped: only a panic inside
    it is felt. *)
Definition minePass (dumper : D) (e : Env) : pass * D * Env :=
  match ReadRecords (data e) (tf e) with
  | (Ok strs, tf') =>
    let e1 := mkEnv tf' (data e) (roster e) (disk e) in
    match dumpAll strs dumper with
    | (Ok _, dumper') =>
      if (List.length strs =? 0)%nat then
        match UpdateRoster tf' (roster e1) (disk e1) with
        | (Panic w, r', d') => (Crash false w, dumper', mkEnv tf' (data e) r' d')
        | (_, r', d') => (Receive, dumper', mkEnv tf' (data e) r' d')
        end
      else (Again, dumper', e1)
    | (r, dumper') => (crashOf r, dumper', e1)
    end
  | (r, tf') => (crashOf r, dumper, mkEnv tf' (data e) (roster e) (disk e))
  end.

(** What the Miner finds each time it receives from [notify]: a wake (by
    then the trace file has grown by [appended]), or the closed channel. *)
Inductive notification : Type :=
| Wake (appended : string)
| Closed.

(** How a run of [Mine] ends. *)
Inductive mined : Type :=
| Returned (err : option error) (* [Mine] returned [err] ([None]: nil) *)
| Waiting                       (* blocked at [<-notify]: nothing to receive *)
| Crashed (fatal : bool) (what : string)
| Running.                      (* still looping when the fuel ran out *)

(** [Mine]: [fuel] bounds the number of passes, [notify] lists what the
    channel delivers. *)
Fixpoint Mine (fuel : nat) (notify : list notification) (dumper : D)
  (e : Env) : mined * D * Env :=
  match fuel with
  | O => (Running, dumper, e)
  | S fuel' =>
    match minePass dumper e with
    | (Again, dumper', e') => Mine fuel' notify dumper' e'
    | (Receive, dumper', e') =>
      match notify with
      | [] => (Waiting, dumper', e')
      | Closed :: _ => (Returned None, dumper', e')
      | Wake appended :: notify' =>
        Mine fuel' notify' dumper'
          (mkEnv (tf e') (data e' +:+ appended) (roster e') (disk e'))
      end
    | (Return err, dumper', e') => (Returned (Some err), dumper', e')
    | (Crash f w, dumper', e') => (Crashed f w, dumper', e')
    end
  end.

End Mine.

End miner.

(** ** Package [watchdog] *)

Module watchdog.
Import rttanalyzer miner.

(** *** Channels *)

(** A [chan struct{}]: its capacity, the number of values in its buffer,
    and whether it has been closed. *)
Record chan : Type := mkChan {
  capacity : nat;
  queued : nat;
  closed : bool
}.

(** [make(chan struct{}, n)]; [make(chan struct{})] is [make 0]. *)
Definition make (n : nat) : chan := mkChan n 0 false.

Inductive sent : Type :=
| Delivered (ch : chan)   (* the send completed *)
| Dropped (ch : chan)     (* a [select] with [default] gave up *)
| SenderBlocks            (* the sender waits for a receiver *)
| SendPanics.             (* send on a closed channel *)

(** The send statement [ch <- struct{}{}].  [receiving] says whether a
    goroutine is waiting in a receive on [ch]: it then takes the value
    directly.  Otherwise the value goes to the buffer if there is room,
    and the sender waits if there is none. *)
Definition send (receiving : bool) (ch : chan) : sent :=
  if closed ch then SendPanics
  else if receiving then Delivered ch
  else if (queued ch <? capacity ch)%nat
       then Delivered (mkChan (capacity ch) (S (queued ch)) (closed ch))
       else SenderBlocks.

(** The non-blocking send [select { case ch <- struct{}{}: default: }],
    for comparison: it never waits. *)
Definition trySend (receiving : bool) (ch : chan) : sent :=
  match send receiving ch with
  | SenderBlocks => Dropped ch
  | r => r
  end.

(** *** The table of traces *)

(** Channels are shared objects: [chans] holds them by address, and
    [traces] maps a trace file to the address of its wake channel. *)
Record stat : Type := mkStat {
  traces : gmap string nat;
  chans : list chan
}.

Definition addOrGetTrace (key : string) (s : stat) : bool * nat * stat :=
  (* first check, under the read lock *)
  match traces s !! key with
  | Some i => (false, i, s)
  | None =>
    (* second check, under the write lock *)
    match traces s !! key with
    | Some i => (false, i, s)
    | None =>
      let i := List.length (chans s) in
      (true, i, mkStat (<[key := i]> (traces s)) (chans s ++ [make 0]))
    end
  end.

Definition deleteTrace (key : string) (s : stat) : stat :=
  mkStat (base.delete key (traces s)) (chans s).

(** *** The Watchdog and its Miners *)

(** A Miner the Watchdog has started: the trace file it owns, the address
    of its wake channel, and whether it is waiting at [<-notify]. *)
Record Miner : Type := mkMiner {
  file : TraceFile;
  notify : nat;
  receiving : bool
}.

(** The state of a run of [Run]: [dumper] is the one object [output]
    returned, which [checkFile] hands to every Miner it starts. *)
Record System : Type := mkSystem {
  dbName : string;
  dumper : dumpers.Generic;
  table : stat;
  theRoster : Roster;
  theDisk : Disk;
  files : gmap string string;  (* the trace files and their bytes *)
  miners : gmap string Miner
}.

(** [output]: the dumper for the requested medium, over a fresh cursor
    tracker.  [opened] is what opening and reading the SQL input gives
    (see [sink.loadSQL]); a watch list that cannot be loaded is fatal. *)
Definition output (dbName outputType : string)
  (opened : res (list (res (list string)))) : res dumpers.Generic :=
  let cur := sink.newTracker in
  let load (m : dumpers.media) : res dumpers.Generic :=
    match sink.loadSQL opened with
    | Ok sql => Ok (dumpers.mkGeneric m dbName sql cur [] false)
    | Err _ => Fatal "LoadSQL: error reading SQL statements input file"
    | Panic w => Panic w
    | Fatal w => Fatal w
    end in
  if String.eqb outputType "varz" then load dumpers.VarzMedia
  else if String.eqb outputType "pubsub" then load dumpers.PubSubMedia
  else Err (ErrOther "output error: outputtype can be one of varz, pubsub").

(** How a call of [checkFile] ends. *)
Inductive checked : Type :=
| Skipped          (* not a trace file of this database *)
| Woke             (* the file's Miner received the wake *)
| Launched         (* a new Miner was started *)
| WatchdogBlocks   (* the Watchdog waits in the send *)
| WatchdogPanics
| WatchdogFatal.

Section Watchdog.
Context `{Filepath} `{FileSystem}.

Definition withTable (t : stat) (s : System) : System :=
  mkSystem (dbName s) (dumper s) t (theRoster s) (theDisk s) (files s)
    (miners s).

Definition withMiner (key : string) (m : Miner) (s : System) : System :=
  mkSystem (dbName s) (dumper s) (table s) (theRoster s) (theDisk s)
    (files s) (<[key := m]> (miners s)).

Definition checkFile (fileName : string) (s : System) : checked * System :=
  if negb (String.eqb (Ext fileName) ".trc") then (Skipped, s)
  else if negb (GoStrings.HasPrefix (Base fileName) (dbName s +:+ "_ora_"))
  then (Skipped, s)
  else
    let '(launchMiner, ch, t) := addOrGetTrace fileName (table s) in
    let s1 := withTable t s in
    if negb launchMiner then
      let waiting :=
        match miners s1 !! fileName with
        | Some m => receiving m
        | None => false
        end in
      match chans t !! ch with
      | None => (WatchdogPanics, s1)
      | Some c =>
        match send waiting c with
        | Delivered c' =>
          (Woke,
           mkSystem (dbName s1) (dumper s1)
             (mkStat (traces t) (<[ch := c']> (chans t)))
             (theRoster s1) (theDisk s1) (files s1)
             (match miners s1 !! fileName with
              | Some m => <[fileName := mkMiner (file m) (notify m) false]>
                            (miners s1)
              | None => miners s1
              end))
        | Dropped _ => (Woke, s1)
        | SenderBlocks => (WatchdogBlocks, s1)
        | SendPanics => (WatchdogPanics, s1)
        end
      end
    else
      match TraceFileOf (theRoster s1) fileName
              (bool_decide (is_Some (files s1 !! fileName))) with
      | Ok f => (Launched, withMiner fileName (mkMiner f ch false) s1)
      | Panic _ => (WatchdogPanics, s1)
      | _ => (WatchdogFatal, s1)
      end.

(** One pass of the loop of the Miner of [fileName], run in the system: it
    works on the system's dumper.  A Miner that returns an error is
    forgotten ([deleteTrace]); one that finds its batch empty waits. *)
Definition minerPass (fileName : string) (s : System) : System :=
  match miners s !! fileName with
  | None => s
  | Some m =>
    if receiving m then s
    else
      let e := mkEnv (file m) (default "" (files s !! fileName))
                 (theRoster s) (theDisk s) in
      let '(p, d', e') := minePass (dumper s) e in
      let s' (ms : gmap string Miner) (t : stat) : System :=
        mkSystem (dbName s) d' t (roster e') (disk e') (files s) ms in
      match p with
      | Again =>
        s' (<[fileName := mkMiner (tf e') (notify m) false]> (miners s))
           (table s)
      | Receive =>
        (* at [<-notify]: a buffered wake is taken at once, otherwise the
           Miner waits *)
        match chans (table s) !! notify m with
        | Some c =>
          if (0 <? queued c)%nat then
            s' (<[fileName := mkMiner (tf e') (notify m) false]> (miners s))
               (mkStat (traces (table s))
                  (<[notify m := mkChan (capacity c) (Nat.pred (queued c))
                                   (closed c)]> (chans (table s))))
          else if closed c then s' (base.delete fileName (miners s)) (table s)
          else
            s' (<[fileName := mkMiner (tf e') (notify m) true]> (miners s))
               (table s)
        | None => s' (miners s) (table s)
        end
      | Return _ =>
        s' (base.delete fileName (miners s)) (deleteTrace fileName (table s))
      | Crash _ _ => s' (miners s) (table s)
      end
  end.

(** The system after the Miners ran one pass each in the order [schedule]. *)
Definition runMiners (schedule : list string) (s : System) : System :=
  foldl (fun s f => minerPass f s) s schedule.

End Watchdog.

End watchdog.

(** ** Vocabulary of the properties *)

Section WatchListVocabulary.
Import sink.

(** A record with at least two fields whose second field is a number. *)
Definition wellFormed (record : list string) : bool :=
  match record with
  | _ :: f1 :: _ => is_Ok (strconv.Atoi f1)
  | _ => false
  end.

(** The entry a well-formed record yields. *)
Definition entryOf (record : list string) : list MonitoredSQL :=
  match record with
  | f0 :: f1 :: ids =>
    match strconv.Atoi f1 with
    | Ok v => [mkMonitoredSQL f0 v ids float64.zero float64.zero 0]
    | _ => []
    end
  | _ => []
  end.

End WatchListVocabulary.

Section ParserVocabulary.
Import sink GoStrings.

(** The tokens of a PARSE, EXEC or FETCH record: token 1 is the cursor
    number, token 3 the CPU time and token 5 the elapsed time. *)
Definition execFields (rec : string) : list string :=
  FieldsFunc rec execSeparator.

(** The states the parser can be in: [watchdog.output] creates the tracker
    empty beside the watch list [sql0] it loaded, and from then on only
    [parseRecord] touches the two. *)
Inductive reachable (sql0 : list MonitoredSQL) : pstate -> Prop :=
| reach_init : reachable sql0 (sql0, newTracker)
| reach_step rec wantSQL ct r st' :
    reachable sql0 (wantSQL, ct) ->
    parseRecord rec wantSQL ct = (r, st') ->
    reachable sql0 st'.

(** Every tracked cursor carries the name of a watch-list entry. *)
Definition tracked_named (st : pstate) : Prop :=
  forall k cur,
    Cursors st.2 !! k = Some cur ->
    cursor.BusinessTxName cur ∈ (BusinessTxName <$> st.1).

End ParserVocabulary.

(** A [Filepath] and a [FileSystem] for running examples: on a clean
    directory and a plain file name, as in every example below,
    [filepath.Join] is the concatenation with a slash, an empty element
    being ignored; [Dir] and [Base] split at the last slash and [Ext] at
    the last dot of the base. *)
Module unix.

Fixpoint lastIndex (c : ascii) (s : string) (i : nat) (found : option nat)
  : option nat :=
  match s with
  | EmptyString => found
  | String c' s' =>
    lastIndex c s' (S i) (if Ascii.eqb c' c then Some i else found)
  end.

Definition baseOf (p : string) : string :=
  match lastIndex "/" p 0 None with
  | Some i => rttanalyzer.skip (S i) p
  | None => p
  end.

Definition dirOf (p : string) : string :=
  match lastIndex "/" p 0 None with
  | Some O => "/"
  | Some i => String.substring 0 i p
  | None => "."
  end.

Definition extOf (p : string) : string :=
  match lastIndex "." (baseOf p) 0 None with
  | Some i => rttanalyzer.skip i (baseOf p)
  | None => ""
  end.

(** [filepath.Join] of two elements, on clean paths: an empty element is
    ignored. *)
Definition joinOf (d n : string) : string :=
  if String.eqb d "" then n
  else if String.eqb n "" then d
  else d +:+ "/" +:+ n.

Definition paths : Filepath :=
  {| Join := joinOf; Dir := dirOf; Base := baseOf; Ext := extOf |}.

(** A file system whose largest offset is 2^44, as ext4 with blocks of
    4 KiB has it. *)
Definition ext4 : FileSystem := {| maxOffset := 2 ^ 44 |}.

End unix.

Section ReaderVocabulary.
Import GoStrings.

(** A line feed, as a string. *)
Definition nl : string := String LF "".

(** Whether the byte [c] occurs in [s]. *)
Fixpoint hasByte (c : ascii) (s : string) : bool :=
  match s with
  | EmptyString => false
  | String c' s' => Ascii.eqb c' c || hasByte c s'
  end.

(** An entry of the roster whose key and names are valid UTF-8. *)
Definition validEntry (k : string) (v : rttanalyzer.jsonTraceFile) : Prop :=
  json.validUTF8 k /\ json.validUTF8 (rttanalyzer.jName v)
  /\ json.validUTF8 (rttanalyzer.jDirectoryName v).

End ReaderVocabulary.

(** ** Values for the examples *)

Module Examples.
Import sink.

Definition OE : list MonitoredSQL :=
  [mkMonitoredSQL "OE" 1 ["abc"] float64.zero float64.zero 0].
Definition s1 : string :=
  "PARSING IN CURSOR #17 len=120 dep=0 uid=0 oct=3 lid=0 tim=1 hv=99 ad='x' sqlid='abc'".
Definition c17 : cursor.Cursor :=
  cursor.NewCursor 17 "abc" "OE" 1 "99" 120 0 0 0 3.
Definition t17 : CursorTrackerProtected :=
  mkTracker (mkRWMutex false 0) {[ 17 := c17 ]}.

(** A dumper to varz files over the watch list [OE], the cursor 17 open. *)
Definition varz17 : dumpers.Generic :=
  dumpers.mkGeneric dumpers.VarzMedia "db" OE t17 [] false.

(** A trace file state at the start of its file. *)
Definition trace1 : rttanalyzer.TraceFile :=
  rttanalyzer.mkTraceFile "db_ora_1.trc" "/t" 1 0 "/t/db_ora_1.trc".

(** The record of scenario S2. *)
Definition s2 : string := "EXEC #17:c=2000,e=5000,p=0,cr=0".

(** Scenario S4: a second business transaction, and a record that reuses
    cursor 17 for its SQL. *)
Definition OEGL : list MonitoredSQL :=
  OE ++ [mkMonitoredSQL "GL" 10 ["def"] float64.zero float64.zero 0].
Definition s4 : string :=
  "PARSING IN CURSOR #17 len=33 dep=1 uid=5 oct=3 lid=5 tim=2 hv=77 ad='y' sqlid='def'".

End Examples.

Section MinerVocabulary.
Import sink GoStrings.

(** The attributes of a PARSING IN CURSOR record that [parseOtherAttr]
    converts to numbers ([len], [dep], [uid], [oct], [lid]), in the order
    it converts them: the index of the word, and the text its error
    begins with. *)
Definition numericAttrs : list (nat * string) :=
  [(4%nat, "parseOtherAttr: can't parse length");
   (5%nat, "parseOtherAttr: can't parse depth");
   (6%nat, "parseOtherAttr: can't parse uID");
   (7%nat, "parseOtherAttr: can't parse oct");
   (8%nat, "parseOtherAttr: can't parse lID")].

(** A failure to convert one of these attributes: the record has its
    eleven words, the attributes before the one at fault convert, and what
    follows the first four bytes of the word at fault is not a number. *)
Inductive attrFailure (rec : string) : error -> Prop :=
| attr_fails before i what after w v e0 :
    numericAttrs = before ++ (i, what) :: after ->
    (10 < List.length (Fields rec))%nat ->
    Forall (fun a => is_Ok (attrInt (Fields rec) a.1 a.2) = true) before ->
    Fields rec !! i = Some w ->
    sliceFrom 4 w = Ok v ->
    strconv.Atoi v = Err e0 ->
    attrFailure rec (ErrWrap what e0).

(** The numeric parse failures [parseRecord] meets before it looks at the
    CPU and elapsed tokens, on the watch list [wantSQL] and the cursor
    table [ct], each with the error reported and the cursor that is closed
    on the way, if any:
    - the cursor number of a PARSE, EXEC or FETCH record that has its six
      tokens;
    - the cursor number of a PARSING IN CURSOR record;
    - an attribute of a PARSING IN CURSOR record for a SQL id of interest
      whose cursor number is free: the cursor cannot be opened;
    - an attribute of a PARSING IN CURSOR record for a SQL id of interest
      whose cursor number is open for another SQL id: that cursor has been
      closed by then, and the new one cannot be opened.
    The attributes are not converted in any other case. *)
Inductive numericFailure (wantSQL : list MonitoredSQL)
  (ct : CursorTrackerProtected) (rec : string)
  : error -> option Z -> Prop :=
| failure_exec w1 e0 :
    traceRecordType rec = traceRecordTypeParseExecFetch ->
    (5 < List.length (execFields rec))%nat ->
    execFields rec !! 1%nat = Some w1 ->
    strconv.Atoi w1 = Err e0 ->
    numericFailure wantSQL ct rec
      (ErrWrap "parseExec: cursor# doesn't appear to be a number" e0) None
| failure_parsing sq cs e0 :
    traceRecordType rec = traceRecordTypeParsingInCursor ->
    parseSQLID rec = Ok (sq, cs) ->
    strconv.Atoi cs = Err e0 ->
    numericFailure wantSQL ct rec
      (ErrWrap "parseRecord: error from calling parsingInCursor"
         (ErrWrap "parsingInCursor: error in CursorID string->int conversion"
            e0)) None
| failure_attr_open sq cs id tx thr e :
    traceRecordType rec = traceRecordTypeParsingInCursor ->
    parseSQLID rec = Ok (sq, cs) ->
    strconv.Atoi cs = Ok id ->
    interestingSQL sq wantSQL = (true, tx, thr) ->
    Cursors ct !! id = None ->
    attrFailure rec e ->
    numericFailure wantSQL ct rec
      (ErrWrap "parseRecord: error from calling parsingInCursor"
         (ErrWrap "compareAndSet: error from calling open" e)) None
| failure_attr_reopen sq cs id tx thr old e :
    traceRecordType rec = traceRecordTypeParsingInCursor ->
    parseSQLID rec = Ok (sq, cs) ->
    strconv.Atoi cs = Ok id ->
    interestingSQL sq wantSQL = (true, tx, thr) ->
    Cursors ct !! id = Some old ->
    sq <> cursor.SQLID old ->
    attrFailure rec e ->
    numericFailure wantSQL ct rec e (Some id).

End MinerVocabulary.

Module SystemExamples.
Import rttanalyzer watchdog.

Definition file1 : string := "/t/db_ora_1.trc".
Definition file2 : string := "/t/db_ora_2.trc".

(** A run of [Run] at its start: the dumper [output] made from the watch
    list of the scenarios, no trace known, and two trace files on disk.
    The first holds the PARSING IN CURSOR record of scenario S1, the second
    the EXEC record of scenario S2 and nothing else. *)
Definition start : System :=
  mkSystem "db"
    (dumpers.mkGeneric dumpers.VarzMedia "db" Examples.OE sink.newTracker []
       false)
    (mkStat ∅ [])
    (mkRoster (Some ∅))
    (mkDisk NoFile false false false)
    {[ file1 := Examples.s1 +:+ nl; file2 := Examples.s2 +:+ nl ]}
    ∅.

(** After the filesystem events that announce the two files. *)
Definition launched : System :=
  (@checkFile unix.paths file2 (@checkFile unix.paths file1 start).2).2.

End SystemExamples.

Section WatchListStatics.
Import sink.

(** The part of a watch-list entry that is loaded from the SQL input and
    never written afterwards: name, threshold and SQL ids. *)
Definition static (sw : MonitoredSQL) : string * Z * list string :=
  (BusinessTxName sw, ELAThreshold sw, SQLID sw).

(** Whether the entry lists the SQL id. *)
Definition lists (id : string) (sw : MonitoredSQL) : Prop := id ∈ SQLID sw.

End WatchListStatics.

Section LinesVocabulary.
Import GoStrings rttanalyzer.

(** A line as a trace file should hold it: no line feed inside, no
    carriage return at its end, and short enough for the scanner. *)
Definition completeLine (l : string) : Prop :=
  hasByte LF l = false /\ dropCR l = l /\ len l < MaxScanTokenSize.

(** The bytes of a file made of the lines [ls], each ended by a line
    feed. *)
Definition fileOf (ls : list string) : string :=
  foldr (fun l acc => l +:+ String LF acc) "" ls.

(** The records [ReadRecords] makes of the lines. *)
Definition recordsOf (ls : list string) : list string :=
  (fun l => l +:+ nl) <$> ls.

End LinesVocabulary.

(** ** Package [sqlinput]: a watch list from an AWR report *)

Module sqlinput.
Import GoStrings rttanalyzer.

(** The section header of the report and the form feed that starts each of
    its pages. *)
Definition cntrlL : string := String (byte_of 12) "".
Definition sqlOrderedByELA : string :=
  String (byte_of 12) "SQL ordered by Elapsed Time".
Definition fieldsInAWRReport : nat := 7.

Record ExpensiveSQL : Type := mkExpensiveSQL {
  sqlid : string;
  elaPerExec : spec_float;
  elaPerExecString : string;
  ela : string;
  execs : string;
  percentTotal : string;
  percentCPU : string;
  percentIO : string
}.

Section ParseAWR.
Context `{Filepath} `{FileSystem}.
(** [strconv.ParseFloat(s, 64)]: the value, or [None] for its error. *)
Variable ParseFloat : string -> option spec_float.

Definition parseAWRLine (rec : string) (fieldsNumber : nat)
  : res ExpensiveSQL :=
  let words := FieldsFunc rec IsSpace in
  if negb (length words =? fieldsNumber)%nat
  then Err (ErrWords "parseAWRLine" (length words))
  else
    w2 ← index words 2;
    match ParseFloat w2 with
    | None =>
      Err (ErrOther
             "parseAWRLine: Skip. elaPerExec doesn't appear to be a number")
    | Some elaPerExec_ =>
      w6 ← index words 6;
      w0 ← index words 0;
      w1 ← index words 1;
      w3 ← index words 3;
      w4 ← index words 4;
      w5 ← index words 5;
      Ok (mkExpensiveSQL (TrimSpace w6) elaPerExec_ w2 w0 w1 w3 w4 w5)
    end.

(** The loop over one batch.  Its two [break]s leave the batch: the
    records after a header or a form feed in the same batch are not looked
    at. *)
Fixpoint awrBatch (strs : list string) (analyzeLineByLine : bool)
  (expSQL : list ExpensiveSQL) : res (bool * list ExpensiveSQL) :=
  match strs with
  | [] => Ok (analyzeLineByLine, expSQL)
  | v :: rest =>
    if HasPrefix v sqlOrderedByELA then Ok (true, expSQL)
    else if negb analyzeLineByLine
    then awrBatch rest analyzeLineByLine expSQL
    else if HasPrefix v cntrlL then Ok (false, expSQL)
    else
      match parseAWRLine v fieldsInAWRReport with
      | Ok s => awrBatch rest analyzeLineByLine (expSQL ++ [s])
      | Err _ => awrBatch rest analyzeLineByLine expSQL
      | Panic w => Panic w
      | Fatal w => Fatal w
      end
  end.

(** The outer loop of [ParseAWR], on a report whose bytes are [data]:
    [fuel] bounds the number of batches read, [None] says that it ran
    out. *)
Fixpoint parseLoop (fuel : nat) (data : string) (f : TraceFile)
  (analyzeLineByLine : bool) (expSQL : list ExpensiveSQL)
  : option (res (list ExpensiveSQL)) :=
  match fuel with
  | O => None
  | S fuel' =>
    match ReadRecords data f with
    | (Ok strs, f') =>
      if (length strs =? 0)%nat then Some (Ok expSQL)
      else
        match awrBatch strs analyzeLineByLine expSQL with
        | Ok (a, e) => parseLoop fuel' data f' a e
        | Err e => Some (Err e)
        | Panic w => Some (Panic w)
        | Fatal w => Some (Fatal w)
        end
    | (Err e, _) => Some (Err e)
    | (Panic w, _) => Some (Panic w)
    | (Fatal w, _) => Some (Fatal w)
    end
  end.

(** [ParseAWR].  [report] holds the bytes of the file [fileName], if it
    exists. *)
Definition ParseAWR (fuel : nat) (dbName fileName : string)
  (report : option string) : option (res (list ExpensiveSQL)) :=
  match OpenTraceFile fileName (bool_decide (is_Some report)) with
  | Ok f => parseLoop fuel (default "" report) f false []
  | Err e => Some (Err e)
  | Panic w => Some (Panic w)
  | Fatal w => Some (Fatal w)
  end.

End ParseAWR.

End sqlinput.

(** ** Package [main]: the configuration file *)

Module rtta.
Import GoStrings.

Record config : Type := mkConfig {
  dbName : string;
  dirName : string;
  mode : string;
  sqlInput : string;
  outputType : string;
  appCred : string;
  projectName : string
}.

(** The loop of [loadConfig] over what the successive calls of
    [csv.Reader.Read] return before [io.EOF]; the seven variables of the
    function travel as a [config]. *)
Fixpoint loadLoop (reads : list (res (list string))) (c : config)
  : res config :=
  match reads with
  | [] => Ok c
  | rd :: reads' =>
    record ← rd;
    r0 ← index record 0;
    let key := TrimSpace r0 in
    let assign (set : string -> config) : res config :=
      r1 ← index record 1; loadLoop reads' (set (TrimSpace r1)) in
    if String.eqb key "dbname" then
      assign (fun v => mkConfig v (dirName c) (mode c) (sqlInput c)
                         (outputType c) (appCred c) (projectName c))
    else if String.eqb key "dirname" then
      assign (fun v => mkConfig (dbName c) v (mode c) (sqlInput c)
                         (outputType c) (appCred c) (projectName c))
    else if String.eqb key "mode" then
      assign (fun v => mkConfig (dbName c) (dirName c) v (sqlInput c)
                         (outputType c) (appCred c) (projectName c))
    else if String.eqb key "sqlinput" then
      assign (fun v => mkConfig (dbName c) (dirName c) (mode c) v
                         (outputType c) (appCred c) (projectName c))
    else if String.eqb key "outputtype" then
      assign (fun v => mkConfig (dbName c) (dirName c) (mode c) (sqlInput c)
                         v (appCred c) (projectName c))
    else if String.eqb key "appcredentials" then
      assign (fun v => mkConfig (dbName c) (dirName c) (mode c) (sqlInput c)
                         (outputType c) v (projectName c))
    else if String.eqb key "projectname" then
      assign (fun v => mkConfig (dbName c) (dirName c) (mode c) (sqlInput c)
                         (outputType c) (appCred c) v)
    else Err (ErrOther ("unknown config parameter: " +:+ key))
  end.

(** [loadConfig], from the point where the file is opened. *)
Definition loadConfig (opened : res (list (res (list string))))
  : res config :=
  reads ← opened; loadLoop reads (mkConfig "" "" "" "" "" "" "").

End rtta.

Section SetupVocabulary.
Import GoStrings.

(** The rows [parseAWRLine] makes of the lines it accepts. *)
Definition rowsOf (ParseFloat : string -> option spec_float)
  (ls : list string) : list sqlinput.ExpensiveSQL :=
  omap (fun l =>
          match sqlinput.parseAWRLine ParseFloat (l +:+ nl)
                  sqlinput.fieldsInAWRReport with
          | Ok s => Some s
          | _ => None
          end) ls.

(** The batches of one record each, for the records [recs] in turn. *)
Fixpoint awrLines (ParseFloat : string -> option spec_float)
  (recs : list string) (a : bool) (e : list sqlinput.ExpensiveSQL)
  : res (bool * list sqlinput.ExpensiveSQL) :=
  match recs with
  | [] => Ok (a, e)
  | v :: rest =>
    match sqlinput.awrBatch ParseFloat [v] a e with
    | Ok (a', e') => awrLines ParseFloat rest a' e'
    | other => other
    end
  end.

(** An entry of the watch list that has seen no execution yet. *)
Definition untouched (sw : sink.MonitoredSQL) : Prop :=
  sink.LastELA sw = float64.zero /\ sink.WorstELA sw = float64.zero
  /\ sink.NumViolations sw = 0.

(** A stand-in for [strconv.ParseFloat] that reads whole numbers only,
    for reports that have no others. *)
Definition wholeNumber (s : string) : option spec_float :=
  match strconv.Atoi s with
  | Ok v => Some (float64.ofInt v)
  | _ => None
  end.

(** The parameters [loadConfig] knows. *)
Definition parameters : list string :=
  ["dbname"; "dirname"; "mode"; "sqlinput"; "outputtype"; "appcredentials";
   "projectname"].

(** A line of the configuration file that assigns a known parameter. *)
Definition assignment (record : list string) : Prop :=
  match record with
  | r0 :: _ :: _ => TrimSpace r0 ∈ parameters
  | _ => False
  end.

(** The value the records [records] leave in the parameter [key]: that of
    the last record that assigns it, trimmed; [init] if there is none. *)
Definition valueOf (key : string) (init : string)
  (records : list (list string)) : string :=
  foldl (fun acc record =>
           match record with
           | r0 :: r1 :: _ =>
             if String.eqb (TrimSpace r0) key then TrimSpace r1 else acc
           | _ => acc
           end) init records.

End SetupVocabulary.

(* ================================================================= *)
(** * Properties *)

(** ** Sanity checks of the library model *)

Example Atoi_17 : strconv.Atoi "17" = Ok 17.
Proof. reflexivity. Qed.
Example Atoi_neg : strconv.Atoi "-5" = Ok (-5).
Proof. reflexivity. Qed.
Example Atoi_big : strconv.Atoi "9223372036854775808" = Err (ErrRange "Atoi" "9223372036854775808").
Proof. reflexivity. Qed.
Example Fields_ex : GoStrings.Fields "  a b	c " = ["a"; "b"; "c"].
Proof. reflexivity. Qed.

(** ** The scenarios of the specification *)

Module ParserExamples.
Import sink Examples.

(** Scenario S1: the record opens cursor 17 for the watched SQL. *)
Example scenario_S1 :
  parseRecord s1 OE newTracker = (Ok emptySummary, (OE, t17)).
Proof. vm_compute. reflexivity. Qed.

(** Scenario S2: 5000 microseconds against a threshold of 1 ms. *)
Example scenario_S2 :
  let five := float64.ofInt 5 in
  parseRecord "EXEC #17:c=2000,e=5000,p=0,cr=0" OE t17
  = (Ok (mkSummary true "OE" (float64.ofInt 1) "abc" five five 1),
     ([mkMonitoredSQL "OE" 1 ["abc"] five five 1], t17)).
Proof. vm_compute. reflexivity. Qed.

(** Scenario S3: 500 microseconds stay under the threshold. *)
Example scenario_S3 :
  parseRecord "EXEC #17:c=100,e=500,p=0,cr=0" OE t17
  = (Ok emptySummary, (OE, t17)).
Proof. vm_compute. reflexivity. Qed.

(** Scenario S5: a record for a cursor nobody opened. *)
Example scenario_S5 :
  parseRecord "FETCH #99:c=1,e=1,p=0,cr=0" OE newTracker
  = (Ok emptySummary, (OE, newTracker)).
Proof. vm_compute. reflexivity. Qed.

End ParserExamples.

(** ** The cursor tracker *)

Section Tracker.
Import sink.

Lemma RUnlock_RLock c : RUnlock (RLock c) = c.
Proof. by destruct c as [[w n] m]. Qed.

Lemma get_eq key c : get key c = (Cursors c !! key, c).
Proof. unfold get. by rewrite RUnlock_RLock. Qed.

Lemma hasValue_eq key c :
  hasValue key c = (bool_decide (is_Some (Cursors c !! key)), c).
Proof. unfold hasValue. by rewrite RUnlock_RLock. Qed.

Lemma Unlock_Lock c : writer (mu c) = false -> Unlock (Lock c) = c.
Proof. destruct c as [[w n] m]. simpl. by intros ->. Qed.

(** C6. [compareAndSet key open c], for every key, closure and tracker:
    - when [key] is present, it returns [errExistingCursor] whatever the
      closure is (the closure is not run), and the table is unchanged;
    - when [key] is absent, the closure runs on the tracker with the write
      lock held; if it fails with [e], the error returned is [e] wrapped
      and the table is unchanged; if it returns [cur], the result is [cur]
      and the table is the old one with [cur] stored under [key];
    - in each of these cases the lock is released on return. *)
Theorem C6_compareAndSet (key : Z)
  (open : CursorTrackerProtected -> res cursor.Cursor)
  (c : CursorTrackerProtected) :
  (is_Some (Cursors c !! key) ->
     forall open',
       compareAndSet key open' c = (Err ErrExistingCursor, Unlock c))
  /\ (Cursors c !! key = None ->
      writer (mu (Lock c)) = true
      /\ Cursors (Lock c) = Cursors c
      /\ (forall e, open (Lock c) = Err e ->
            compareAndSet key open c
            = (Err (ErrWrap "compareAndSet: error from calling open" e),
               Unlock c))
      /\ (forall cur, open (Lock c) = Ok cur ->
            compareAndSet key open c
            = (Ok cur, Unlock (withCursors (<[key := cur]> (Cursors c)) c))))
  /\ Cursors (Unlock c) = Cursors c
  /\ writer (mu (Unlock c)) = false
  /\ (forall m, writer (mu (Unlock (withCursors m c))) = false).
Proof.
  repeat split; try done.
  - intros [old Hold] open'. unfold compareAndSet. simpl. by rewrite Hold.
  - intros e He. unfold compareAndSet. simpl. by rewrite H, He.
  - intros cur Hcur. unfold compareAndSet. simpl. by rewrite H, Hcur.
Qed.

(** A closure that succeeds only when it sees the write lock held: it is
    run for the absent key 7 and its cursor is stored; for the present key
    3 nothing is run. *)
Lemma C6_compareAndSet_witness :
  let cur := cursor.NewCursor 7 "abc" "OE" 1 "99" 120 0 0 0 3 in
  let c := mkTracker (mkRWMutex false 0) {[ 3 := cur ]} in
  let open := fun t : CursorTrackerProtected =>
                if writer (mu t) then Ok cur else Err (ErrOther "unlocked") in
  compareAndSet 7 open c
  = (Ok cur, mkTracker (mkRWMutex false 0) (<[7 := cur]> {[ 3 := cur ]}))
  /\ compareAndSet 3 (fun _ => Panic "never run") c = (Err ErrExistingCursor, c).
Proof.
  intros cur c open.
  destruct (C6_compareAndSet 7 open c) as (_ & Habsent & _).
  destruct (C6_compareAndSet 3 open c) as (Hpresent & _).
  split.
  - destruct Habsent as (_ & _ & _ & Hok); [done|].
    by rewrite (Hok cur).
  - rewrite Hpresent; [done|]. by exists cur.
Defined.

End Tracker.

(** ** The watch list *)

Section WatchList.
Import sink GoStrings.

Lemma loadRecords_step record reads s :
  wellFormed record = true ->
  loadRecords (Ok record :: reads) s = loadRecords reads (s ++ entryOf record).
Proof.
  destruct record as [|f0 [|f1 ids]]; try done.
  simpl. by destruct (strconv.Atoi f1) eqn:E.
Qed.

Lemma loadRecords_good good reads s :
  forallb wellFormed good = true ->
  loadRecords ((Ok <$> good) ++ reads) s
  = loadRecords reads (s ++ concat (entryOf <$> good)).
Proof.
  revert s. induction good as [|record good IH]; intros s Hg.
  - simpl. by rewrite app_nil_r.
  - simpl in Hg. apply andb_prop in Hg as [Hr Hg].
    rewrite fmap_cons. simpl app. rewrite loadRecords_step by done.
    rewrite IH by done. by rewrite <- app_assoc.
Qed.

Lemma loadRecords_bad record reads s :
  wellFormed record = false ->
  is_Ok (loadRecords (Ok record :: reads) s) = false.
Proof.
  destruct record as [|f0 [|f1 ids]]; try done.
  simpl. destruct (strconv.Atoi f1) eqn:E; try done; intros _; cbn;
    by rewrite E.
Qed.

Lemma loadRecords_ok_inv records s :
  is_Ok (loadRecords (Ok <$> records) s) = true ->
  forallb wellFormed records = true.
Proof.
  revert s. induction records as [|record records IH]; intros s Hok; [done|].
  rewrite fmap_cons in Hok. simpl.
  destruct (wellFormed record) eqn:Hw.
  - rewrite loadRecords_step in Hok by done. simpl. by eapply IH.
  - by rewrite loadRecords_bad in Hok.
Qed.

Lemma entryOf_length records :
  forallb wellFormed records = true ->
  List.length (concat (entryOf <$> records)) = List.length records.
Proof.
  induction records as [|record records IH]; [done|].
  intros [Hr Hg]%andb_prop. rewrite fmap_cons. cbn [concat List.length].
  rewrite length_app, IH by done.
  destruct record as [|f0 [|f1 ids]]; try done.
  simpl in *. by destruct (strconv.Atoi f1).
Qed.

(** C10. [loadSQL] over the records the CSV reader delivers:
    - it returns a watch list only if every record has at least two fields
      and a numeric second field, and under that condition it does return
      one, with one entry per record;
    - the second field is indexed unguarded: the first record with a
      single field makes the index expression panic;
    - a record with exactly two fields is accepted and yields an entry
      whose list of SQL ids is empty. *)
Theorem C10_loadSQL (records : list (list string)) :
  (is_Ok (loadSQL (Ok (Ok <$> records))) = true ->
     forallb wellFormed records = true)
  /\ (forallb wellFormed records = true ->
      loadSQL (Ok (Ok <$> records)) = Ok (concat (entryOf <$> records))
      /\ List.length (concat (entryOf <$> records)) = List.length records)
  /\ (forall f0 rest,
        forallb wellFormed records = true ->
        loadSQL (Ok (Ok <$> (records ++ [f0] :: rest)))
        = Panic "index out of range")
  /\ (forall f0 f1 v,
        strconv.Atoi f1 = Ok v ->
        loadSQL (Ok [Ok [f0; f1]])
        = Ok [mkMonitoredSQL f0 v [] float64.zero float64.zero 0]).
Proof.
  repeat split.
  - apply loadRecords_ok_inv.
  - pose proof (loadRecords_good records [] [] H) as E.
    rewrite app_nil_r in E. exact E.
  - by apply entryOf_length.
  - intros f0 rest Hg. unfold loadSQL. cbn.
    rewrite fmap_app, loadRecords_good by done. by rewrite fmap_cons.
  - intros f0 f1 v Hv. cbn. rewrite Hv. by cbn.
Qed.

Lemma C10_loadSQL_witness :
  loadSQL (Ok [Ok ["EBS/Post GL"; "10"; "qweabcl"; "456"]; Ok ["Solo"; "15"]])
  = Ok [mkMonitoredSQL "EBS/Post GL" 10 ["qweabcl"; "456"]
          float64.zero float64.zero 0;
        mkMonitoredSQL "Solo" 15 [] float64.zero float64.zero 0]
  /\ loadSQL (Ok [Ok ["EBS/Post GL"; "10"; "qweabcl"; "456"]; Ok ["Solo"; "15"];
                  Ok ["OnlyName"]; Ok ["Later"; "1"; "x"]])
     = Panic "index out of range".
Proof.
  pose (good := [["EBS/Post GL"; "10"; "qweabcl"; "456"]; ["Solo"; "15"]]).
  destruct (C10_loadSQL good) as (_ & Hgood & Hone & _).
  split.
  - apply Hgood. reflexivity.
  - apply (Hone "OnlyName" [["Later"; "1"; "x"]]). reflexivity.
Defined.

End WatchList.

(** ** Binary64 arithmetic never yields a NaN in the parser *)

Section Floats.

Lemma shr_1_nonneg mrs : 0 <= shr_m mrs -> 0 <= shr_m (shr_1 mrs).
Proof.
  destruct mrs as [m r s]. simpl.
  destruct m as [|p|p]; [done| |]; destruct p; simpl; lia.
Qed.

Lemma iter_shr_1_nonneg p : forall mrs,
  0 <= shr_m mrs -> 0 <= shr_m (SpecFloat.iter_pos shr_1 p mrs).
Proof.
  induction p as [p IH|p IH|]; intros mrs Hm; simpl.
  - apply IH, IH. by apply shr_1_nonneg.
  - by apply IH, IH.
  - by apply shr_1_nonneg.
Qed.

Lemma shr_nonneg mrs e n : 0 <= shr_m mrs -> 0 <= shr_m (shr mrs e n).1.
Proof.
  intros Hm. destruct n; simpl; try done. by apply iter_shr_1_nonneg.
Qed.

Lemma shr_record_of_loc_m m l : shr_m (shr_record_of_loc m l) = m.
Proof. by destruct l as [|[]]. Qed.

Lemma shr_fexp_nonneg prec emax m e l :
  0 <= m -> 0 <= shr_m (shr_fexp prec emax m e l).1.
Proof.
  intros Hm. unfold shr_fexp. apply shr_nonneg.
  by rewrite shr_record_of_loc_m.
Qed.

Lemma round_nearest_even_nonneg m l : 0 <= m -> 0 <= round_nearest_even m l.
Proof.
  intros Hm. destruct l as [|[]]; simpl; try lia.
  destruct (Z.even m); lia.
Qed.

Lemma binary_round_aux_not_nan prec emax sx mx ex lx :
  0 <= mx -> binary_round_aux prec emax sx mx ex lx <> S754_nan.
Proof.
  intros Hm. unfold binary_round_aux.
  pose proof (shr_fexp_nonneg prec emax mx ex lx Hm) as H1.
  destruct (shr_fexp prec emax mx ex lx) as [mrs' e'].
  simpl in H1.
  pose proof (shr_fexp_nonneg prec emax
                (round_nearest_even (shr_m mrs') (loc_of_shr_record mrs'))
                e' loc_Exact (round_nearest_even_nonneg _ _ H1)) as H2.
  destruct (shr_fexp prec emax _ e' loc_Exact) as [mrs'' e''].
  simpl in H2.
  destruct (shr_m mrs'') as [|p|p]; try done.
  by destruct (e'' <=? emax - prec).
Qed.

Lemma ofInt_not_nan n : float64.ofInt n <> S754_nan.
Proof.
  unfold float64.ofInt, binary_normalize.
  destruct n as [|p|p]; [done| |]; unfold binary_round;
    destruct (shl_align _ _ _) as [mz ez];
    by apply binary_round_aux_not_nan.
Qed.

Lemma div_1000_not_nan x :
  x <> S754_nan -> float64.div x (float64.ofInt 1000) <> S754_nan.
Proof.
  intros Hx.
  assert (exists m e, float64.ofInt 1000 = S754_finite false m e) as (m & e & ->)
    by (vm_compute; eauto).
  destruct x as [s|s| |s mx ex]; try done.
  unfold float64.div, SFdiv.
  destruct (SFdiv_core_binary _ _ _ _ _ _) as [[mz ez] lz] eqn:E.
  apply binary_round_aux_not_nan.
  unfold SFdiv_core_binary in E.
  set (m' := match _ with Z0 => _ | Zpos _ => _ | Zneg _ => _ end) in E.
  assert (0 <= m') as Hm'.
  { subst m'. destruct (_ - _ - _) as [|p|p]; try done.
    apply Z.shiftl_nonneg. done. }
  pose proof (Z_div_mod m' (Z.pos m) ltac:(done)) as Hdiv.
  destruct (Z.div_eucl m' (Z.pos m)) as [q r].
  injection E as <- _ _. nia.
Qed.

Lemma SFcompare_antisym x y :
  SFcompare y x = CompOpp <$> SFcompare x y.
Proof.
  destruct x as [sx|sx| |sx mx ex], y as [sy|sy| |sy my ey]; simpl;
    try done; try (by destruct sx); try (by destruct sy);
    try (by destruct sx, sy).
  destruct sx, sy; simpl; try done; f_equal;
    rewrite (Z.compare_antisym ex ey); destruct (ex ?= ey); simpl; try done.
  - by rewrite (Pos.compare_cont_antisym mx my Eq).
  - by rewrite (Pos.compare_cont_antisym mx my Eq).
Qed.

(** Away from NaN, [not (x < y)] is [y <= x]. *)
Lemma ltb_false_leb x y :
  x <> S754_nan -> y <> S754_nan ->
  float64.ltb x y = negb (float64.leb y x).
Proof.
  intros Hx Hy. unfold float64.ltb, float64.leb, SFltb, SFleb.
  rewrite (SFcompare_antisym x y).
  destruct (SFcompare x y) as [[]|] eqn:E; try done.
  by destruct x, y.
Qed.

End Floats.

(** ** The trace parser *)

Section Parser.
Import sink GoStrings.

Lemma parseExec_unknown rec ct w1 id :
  (5 < List.length (execFields rec))%nat ->
  execFields rec !! 1%nat = Some w1 ->
  strconv.Atoi w1 = Ok id ->
  Cursors ct !! id = None ->
  parseExec rec ct = (Ok (false, 0, "", 0, 0), ct).
Proof.
  unfold execFields. intros Hlen H1 Hid Habs. unfold parseExec.
  destruct (FieldsFunc rec execSeparator) as [|w0 [|w1' ws]] eqn:E;
    simpl in Hlen; try lia.
  simpl in H1. injection H1 as ->.
  replace (_ <=? 5)%nat with false by (symmetry; apply Nat.leb_gt; simpl; lia).
  cbn. rewrite Hid, RUnlock_RLock, Habs.
  rewrite bool_decide_eq_false_2; [done|]. by intros [? ?].
Qed.

Lemma parseExec_known rec ct w0 w1 w3 w5 id cpu ela cur :
  (5 < List.length (execFields rec))%nat ->
  execFields rec !! 0%nat = Some w0 ->
  execFields rec !! 1%nat = Some w1 -> strconv.Atoi w1 = Ok id ->
  Cursors ct !! id = Some cur ->
  execFields rec !! 3%nat = Some w3 -> strconv.Atoi w3 = Ok cpu ->
  execFields rec !! 5%nat = Some w5 -> strconv.Atoi w5 = Ok ela ->
  parseExec rec ct = (Ok (true, id, w0, cpu, ela), ct).
Proof.
  unfold execFields. intros Hlen H0 H1 Hid Hcur H3 Hcpu H5 Hela.
  unfold parseExec.
  destruct (FieldsFunc rec execSeparator)
    as [|x0 [|x1 [|x2 [|x3 [|x4 [|x5 ws]]]]]] eqn:E; simpl in Hlen; try lia.
  simpl in H0, H1, H3, H5.
  injection H0 as ->. injection H1 as ->. injection H3 as ->.
  injection H5 as ->.
  replace (_ <=? 5)%nat with false by (symmetry; apply Nat.leb_gt; simpl; lia).
  cbn. rewrite Hid, RUnlock_RLock, Hcur.
  rewrite bool_decide_eq_true_2 by eauto. cbn. rewrite Hcpu. cbn.
  by rewrite Hela.
Qed.

(** C9, as the code has it.  A PARSE, EXEC or FETCH record that has its
    six tokens and whose cursor number is numeric but not in the cursor
    table: [parseRecord] returns the empty non-violation and no error, and
    leaves the watch list and the table as they were.  Nothing is assumed
    of the CPU and elapsed tokens: the table is consulted before they are
    parsed.  The count of the tokens is checked before that: a record
    with fewer than six tokens is an error, whatever its cursor number and
    whether or not the table holds it. *)
Theorem C9_unknown_cursor rec wantSQL ct :
  traceRecordType rec = traceRecordTypeParseExecFetch ->
  (forall w1 id,
     (5 < List.length (execFields rec))%nat ->
     execFields rec !! 1%nat = Some w1 ->
     strconv.Atoi w1 = Ok id ->
     Cursors ct !! id = None ->
     parseRecord rec wantSQL ct = (Ok emptySummary, (wantSQL, ct)))
  /\ ((List.length (execFields rec) <= 5)%nat ->
      parseRecord rec wantSQL ct
      = (Err (ErrWords "parseExec" (List.length (execFields rec))),
         (wantSQL, ct))).
Proof.
  intros Hty. unfold parseRecord. rewrite Hty. split.
  - intros w1 id Hlen H1 Hid Habs.
    by rewrite (parseExec_unknown rec ct w1 id).
  - intros Hlen. unfold parseExec. fold (execFields rec).
    by replace (_ <=? 5)%nat with true by (symmetry; by apply Nat.leb_le).
Qed.

(** Cursor 99 is not tracked, and neither the CPU nor the elapsed token of
    the record is a number. *)
Lemma C9_unknown_cursor_witness :
  parseRecord "EXEC #99:c=abc,e=xyz,p=0" Examples.OE Examples.t17
  = (Ok emptySummary, (Examples.OE, Examples.t17)).
Proof.
  assert (traceRecordType "EXEC #99:c=abc,e=xyz,p=0"
          = traceRecordTypeParseExecFetch) as Hty by reflexivity.
  destruct (C9_unknown_cursor _ Examples.OE Examples.t17 Hty) as [Hlong _].
  apply (Hlong "99" 99); [|reflexivity..].
  vm_compute. lia.
Defined.

(** C9 as stated fails: these are FETCH and EXEC records whose cursor
    number, 99, is a number and is not in the table, yet parsing them
    returns an error.  They have two and four tokens, and the count of the
    tokens is checked before the cursor table is consulted. *)
Lemma C9_short_record_counterexample :
  let short := "FETCH #99" in
  let fourTokens := "EXEC #99:c=,e=" in
  traceRecordType short = traceRecordTypeParseExecFetch
  /\ execFields short = ["FETCH"; "99"]
  /\ strconv.Atoi "99" = Ok 99
  /\ Cursors Examples.t17 !! 99 = None
  /\ parseRecord short Examples.OE Examples.t17
     = (Err (ErrWords "parseExec" 2), (Examples.OE, Examples.t17))
  /\ traceRecordType fourTokens = traceRecordTypeParseExecFetch
  /\ execFields fourTokens = ["EXEC"; "99"; "c"; "e"]
  /\ parseRecord fourTokens Examples.OE Examples.t17
     = (Err (ErrWords "parseExec" 4), (Examples.OE, Examples.t17)).
Proof. repeat split; vm_compute; reflexivity. Qed.

End Parser.

(** *** Tracked cursors are named after watch-list entries *)

Section Invariant.
Import sink GoStrings.

Lemma setViolations_names wantSQL tx thr sq elaF :
  BusinessTxName <$> (setViolations wantSQL tx thr sq elaF).2
  = BusinessTxName <$> wantSQL.
Proof.
  induction wantSQL as [|sw rest IH]; [done|]. simpl.
  destruct (String.eqb (BusinessTxName sw) tx); [done|].
  destruct (setViolations rest tx thr sq elaF) as [r rest'].
  simpl in *. f_equal. exact IH.
Qed.

Lemma interestingSQL_name id wantSQL tx thr :
  interestingSQL id wantSQL = (true, tx, thr) ->
  tx ∈ (BusinessTxName <$> wantSQL).
Proof.
  induction wantSQL as [|sw rest IH]; [done|]. simpl.
  destruct (existsb (String.eqb id) (SQLID sw)).
  - intros E. injection E as E _. subst tx. apply list_elem_of_here.
  - intros Hi. apply list_elem_of_further. by apply IH.
Qed.

Lemma openCursor_name rec id sq tx thr cur :
  openCursor rec id sq tx thr = Ok cur -> cursor.BusinessTxName cur = tx.
Proof.
  unfold openCursor. destruct (parseOtherAttr rec); cbn; try done.
  by intros [= <-].
Qed.

Lemma parseExec_tracker rec ct : (parseExec rec ct).2 = ct.
Proof.
  unfold parseExec.
  destruct (_ <=? 5)%nat; [done|].
  destruct (_ ≫= _) as [[cursorType cursorString]| | |]; try done.
  destruct (strconv.Atoi cursorString); try done.
  rewrite hasValue_eq. by destruct (negb _).
Qed.

Lemma parsingInCursor_named rec wantSQL ct r ct' :
  tracked_named (wantSQL, ct) ->
  parsingInCursor rec wantSQL ct = (r, ct') ->
  tracked_named (wantSQL, ct')
  /\ (forall id sq tx thr, r = Ok (false, id, sq, tx, thr) ->
        tx ∈ (BusinessTxName <$> wantSQL)).
Proof.
  intros Hinv. unfold parsingInCursor.
  destruct (parseSQLID rec) as [[getSQLID getCursorString]| | |];
    try (intros [= <- <-]; by split).
  destruct (strconv.Atoi getCursorString) as [getCursorID| | |];
    try (intros [= <- <-]; by split).
  destruct (interestingSQL getSQLID wantSQL) as [[isI tx] thr] eqn:Ei.
  destruct isI; simpl; [|intros [= <- <-]; by split].
  apply interestingSQL_name in Ei.
  unfold compareAndSet. simpl.
  destruct (Cursors ct !! getCursorID) as [old|] eqn:El.
  { intros [= <- <-]. split; [exact Hinv|]. by intros ???? [= _ _ <- _]. }
  destruct (openCursor rec getCursorID getSQLID tx thr) as [cur|e| |] eqn:Eo;
    try (intros [= <- <-]; by split).
  - intros [= <- <-]. split; [|done].
    intros k c. simpl. rewrite lookup_insert. case_decide.
    + intros [= <-]. by rewrite (openCursor_name _ _ _ _ _ _ Eo).
    + apply Hinv.
Qed.

Lemma parseRecord_named rec wantSQL ct r st' :
  tracked_named (wantSQL, ct) ->
  parseRecord rec wantSQL ct = (r, st') ->
  tracked_named st'.
Proof.
  intros Hinv. unfold parseRecord.
  destruct (traceRecordType rec).
  - by intros [= _ <-].
  - destruct (parsingInCursor rec wantSQL ct) as [r1 ct1] eqn:Ep.
    destruct (parsingInCursor_named _ _ _ _ _ Hinv Ep) as [Hinv1 Htx].
    destruct r1 as [[[[[newCursor id] sq] tx] thr]| | |];
      try (by intros [= _ <-]).
    destruct newCursor; [by intros [= _ <-]|].
    rewrite get_eq. destruct (Cursors ct1 !! id) as [open|];
      [|by intros [= _ <-]].
    destruct (String.eqb sq (cursor.SQLID open)); [by intros [= _ <-]|].
    assert (tracked_named (wantSQL, delete id ct1)) as Hdel.
    { intros k c. simpl. rewrite lookup_delete. case_decide; [done|].
      apply Hinv1. }
    destruct (openCursor rec id sq tx thr) as [cur| | |] eqn:Eo;
      try (by intros [= _ <-]).
    intros [= _ <-]. intros k c. simpl. rewrite lookup_insert.
    case_decide.
    + intros [= <-]. rewrite (openCursor_name _ _ _ _ _ _ Eo).
      by eapply Htx.
    + rewrite lookup_delete. case_decide; [done|]. apply Hinv1.
  - pose proof (parseExec_tracker rec ct) as Et.
    destruct (parseExec rec ct) as [r1 ct1]. simpl in Et. subst ct1.
    destruct r1 as [[[[[isKnown id] ty] cpu] ela]| | |];
      try (by intros [= _ <-]).
    destruct isKnown; [|by intros [= _ <-]]. cbn [negb].
    rewrite get_eq. destruct (Cursors ct !! id) as [curTemp|];
      [|by intros [= _ <-]].
    destruct (float64.ltb _ _); [by intros [= _ <-]|].
    pose proof (setViolations_names wantSQL (cursor.BusinessTxName curTemp)
                  (float64.ofInt (cursor.ELAThreshold curTemp))
                  (cursor.SQLID curTemp)
                  (float64.div (float64.ofInt ela) (float64.ofInt 1000)))
      as En.
    destruct (setViolations _ _ _ _ _) as [r2 wantSQL']. simpl in En.
    assert (tracked_named (wantSQL', ct)) as Hinv'.
    { intros k c Hk. simpl. rewrite En. by apply (Hinv k c). }
    destruct r2 as [[[w l] n]| | |]; by intros [= _ <-].
Qed.

Lemma reachable_named sql0 st : reachable sql0 st -> tracked_named st.
Proof.
  induction 1 as [|rec wantSQL ct r st' _ IH Hstep].
  - intros k cur. simpl. by rewrite lookup_empty.
  - by eapply parseRecord_named.
Qed.

End Invariant.

(** *** Violations *)

Section Violations.
Import sink GoStrings.

Lemma setViolations_found wantSQL tx thr sq elaF :
  tx ∈ (BusinessTxName <$> wantSQL) ->
  exists pre sw post,
    wantSQL = pre ++ sw :: post
    /\ Forall (fun x => BusinessTxName x <> tx) pre
    /\ BusinessTxName sw = tx
    /\ setViolations wantSQL tx thr sq elaF
       = (Ok (WorstELA (recordViolation sw elaF), elaF,
              NumViolations (recordViolation sw elaF)),
          pre ++ recordViolation sw elaF :: post).
Proof.
  induction wantSQL as [|sw rest IH]; [by intros ?%elem_of_nil|].
  rewrite fmap_cons. intros Hin. simpl.
  destruct (String.eqb (BusinessTxName sw) tx) eqn:E.
  - apply String.eqb_eq in E. by exists [], sw, rest.
  - apply String.eqb_neq in E.
    apply elem_of_cons in Hin as [Hin|Hin]; [congruence|].
    destruct (IH Hin) as (pre & sw' & post & -> & Hpre & Hsw & ->).
    exists (sw :: pre), sw', post. repeat split; try done.
    by constructor.
Qed.

(** C1. In every state the parser can reach from a loaded watch list, for
    a PARSE, EXEC or FETCH record whose cursor number [id] is in the cursor
    table (as [cur]) and whose CPU and elapsed tokens are the numbers
    [cpu] and [ela], with [elaF = float64(ela) / 1000] and
    [threshold = float64(cur.ELAThreshold)]:
    - if [threshold <= elaF], the first watch-list entry [sw] named after
      the cursor's business transaction gets [LastELA = elaF], [WorstELA]
      raised to [elaF] only if it was strictly less, and [NumViolations]
      incremented by one (as an [int64]); the other entries and the table
      are unchanged; and the summary returned is a violation that carries
      the cursor's business transaction, threshold and SQL id, and the
      three new statistics;
    - otherwise the empty non-violation is returned and nothing changes. *)
Theorem C1_violation sql0 wantSQL ct rec w1 w3 w5 id cpu ela cur :
  reachable sql0 (wantSQL, ct) ->
  traceRecordType rec = traceRecordTypeParseExecFetch ->
  (5 < List.length (execFields rec))%nat ->
  execFields rec !! 1%nat = Some w1 -> strconv.Atoi w1 = Ok id ->
  Cursors ct !! id = Some cur ->
  execFields rec !! 3%nat = Some w3 -> strconv.Atoi w3 = Ok cpu ->
  execFields rec !! 5%nat = Some w5 -> strconv.Atoi w5 = Ok ela ->
  let threshold := float64.ofInt (cursor.ELAThreshold cur) in
  let elaF := float64.div (float64.ofInt ela) (float64.ofInt 1000) in
  if float64.leb threshold elaF then
    exists pre sw post,
      wantSQL = pre ++ sw :: post
      /\ Forall (fun x => BusinessTxName x <> cursor.BusinessTxName cur) pre
      /\ BusinessTxName sw = cursor.BusinessTxName cur
      /\ let worst := if float64.ltb (WorstELA sw) elaF
                      then elaF else WorstELA sw in
         let count := wrap64 (NumViolations sw + 1) in
         (minInt64 <= NumViolations sw < maxInt64 ->
            count = NumViolations sw + 1)
         /\ parseRecord rec wantSQL ct
            = (Ok (mkSummary true (cursor.BusinessTxName cur) threshold
                     (cursor.SQLID cur) worst elaF count),
               (pre ++ mkMonitoredSQL (BusinessTxName sw) (ELAThreshold sw)
                         (SQLID sw) elaF worst count :: post,
                ct))
  else parseRecord rec wantSQL ct = (Ok emptySummary, (wantSQL, ct)).
Proof.
  intros Hreach Hty Hlen H1 Hid Hcur H3 Hcpu H5 Hela threshold elaF.
  assert (exists w0, execFields rec !! 0%nat = Some w0) as [w0 H0].
  { apply lookup_lt_is_Some. lia. }
  unfold parseRecord. rewrite Hty.
  rewrite (parseExec_known rec ct w0 w1 w3 w5 id cpu ela cur) by done.
  cbn [negb]. rewrite get_eq, Hcur.
  fold threshold. fold elaF.
  rewrite (ltb_false_leb elaF threshold)
    by (apply div_1000_not_nan || apply ofInt_not_nan; apply ofInt_not_nan).
  destruct (float64.leb threshold elaF); [|done]. cbn [negb].
  pose proof (reachable_named _ _ Hreach id cur Hcur) as Hin. simpl in Hin.
  destruct (setViolations_found wantSQL (cursor.BusinessTxName cur)
              threshold (cursor.SQLID cur) elaF Hin)
    as (pre & sw & post & Hw & Hpre & Hsw & ->).
  exists pre, sw, post. repeat split; try done.
  intros [Hlo Hhi]. unfold wrap64, minInt64, maxInt64 in *.
  rewrite Z.mod_small; lia.
Qed.

(** The state after scenario S1, then the record of scenario S2: 5000
    microseconds against the threshold of 1 ms of cursor 17. *)
Lemma C1_violation_witness :
  let five := float64.ofInt 5 in
  let one := float64.ofInt 1 in
  parseRecord "EXEC #17:c=2000,e=5000,p=0,cr=0"
    Examples.OE Examples.t17
  = (Ok (mkSummary true "OE" one "abc" five five 1),
     ([mkMonitoredSQL "OE" 1 ["abc"] five five 1], Examples.t17)).
Proof.
  intros five one.
  pose (rec := "EXEC #17:c=2000,e=5000,p=0,cr=0").
  assert (reachable Examples.OE (Examples.OE, Examples.t17))
    as Hreach.
  { eapply reach_step; [apply reach_init|]. apply ParserExamples.scenario_S1. }
  assert (traceRecordType rec = traceRecordTypeParseExecFetch) as Hty
    by (vm_compute; reflexivity).
  assert (5 < List.length (execFields rec))%nat as Hlen by (vm_compute; lia).
  assert (execFields rec !! 1%nat = Some "17") as H1
    by (vm_compute; reflexivity).
  assert (strconv.Atoi "17" = Ok 17) as Hid by (vm_compute; reflexivity).
  assert (Cursors Examples.t17 !! 17 = Some Examples.c17) as Hcur
    by (vm_compute; reflexivity).
  assert (execFields rec !! 3%nat = Some "2000") as H3
    by (vm_compute; reflexivity).
  assert (strconv.Atoi "2000" = Ok 2000) as Hcpu by (vm_compute; reflexivity).
  assert (execFields rec !! 5%nat = Some "5000") as H5
    by (vm_compute; reflexivity).
  assert (strconv.Atoi "5000" = Ok 5000) as Hela by (vm_compute; reflexivity).
  pose proof (C1_violation _ _ _ rec _ _ _ _ _ _ _
                Hreach Hty Hlen H1 Hid Hcur H3 Hcpu H5 Hela) as Hc.
  cbv zeta in Hc.
  replace (float64.leb _ _) with true in Hc by (vm_compute; reflexivity).
  destruct Hc as (pre & sw & post & Hw & Hpre & Hsw & _ & Hc).
  unfold Examples.OE in Hw.
  destruct pre as [|x pre]; simpl in Hw.
  - injection Hw as <- <-. subst rec. rewrite Hc. vm_compute. reflexivity.
  - destruct pre; discriminate Hw.
Defined.

End Violations.

(** ** The trace file reader *)

Section Reader.
Import rttanalyzer GoStrings.

Lemma splitLines_line l rest :
  hasByte LF l = false ->
  splitLines (l +:+ String LF rest) = (l, true) :: splitLines rest.
Proof.
  induction l as [|c l IH]; simpl.
  - by intros _.
  - intros [Hc Hl]%orb_false_elim. rewrite Hc, IH by done. done.
Qed.

(** An offset inside the file, its end included, is one [seek] accepts,
    whatever the file system. *)
Lemma seek_inside `{FileSystem} data tf :
  0 <= offset tf <= len data -> seek data tf = Ok tf.
Proof.
  intros [H0 H1]. unfold seek, seekable.
  replace (0 <=? offset tf) with true by (symmetry; by apply Z.leb_le).
  replace (offset tf <=? _) with true by (symmetry; apply Z.leb_le; lia).
  done.
Qed.

(** An offset at which bytes are left lies inside the file. *)
Lemma skip_inside (off : Z) (data : string) :
  0 <= off -> skip (Z.to_nat off) data <> "" -> off <= len data.
Proof.
  intros H0 Hne. unfold len.
  destruct (decide (off <= Z.of_nat (String.length data))) as [|Hgt];
    [done|]. exfalso. apply Hne. clear Hne.
  assert (String.length data <= Z.to_nat off)%nat as Hle by lia.
  revert Hle. generalize (Z.to_nat off). clear.
  induction data as [|c s IH]; intros [|n] Hn; simpl in *; try done;
    try lia.
  apply IH. lia.
Qed.

(** A complete line at the offset, with no carriage return before its line
    feed and within the scanner's buffer, is returned with its line feed,
    and the offset advances by its length, line feed included. *)
Lemma ReadRecords_complete_line `{FileSystem} data tf l rest :
  0 <= offset tf ->
  skip (Z.to_nat (offset tf)) data = l +:+ String LF rest ->
  hasByte LF l = false ->
  dropCR l = l ->
  len l < MaxScanTokenSize ->
  ReadRecords data tf
  = (Ok [l +:+ nl],
     withOffset (wrap64 (offset tf + wrap64 (len l + 1))) tf).
Proof.
  intros Hoff Hskip Hlf Hcr Hlen. unfold ReadRecords.
  rewrite seek_inside.
  2:{ split; [done|]. apply (skip_inside _ data); [done|].
      rewrite Hskip. by destruct l. }
  rewrite Hskip, splitLines_line by done. simpl.
  replace (len l <? MaxScanTokenSize) with true
    by (symmetry; by apply Z.ltb_lt).
  rewrite Hcr. simpl. by destruct (scanTokens (splitLines rest)).
Qed.

(** C2, on the code.  A trace file holding the three bytes [abc] and no
    line feed: [ReadRecords] returns the partial line as a record, with a
    line feed it does not have, and moves the offset to 4, past the end of
    the file.  When the line is completed to [abcdef] and a line feed, the
    next read starts inside it and returns [ef].  And a line ended by a
    carriage return and a line feed (5 bytes) moves the offset by 4. *)
Theorem C2_partial_line_returned `{FileSystem} :
  let tf := mkTraceFile "db_ora_1.trc" "/t" 1 0 "/t/db_ora_1.trc" in
  ReadRecords "abc" tf = (Ok ["abc" +:+ nl], withOffset 4 tf)
  /\ ReadRecords ("abcdef" +:+ nl) (withOffset 4 tf)
     = (Ok ["ef" +:+ nl], withOffset 7 tf)
  /\ ReadRecords ("abc" +:+ String CR nl) tf
     = (Ok ["abc" +:+ nl], withOffset 4 tf).
Proof.
  repeat split; unfold ReadRecords;
    (rewrite seek_inside by (vm_compute; split; congruence));
    vm_compute; reflexivity.
Qed.

End Reader.

(** ** The roster *)

Section RosterRoundTrip.
Import rttanalyzer.

Lemma foldl_insert_list_to_map (l : list (string * jsonTraceFile)) :
  foldl (fun m kv => <[kv.1 := kv.2]> m) (∅ : gmap string jsonTraceFile) l
  = list_to_map (reverse l).
Proof.
  induction l as [|x l IH] using rev_ind; [done|].
  rewrite foldl_snoc, reverse_snoc, IH. by destruct x.
Qed.

Lemma encodeEntry_valid kv : validEntry kv.1 kv.2 -> encodeEntry kv = kv.
Proof.
  destruct kv as [k [n dn v o]]. unfold validEntry, json.validUTF8.
  simpl. intros (Hk & Hn & Hd). unfold encodeEntry. simpl.
  by rewrite Hk, Hn, Hd.
Qed.

(** On a roster whose strings are valid UTF-8, reading back what was
    written gives the roster. *)
Lemma Unmarshal_Marshal (m : gmap string jsonTraceFile) :
  map_Forall validEntry m ->
  Unmarshal (Marshal (mkRoster (Some m))) = mkRoster (Some m).
Proof.
  intros Hvalid. unfold Marshal, Unmarshal. simpl. do 2 f_equal.
  set (l := merge_sort keyLe (map_to_list m)).
  assert (l ≡ₚ map_to_list m) as Hperm by apply merge_sort_Permutation.
  assert (encodeEntry <$> l = l) as ->.
  { rewrite <- (list_fmap_id l) at 2. apply list_fmap_ext.
    intros i kv Hi. apply encodeEntry_valid.
    assert (kv ∈ map_to_list m) as Hin.
    { rewrite <- Hperm. by eapply list_elem_of_lookup_2. }
    destruct kv as [k v]. apply elem_of_map_to_list in Hin.
    by apply (Hvalid k v). }
  rewrite foldl_insert_list_to_map.
  transitivity (list_to_map (map_to_list m) : gmap string jsonTraceFile);
    [|apply list_to_map_to_list].
  apply list_to_map_proper.
  - rewrite reverse_Permutation, Hperm. apply NoDup_fst_map_to_list.
  - by rewrite reverse_Permutation.
Qed.

End RosterRoundTrip.

Section RosterSave.
Import rttanalyzer.

(** C7, as the code has it.  For a roster whose map is allocated and a
    trace-file state, when the key, the names and the directories involved
    are valid UTF-8 and the disk accepts the write: [Save] succeeds, and
    [LoadRoster] then yields exactly the saved roster, whose map is the old
    one updated at [Join DirectoryName Name] with the record of the state's
    name, directory, version and offset. *)
Theorem C7_roundtrip_valid_utf8 `{Filepath} (fileName : string)
  (tf : TraceFile) (m : gmap string jsonTraceFile) (d : Disk) :
  mkdirFails d = false ->
  writeFails d = false ->
  json.validUTF8 (Name tf) ->
  json.validUTF8 (DirectoryName tf) ->
  json.validUTF8 (Join (DirectoryName tf) (Name tf)) ->
  map_Forall validEntry m ->
  let saved := mkRoster (Some (<[Join (DirectoryName tf) (Name tf) :=
                 mkJsonTraceFile (Name tf) (DirectoryName tf) (version tf)
                   (offset tf)]> m)) in
  exists d',
    Save fileName tf (mkRoster (Some m)) d = (Ok tt, saved, d')
    /\ LoadRoster fileName d' = Ok saved.
Proof.
  intros Hmk Hwr Hn Hd Hk Hm saved. unfold Save. simpl.
  rewrite Hmk, Hwr. eexists. split; [done|].
  unfold LoadRoster. simpl. f_equal.
  apply Unmarshal_Marshal. apply map_Forall_insert_2; [|done].
  by repeat split.
Qed.

Lemma C7_roundtrip_valid_utf8_witness :
  let tf := mkTraceFile "db_ora_7.trc" "/t" 1 42 "/t/db_ora_7.trc" in
  let m : gmap string jsonTraceFile :=
    {[ "/t/db_ora_3.trc" := mkJsonTraceFile "db_ora_3.trc" "/t" 1 9 ]} in
  let saved := mkRoster (Some (<[@Join unix.paths (DirectoryName tf) (Name tf) :=
                 mkJsonTraceFile (Name tf) (DirectoryName tf) (version tf)
                   (offset tf)]> m)) in
  exists d',
    @Save unix.paths "/home/rtta.roster" tf (mkRoster (Some m))
      (mkDisk NoFile false false false) = (Ok tt, saved, d')
    /\ LoadRoster "/home/rtta.roster" d' = Ok saved.
Proof.
  intros tf m.
  assert (json.validUTF8 (Name tf)) as Hn by (vm_compute; reflexivity).
  assert (json.validUTF8 (DirectoryName tf)) as Hd
    by (vm_compute; reflexivity).
  assert (json.validUTF8 (@Join unix.paths (DirectoryName tf) (Name tf)))
    as Hk by (vm_compute; reflexivity).
  assert (map_Forall validEntry m) as Hm.
  { apply map_Forall_singleton. repeat split; vm_compute; reflexivity. }
  exact (@C7_roundtrip_valid_utf8 unix.paths "/home/rtta.roster" tf m
           (mkDisk NoFile false false false) eq_refl eq_refl Hn Hd Hk Hm).
Defined.

(** C7 as stated fails on a name that is not valid UTF-8 (here the byte
    255 in the file name): the roster read back has no entry under the
    key that was saved, because the key and the name were written with
    U+FFFD in place of the byte. *)
Lemma C7_roundtrip_counterexample :
  let name := "db_ora_" +:+ String (GoStrings.byte_of 255) ".trc" in
  let tf := mkTraceFile name "/t" 1 42 ("/t/" +:+ name) in
  let key := @Join unix.paths "/t" name in
  let saved := mkRoster (Some {[ key := mkJsonTraceFile name "/t" 1 42 ]}) in
  let d' := mkDisk (RosterJSON (Marshal saved)) false false false in
  let loaded := Unmarshal (Marshal saved) in
  @Save unix.paths "/home/rtta.roster" tf (mkRoster (Some ∅))
    (mkDisk NoFile false false false) = (Ok tt, saved, d')
  /\ LoadRoster "/home/rtta.roster" d' = Ok loaded
  /\ (R saved ≫= (.!! key)) = Some (mkJsonTraceFile name "/t" 1 42)
  /\ (R loaded ≫= (.!! key)) = None
  /\ R loaded <> R saved.
Proof.
  intros name tf key saved d' loaded.
  assert ((R saved ≫= (.!! key)) = Some (mkJsonTraceFile name "/t" 1 42))
    as Hsaved by (vm_compute; reflexivity).
  assert ((R loaded ≫= (.!! key)) = None) as Hloaded
    by (vm_compute; reflexivity).
  split; [vm_compute; reflexivity|].
  split; [vm_compute; reflexivity|].
  split; [exact Hsaved|]. split; [exact Hloaded|].
  intros Heq. rewrite Heq, Hsaved in Hloaded. clear Heq. congruence.
Qed.

End RosterSave.

(** ** The Miner *)

Section Miner.
Import rttanalyzer miner.

Lemma withParsed_same g :
  dumpers.withParsed g (dumpers.MonitoredSQLs g, dumpers.CursorTracker g) = g.
Proof. by destruct g. Qed.

(** A [Dump] that returns an error ends [Mine] with that error; the trace
    file state stays where [ReadRecords] left it. *)
Lemma Mine_dump_error `{Filepath} `{FileSystem} {D} `{Dumper D}
  (dumper dumper' : D) (e : Env) rec tf' err fuel notify :
  ReadRecords (data e) (tf e) = (Ok [rec], tf') ->
  Dump rec dumper = (Err err, dumper') ->
  Mine (S fuel) notify dumper e
  = (Returned (Some err), dumper', mkEnv tf' (data e) (roster e) (disk e)).
Proof.
  intros Hread Hdump. simpl. unfold minePass. rewrite Hread. simpl.
  by rewrite Hdump.
Qed.

(** An error of [UpdateRoster] does not leave the pass: the Miner goes on
    to wait on its channel. *)
Lemma minePass_save_error `{Filepath} `{FileSystem} {D} `{Dumper D}
  (dumper : D) (e : Env) tf' err r' d' :
  ReadRecords (data e) (tf e) = (Ok [], tf') ->
  UpdateRoster tf' (roster e) (disk e) = (Err err, r', d') ->
  minePass dumper e = (Receive, dumper, mkEnv tf' (data e) r' d').
Proof.
  intros Hread Hsave. unfold minePass. rewrite Hread. simpl.
  by rewrite Hsave.
Qed.

(** C8, on the code.  A Miner at the end of its trace file, the roster
    file not writable: [UpdateRoster] returns the IO error, yet [Mine]
    does not return it.  It waits on the wake channel, and returns nil
    when the channel is closed. *)
Theorem C8_save_error_dropped :
  let e := mkEnv Examples.trace1 "" (mkRoster (Some ∅))
             (mkDisk NoFile false true false) in
  (@UpdateRoster unix.paths (tf e) (roster e) (disk e)).1.1
  = Err (ErrIO "open" "rtta.roster")
  /\ (@Mine unix.paths unix.ext4 _ sinkDumper 3 [Closed] Examples.varz17 e).1.1
     = Returned None
  /\ (@Mine unix.paths unix.ext4 _ sinkDumper 3 [] Examples.varz17 e).1.1
     = Waiting.
Proof. repeat split; vm_compute; reflexivity. Qed.

Lemma attrInt_fails words i what w v e0 :
  words !! i = Some w ->
  GoStrings.sliceFrom 4 w = Ok v ->
  strconv.Atoi v = Err e0 ->
  sink.attrInt words i what = Err (ErrWrap what e0).
Proof.
  intros Hw Hv He. unfold sink.attrInt, GoStrings.index. rewrite Hw.
  cbn [mbind res_bind]. rewrite Hv. cbn [mbind res_bind]. by rewrite He.
Qed.

(** A failure to convert an attribute is the error of [parseOtherAttr]. *)
Lemma parseOtherAttr_fails rec e :
  attrFailure rec e -> sink.parseOtherAttr rec = Err e.
Proof.
  intros [before i what after w v e0 Hsplit Hlen Hbefore Hw Hv He].
  pose proof (attrInt_fails _ i what w v e0 Hw Hv He) as Hfail.
  unfold sink.parseOtherAttr. cbv zeta.
  replace (_ <=? 10)%nat with false by (symmetry; apply Nat.leb_gt; lia).
  unfold numericAttrs in Hsplit.
  do 5 (destruct before as [|[? ?] before]; cbn [app] in Hsplit;
        [injection Hsplit as <- <- _; by rewrite Hfail|
         apply Forall_cons in Hbefore as [Hok Hbefore];
         injection Hsplit as <- <- Hsplit;
         cbn [fst snd] in Hok;
         destruct (sink.attrInt _ _ _) as [?| | |]; [|done..];
         clear Hok; cbn [mbind res_bind]]).
  by destruct before.
Qed.




End Miner.

(** ** The Watchdog and its Miners *)

Section Watchdog.
Import rttanalyzer miner watchdog.

Lemma minePass_dumper `{Filepath} `{FileSystem} (dumper : dumpers.Generic)
  (e : Env) strs tf' :
  ReadRecords (data e) (tf e) = (Ok strs, tf') ->
  (minePass dumper e).1.2 = (dumpAll strs dumper).2.
Proof.
  intros Hread. unfold minePass. rewrite Hread.
  destruct (dumpAll strs dumper) as [[[]| | |] d']; try done.
  destruct (_ =? 0)%nat; [|done].
  by destruct (UpdateRoster _ _ _) as [[[]] ?].
Qed.

(** What the pass of one Miner does to the system: the batch it read is
    dumped into the system's dumper, and the other Miners and the trace
    files are as before. *)
Lemma minerPass_effect `{Filepath} `{FileSystem} (s : System) f m strs tf' :
  miners s !! f = Some m ->
  receiving m = false ->
  ReadRecords (default "" (files s !! f)) (file m) = (Ok strs, tf') ->
  dumper (minerPass f s) = (dumpAll strs (dumper s)).2
  /\ files (minerPass f s) = files s
  /\ (forall g, g <> f -> miners (minerPass f s) !! g = miners s !! g).
Proof.
  intros Hm Hrecv Hread. unfold minerPass. rewrite Hm, Hrecv.
  pose proof (minePass_dumper (dumper s)
                (mkEnv (file m) (default "" (files s !! f)) (theRoster s)
                   (theDisk s)) strs tf' Hread) as Hd.
  destruct (minePass _ _) as [[p d'] e']. simpl in Hd. subst d'.
  destruct p as [| |err|fatal what]; simpl.
  - repeat split; try done. intros g Hg. by rewrite lookup_insert_ne.
  - destruct (chans (table s) !! notify m) as [c|]; [|done].
    destruct (0 <? queued c)%nat; [|destruct (closed c)]; simpl;
      repeat split; try done; intros g Hg;
      by rewrite ?lookup_insert_ne, ?lookup_delete_ne.
  - repeat split; try done. intros g Hg. by rewrite lookup_delete_ne.
  - done.
Qed.

(** C4, as the code has it.  The Miners of two distinct trace files work
    on one cursor table, the one in the dumper [output] returned: the
    dumper (watch list and cursor table) that the second Miner's records
    are applied to is the dumper as the first Miner's records left it. *)
Theorem C4_miners_share_table `{Filepath} `{FileSystem} (s : System)
  (f g : string) (mf mg : Miner) strsf strsg tff tfg :
  f <> g ->
  miners s !! f = Some mf -> receiving mf = false ->
  miners s !! g = Some mg -> receiving mg = false ->
  ReadRecords (default "" (files s !! f)) (file mf) = (Ok strsf, tff) ->
  ReadRecords (default "" (files s !! g)) (file mg) = (Ok strsg, tfg) ->
  let d1 := (dumpAll strsf (dumper s)).2 in
  dumper (minerPass f s) = d1
  /\ dumper (minerPass g (minerPass f s))
     = (dumpAll strsg d1).2.
Proof.
  intros Hfg Hf Hrf Hg Hrg Hreadf Hreadg d1.
  destruct (minerPass_effect s f mf strsf tff Hf Hrf Hreadf)
    as (Hd & Hfiles & Hothers).
  split; [exact Hd|].
  destruct (minerPass_effect (minerPass f s) g mg strsg tfg)
    as (Hd' & _ & _).
  - by rewrite Hothers.
  - done.
  - by rewrite Hfiles.
  - by rewrite Hd', Hd.
Qed.

Lemma C4_miners_share_table_witness :
  let s := SystemExamples.launched in
  let f := SystemExamples.file1 in
  let g := SystemExamples.file2 in
  let d1 := (dumpAll [Examples.s1 +:+ nl] (dumper s)).2 in
  dumper (@minerPass unix.paths unix.ext4 f s) = d1
  /\ dumper (@minerPass unix.paths unix.ext4 g
               (@minerPass unix.paths unix.ext4 f s))
     = (dumpAll [Examples.s2 +:+ nl] d1).2.
Proof.
  intros s f g.
  assert (f <> g) as Hfg by (intros Heq; vm_compute in Heq; discriminate Heq).
  assert (miners s !! f
          = Some (mkMiner (mkTraceFile "db_ora_1.trc" "/t" 1 0 f) 0 false))
    as Hf by (vm_compute; reflexivity).
  assert (miners s !! g
          = Some (mkMiner (mkTraceFile "db_ora_2.trc" "/t" 1 0 g) 1 false))
    as Hg by (vm_compute; reflexivity).
  assert (@ReadRecords unix.ext4 (default "" (files s !! f))
            (file (mkMiner (mkTraceFile "db_ora_1.trc" "/t" 1 0 f) 0 false))
          = (Ok [Examples.s1 +:+ nl],
             mkTraceFile "db_ora_1.trc" "/t" 1 85 f))
    as Hreadf by (vm_compute; reflexivity).
  assert (@ReadRecords unix.ext4 (default "" (files s !! g))
            (file (mkMiner (mkTraceFile "db_ora_2.trc" "/t" 1 0 g) 1 false))
          = (Ok [Examples.s2 +:+ nl],
             mkTraceFile "db_ora_2.trc" "/t" 1 32 g))
    as Hreadg by (vm_compute; reflexivity).
  exact (@C4_miners_share_table unix.paths unix.ext4 s f g _ _ _ _ _ _
           Hfg Hf eq_refl Hg eq_refl Hreadf Hreadg).
Defined.

(** C4 as stated fails.  The system starts with the dumper [output]
    returns and launches one Miner per trace file.  The first file opens
    cursor 17; the second holds only an EXEC record for cursor 17.  Once
    the first Miner has run, the cursor it opened is in the table the
    second Miner consults, and the second file's record is reported as a
    violation of that cursor's SQL.  Run without the first Miner, the same
    record is a no-op. *)
Lemma C4_disjoint_tables_counterexample :
  let s := SystemExamples.launched in
  let f := SystemExamples.file1 in
  let g := SystemExamples.file2 in
  let tracker s := dumpers.CursorTracker (dumper s) in
  f <> g
  /\ output "db" "varz" (Ok [Ok ["OE"; "1"; "abc"]])
     = Ok (dumper SystemExamples.start)
  /\ is_Some (miners s !! f) /\ is_Some (miners s !! g)
  /\ sink.Cursors (tracker s) !! 17 = None
  /\ sink.Cursors (tracker (@minerPass unix.paths unix.ext4 f s)) !! 17
     = Some Examples.c17
  /\ (sink.parseExec (Examples.s2 +:+ nl)
        (tracker (@minerPass unix.paths unix.ext4 f s))).1
     = Ok (true, 17, "EXEC", 2000, 5000)
  /\ List.length (dumpers.emitted
                    (dumper (@runMiners unix.paths unix.ext4 [f; g] s))) = 1%nat
  /\ dumpers.emitted (dumper (@runMiners unix.paths unix.ext4 [g] s)) = [].
Proof.
  intros s f g tracker.
  split; [intros Heq; vm_compute in Heq; discriminate Heq|].
  split; [vm_compute; reflexivity|].
  split; [vm_compute; eauto|]. split; [vm_compute; eauto|].
  repeat split; vm_compute; reflexivity.
Qed.

End Watchdog.

(** ** Wake channels *)

Section WakeChannels.
Import rttanalyzer miner watchdog.

Lemma withTable_same (s : System) : withTable (table s) s = s.
Proof. by destruct s. Qed.




End WakeChannels.

(* ================================================================= *)
(** * Further properties of the code *)

(** ** Watch list lookups and updates *)

Section WatchListProperties.
Import sink GoStrings.

Lemma existsb_eqb_elem_of id (l : list string) :
  existsb (String.eqb id) l = true <-> id ∈ l.
Proof.
  rewrite existsb_exists. split.
  - intros (x & Hin & ->%String.eqb_eq). by apply list_elem_of_In.
  - intros Hin. exists id. split; [by apply list_elem_of_In|].
    apply String.eqb_refl.
Qed.

(** X1. [interestingSQL] answers for the first entry that lists the SQL id:
    when it reports the id as interesting, the name and threshold returned
    are those of an entry that lists the id and that no earlier entry
    lists; when it does not, no entry lists the id and the name and
    threshold returned are the empty string and -1. *)
Theorem interestingSQL_first_match (id : string) (wantSQL : list MonitoredSQL) :
  match interestingSQL id wantSQL with
  | (true, tx, thr) =>
    exists pre sw post,
      wantSQL = pre ++ sw :: post
      /\ Forall (fun x => ~ lists id x) pre
      /\ lists id sw
      /\ tx = BusinessTxName sw /\ thr = ELAThreshold sw
  | (false, tx, thr) =>
    Forall (fun x => ~ lists id x) wantSQL /\ tx = "" /\ thr = -1
  end.
Proof.
  induction wantSQL as [|sw rest IH]; simpl; [by repeat split|].
  destruct (existsb (String.eqb id) (SQLID sw)) eqn:E.
  - apply existsb_eqb_elem_of in E. by exists [], sw, rest.
  - assert (~ lists id sw) as Hno.
    { intros Hin%existsb_eqb_elem_of. congruence. }
    destruct (interestingSQL id rest) as [[[] tx] thr].
    + destruct IH as (pre & sw' & post & -> & Hpre & Hsw & Htx & Hthr).
      exists (sw :: pre), sw', post. repeat split; try done.
      by constructor.
    + destruct IH as (Hall & Htx & Hthr). repeat split; try done.
      by constructor.
Qed.

Lemma setViolations_missing wantSQL tx thr sq elaF :
  Forall (fun x => BusinessTxName x <> tx) wantSQL ->
  setViolations wantSQL tx thr sq elaF = (Err (ErrNotFound tx sq), wantSQL).
Proof.
  induction 1 as [|sw rest Hsw _ IH]; [done|]. simpl.
  apply String.eqb_neq in Hsw. by rewrite Hsw, IH.
Qed.

Lemma setViolations_static wantSQL tx thr sq elaF :
  static <$> (setViolations wantSQL tx thr sq elaF).2 = static <$> wantSQL.
Proof.
  induction wantSQL as [|sw rest IH]; [done|]. simpl.
  destruct (String.eqb (BusinessTxName sw) tx); [done|].
  destruct (setViolations rest tx thr sq elaF) as [r rest'].
  simpl in *. f_equal. exact IH.
Qed.

(** X2. [setViolations] fails exactly when no entry bears the business
    transaction's name, and then it leaves the watch list as it was.  In
    every case the entries keep their names, thresholds and SQL ids, in the
    same order. *)
Theorem setViolations_not_found (wantSQL : list MonitoredSQL)
  (tx : string) (thr : spec_float) (sq : string) (elaF : spec_float) :
  (Forall (fun x => BusinessTxName x <> tx) wantSQL <->
   setViolations wantSQL tx thr sq elaF = (Err (ErrNotFound tx sq), wantSQL))
  /\ (Forall (fun x => BusinessTxName x <> tx) wantSQL \/
      is_Ok (setViolations wantSQL tx thr sq elaF).1 = true)
  /\ static <$> (setViolations wantSQL tx thr sq elaF).2 = static <$> wantSQL.
Proof.
  assert (Forall (fun x => BusinessTxName x <> tx) wantSQL \/
          is_Ok (setViolations wantSQL tx thr sq elaF).1 = true) as Hcases.
  { destruct (decide (tx ∈ (BusinessTxName <$> wantSQL))) as [Hin|Hout].
    - right.
      destruct (setViolations_found wantSQL tx thr sq elaF Hin)
        as (pre & sw & post & _ & _ & _ & ->). done.
    - left. apply Forall_forall. intros x Hx Heq. apply Hout.
      apply list_elem_of_fmap. eauto. }
  repeat split.
  - apply setViolations_missing.
  - intros Heq. destruct Hcases as [|Hok]; [done|].
    rewrite Heq in Hok. done.
  - exact Hcases.
  - apply setViolations_static.
Qed.

End WatchListProperties.

(** ** The cursor tracker, composed *)

Section TrackerProperties.
Import sink.

(** X3. After [compareAndSet] has opened a cursor under a key, [get] and
    [hasValue] find it, the other keys are as before, and any further
    [compareAndSet] on the key reports the existing cursor without running
    its closure or changing the table: the first open wins. *)
Theorem compareAndSet_first_open_wins (key : Z)
  (open : CursorTrackerProtected -> res cursor.Cursor)
  (c c' : CursorTrackerProtected) (cur : cursor.Cursor) :
  compareAndSet key open c = (Ok cur, c') ->
  (get key c').1 = Some cur
  /\ (hasValue key c').1 = true
  /\ (forall k, k <> key -> (get k c').1 = (get k c).1)
  /\ (forall open',
        (compareAndSet key open' c').1 = Err ErrExistingCursor
        /\ Cursors (compareAndSet key open' c').2 = Cursors c').
Proof.
  intros Hcas. unfold compareAndSet in Hcas. simpl in Hcas.
  destruct (Cursors c !! key) eqn:Hk; [done|].
  destruct (open (Lock c)) as [cur'| | |] eqn:Ho; try done.
  injection Hcas as -> <-. rewrite get_eq, hasValue_eq. simpl.
  rewrite lookup_insert_eq. repeat split; try done.
  - intros k Hne. by rewrite lookup_insert_ne.
  - unfold compareAndSet. simpl. by rewrite lookup_insert_eq.
  - unfold compareAndSet. simpl. by rewrite lookup_insert_eq.
Qed.

Lemma compareAndSet_first_open_wins_witness :
  let c := Examples.t17 in
  let cur := cursor.NewCursor 7 "def" "GL" 10 "1" 2 0 0 0 3 in
  exists c',
    compareAndSet 7 (fun _ => Ok cur) c = (Ok cur, c')
    /\ (get 7 c').1 = Some cur
    /\ (get 17 c').1 = Some Examples.c17
    /\ (compareAndSet 7 (fun _ => Ok Examples.c17) c').1 = Err ErrExistingCursor.
Proof.
  intros c cur. eexists. split; [reflexivity|].
  destruct (compareAndSet_first_open_wins 7 (fun _ => Ok cur) c _ cur eq_refl)
    as (Hget & _ & Hother & Hagain).
  split; [exact Hget|]. split.
  - rewrite Hother by done. reflexivity.
  - apply Hagain.
Defined.

(** X4. [set] and [delete] compose with [get] and [hasValue] as a map does: a
    cursor stored under a key is the one read back, a deleted key is absent,
    and neither touches another key. *)
Theorem tracker_set_delete (key k : Z) (v : cursor.Cursor)
  (c : CursorTrackerProtected) :
  (get key (set key v c)).1 = Some v
  /\ (hasValue key (delete key c)).1 = false
  /\ (get key (delete key (set key v c))).1 = None
  /\ (get k (set key v c)).1 = (if decide (key = k) then Some v else (get k c).1)
  /\ (get k (delete key c)).1 = (if decide (key = k) then None else (get k c).1).
Proof.
  rewrite !get_eq, hasValue_eq. unfold set, delete. simpl.
  rewrite lookup_insert_eq, !lookup_delete_eq.
  repeat split; try done.
  - rewrite lookup_insert. by case_decide.
  - rewrite lookup_delete. by case_decide.
Qed.

End TrackerProperties.

(** ** What each kind of record does to the parser's state *)

Section RecordKinds.
Import sink GoStrings.

(** X5. Only a PARSE, EXEC or FETCH record can change the watch list, and it
    changes neither the names, thresholds and SQL ids of the entries nor
    the cursor table; a PARSING IN CURSOR record and a record of no
    interest never change the watch list. *)
Theorem parseRecord_writes (rec : string) (wantSQL : list MonitoredSQL)
  (ct : CursorTrackerProtected) :
  let st' := (parseRecord rec wantSQL ct).2 in
  static <$> st'.1 = static <$> wantSQL
  /\ match traceRecordType rec with
     | traceRecordTypeParseExecFetch => st'.2 = ct
     | traceRecordTypeParsingInCursor => st'.1 = wantSQL
     | traceRecordTypeInvalid => st' = (wantSQL, ct)
     end.
Proof.
  unfold parseRecord. destruct (traceRecordType rec); cbv zeta.
  - done.
  - destruct (parsingInCursor rec wantSQL ct) as [r1 ct1].
    assert (forall (r : res parsedSummary) (c : CursorTrackerProtected),
              static <$> (r, (wantSQL, c)).2.1 = static <$> wantSQL
              /\ (r, (wantSQL, c)).2.1 = wantSQL) as Hsame by done.
    destruct r1 as [[[[[newCursor id] sq] tx] thr]| | |]; try apply Hsame.
    destruct newCursor; [apply Hsame|]. rewrite get_eq.
    destruct (Cursors ct1 !! id) as [open|]; [|apply Hsame].
    destruct (String.eqb sq (cursor.SQLID open)); [apply Hsame|].
    destruct (openCursor rec id sq tx thr); apply Hsame.
  - pose proof (parseExec_tracker rec ct) as Et.
    destruct (parseExec rec ct) as [r1 ct1]. simpl in Et. subst ct1.
    destruct r1 as [[[[[isKnown id] ty] cpu] ela]| | |]; try done.
    destruct isKnown; [|done]. cbn [negb]. rewrite get_eq.
    destruct (Cursors ct !! id) as [curTemp|]; [|done].
    destruct (float64.ltb _ _); [done|].
    pose proof (setViolations_static wantSQL (cursor.BusinessTxName curTemp)
                  (float64.ofInt (cursor.ELAThreshold curTemp))
                  (cursor.SQLID curTemp)
                  (float64.div (float64.ofInt ela) (float64.ofInt 1000)))
      as En.
    destruct (setViolations _ _ _ _ _) as [r2 wantSQL']. simpl in En.
    by destruct r2 as [[[w l] n]| | |].
Qed.

End RecordKinds.

(** ** PARSING IN CURSOR records *)

Section ParsingRecords.
Import sink GoStrings.

Lemma openCursor_ok rec id sq tx thr attrs :
  parseOtherAttr rec = Ok attrs ->
  openCursor rec id sq tx thr
  = Ok (cursor.NewCursor id sq tx thr (oa_hashValue attrs) (oa_length attrs)
          (oa_depth attrs) (oa_uID attrs) (oa_lID attrs) (oa_oct attrs)).
Proof. unfold openCursor. by intros ->. Qed.

(** X6. A PARSING IN CURSOR record for a SQL id of interest, with a numeric
    cursor number and well-formed attributes, leaves the cursor number
    tracked for that SQL id: a free number gets the cursor built from the
    record; a number already open for the same SQL id keeps its cursor; a
    number open for another SQL id is closed and reopened with the cursor
    built from the record.  No violation is reported, and the watch list
    and the other cursors are unchanged. *)
Theorem parseRecord_opens_cursor (rec : string) (wantSQL : list MonitoredSQL)
  (ct : CursorTrackerProtected) sq cs id tx thr attrs :
  traceRecordType rec = traceRecordTypeParsingInCursor ->
  parseSQLID rec = Ok (sq, cs) ->
  strconv.Atoi cs = Ok id ->
  interestingSQL sq wantSQL = (true, tx, thr) ->
  parseOtherAttr rec = Ok attrs ->
  let fresh := cursor.NewCursor id sq tx thr (oa_hashValue attrs)
                 (oa_length attrs) (oa_depth attrs) (oa_uID attrs)
                 (oa_lID attrs) (oa_oct attrs) in
  exists ct',
    parseRecord rec wantSQL ct = (Ok emptySummary, (wantSQL, ct'))
    /\ Cursors ct' !! id
       = Some (match Cursors ct !! id with
               | Some old =>
                 if String.eqb sq (cursor.SQLID old) then old else fresh
               | None => fresh
               end)
    /\ (forall k, k <> id -> Cursors ct' !! k = Cursors ct !! k).
Proof.
  intros Hty Hsq Hid Hint Hattr fresh.
  unfold parseRecord, parsingInCursor. rewrite Hty, Hsq, Hid, Hint.
  cbn [negb]. unfold compareAndSet. cbn [Lock Cursors].
  rewrite (openCursor_ok rec id sq tx thr attrs Hattr). fold fresh.
  destruct (Cursors ct !! id) as [old|] eqn:Hold.
  - rewrite get_eq. change (Cursors (Unlock (Lock ct))) with (Cursors ct).
    rewrite Hold, (openCursor_ok rec id sq tx thr attrs Hattr). fold fresh.
    destruct (String.eqb sq (cursor.SQLID old)).
    + eexists. split; [reflexivity|]. by split.
    + eexists. split; [reflexivity|]. unfold set, delete. simpl. split.
      * by rewrite lookup_insert_eq.
      * intros k Hk. by rewrite lookup_insert_ne, lookup_delete_ne.
  - eexists. split; [reflexivity|]. simpl. split.
    + by rewrite lookup_insert_eq.
    + intros k Hk. by rewrite lookup_insert_ne.
Qed.

End ParsingRecords.

Section ParsingRecordsEdge.
Import sink GoStrings.

(** Scenario S4: cursor 17, open for [abc], is reopened for [def]. *)
Lemma parseRecord_opens_cursor_witness :
  exists ct',
    parseRecord Examples.s4 Examples.OEGL Examples.t17
    = (Ok emptySummary, (Examples.OEGL, ct'))
    /\ Cursors ct' !! 17
       = Some (cursor.NewCursor 17 "def" "GL" 10 "77" 33 1 5 5 3).
Proof.
  assert (traceRecordType Examples.s4 = traceRecordTypeParsingInCursor) as Hty
    by (vm_compute; reflexivity).
  assert (parseSQLID Examples.s4 = Ok ("def", "17")) as Hsq
    by (vm_compute; reflexivity).
  assert (strconv.Atoi "17" = Ok 17) as Hid by (vm_compute; reflexivity).
  assert (interestingSQL "def" Examples.OEGL = (true, "GL", 10)) as Hint
    by (vm_compute; reflexivity).
  assert (parseOtherAttr Examples.s4 = Ok (mkOtherAttr "77" 33 1 5 5 3))
    as Hattr by (vm_compute; reflexivity).
  destruct (parseRecord_opens_cursor Examples.s4 Examples.OEGL Examples.t17
              _ _ _ _ _ _ Hty Hsq Hid Hint Hattr) as (ct' & Hp & Hc & _).
  exists ct'. split; [exact Hp|]. rewrite Hc.
  assert (Cursors Examples.t17 !! 17 = Some Examples.c17) as ->
    by (vm_compute; reflexivity).
  reflexivity.
Defined.

Lemma interestingSQL_none id wantSQL :
  Forall (fun x => ~ lists id x) wantSQL ->
  interestingSQL id wantSQL = (false, "", -1).
Proof.
  induction 1 as [|sw rest Hsw _ IH]; [done|]. simpl.
  destruct (existsb (String.eqb id) (SQLID sw)) eqn:E; [|done].
  by apply existsb_eqb_elem_of in E.
Qed.

(** X7. A PARSING IN CURSOR record from which [parseSQLID] reads a SQL id
    that no watch-list entry lists changes nothing: no cursor is opened,
    and the attributes [len], [dep], [uid], [oct], [lid] and [hv] are not
    looked at.  When its cursor number is a number the record is skipped
    without error, whatever those attributes hold; when it is not, the
    record is the error of the cursor number. *)
Theorem parseRecord_sql_not_watched (rec : string)
  (wantSQL : list MonitoredSQL) (ct : CursorTrackerProtected) sq cs :
  traceRecordType rec = traceRecordTypeParsingInCursor ->
  parseSQLID rec = Ok (sq, cs) ->
  Forall (fun x => ~ lists sq x) wantSQL ->
  parseRecord rec wantSQL ct
  = (match strconv.Atoi cs with
     | Ok _ => Ok emptySummary
     | Err e =>
       Err (ErrWrap "parseRecord: error from calling parsingInCursor"
              (ErrWrap
                 "parsingInCursor: error in CursorID string->int conversion"
                 e))
     | Panic w => Panic w
     | Fatal w => Fatal w
     end, (wantSQL, ct)).
Proof.
  intros Hty Hsq Hno. unfold parseRecord, parsingInCursor.
  rewrite Hty, Hsq. destruct (strconv.Atoi cs) as [id|e| |]; try done.
  by rewrite (interestingSQL_none sq wantSQL Hno).
Qed.

(** Two records for the SQL id [zzz], which is not watched, with
    attributes that are not numbers: cursor number 9, and a cursor number
    that is not a number. *)
Lemma parseRecord_sql_not_watched_witness :
  parseRecord "PARSING IN CURSOR #9 len=x dep=y uid=0 oct=3 lid=0 tim=1 hv=99 ad='x' sqlid='zzz'"
    Examples.OE Examples.t17
  = (Ok emptySummary, (Examples.OE, Examples.t17))
  /\ parseRecord "PARSING IN CURSOR #x len=x dep=y uid=0 oct=3 lid=0 tim=1 hv=99 ad='x' sqlid='zzz'"
       Examples.OE Examples.t17
     = (Err (ErrWrap "parseRecord: error from calling parsingInCursor"
               (ErrWrap
                  "parsingInCursor: error in CursorID string->int conversion"
                  (ErrSyntax "Atoi" "x"))),
        (Examples.OE, Examples.t17)).
Proof.
  assert (Forall (fun x => ~ lists "zzz" x) Examples.OE) as Hno.
  { repeat constructor. intros Hin. vm_compute in Hin.
    apply list_elem_of_singleton in Hin. discriminate Hin. }
  split.
  - rewrite (parseRecord_sql_not_watched _ _ _ "zzz" "9");
      [reflexivity|vm_compute; reflexivity..|exact Hno].
  - rewrite (parseRecord_sql_not_watched _ _ _ "zzz" "x");
      [reflexivity|vm_compute; reflexivity..|exact Hno].
Defined.

(** X8. The slice expression that cuts the SQL id out of the thirteenth word is
    unguarded: a PARSING IN CURSOR record with at least thirteen words whose
    thirteenth word has fewer than seven bytes makes [parseRecord] panic. *)
Theorem parseRecord_short_sqlid_word_panics (rec : string)
  (wantSQL : list MonitoredSQL) (ct : CursorTrackerProtected) w12 :
  traceRecordType rec = traceRecordTypeParsingInCursor ->
  Fields rec !! 12%nat = Some w12 ->
  (String.length w12 < 7)%nat ->
  parseRecord rec wantSQL ct
  = (Panic "slice bounds out of range", (wantSQL, ct)).
Proof.
  intros Hty H12 Hlen. unfold parseRecord, parsingInCursor, parseSQLID.
  rewrite Hty.
  assert (12 < List.length (Fields rec))%nat as Hwords
    by (by eapply lookup_lt_Some).
  replace (_ <=? 12)%nat with false by (symmetry; apply Nat.leb_gt; lia).
  assert (sliceFrom 7 w12 = Panic "slice bounds out of range") as Hs.
  { do 7 (destruct w12 as [|? w12]; [done|]). simpl in Hlen. lia. }
  unfold index. rewrite H12. cbn -[sliceFrom]. by rewrite Hs.
Qed.

Lemma parseRecord_short_sqlid_word_panics_witness :
  parseRecord "PARSING IN CURSOR #1 a b c d e f g h sqlid"
    Examples.OE Examples.t17
  = (Panic "slice bounds out of range", (Examples.OE, Examples.t17)).
Proof.
  apply (parseRecord_short_sqlid_word_panics _ _ _ "sqlid");
    [vm_compute; reflexivity..|vm_compute; lia].
Defined.

(** X9. A record with too few tokens is an error of that record: fewer than
    six tokens in a PARSE, EXEC or FETCH record, fewer than thirteen words
    in a PARSING IN CURSOR record.  The error carries the count found, and
    the watch list and the cursor table are unchanged. *)
Theorem parseRecord_too_few_tokens (rec : string)
  (wantSQL : list MonitoredSQL) (ct : CursorTrackerProtected) :
  (traceRecordType rec = traceRecordTypeParseExecFetch ->
   (List.length (execFields rec) <= 5)%nat ->
   parseRecord rec wantSQL ct
   = (Err (ErrWords "parseExec" (List.length (execFields rec))),
      (wantSQL, ct)))
  /\ (traceRecordType rec = traceRecordTypeParsingInCursor ->
      (List.length (Fields rec) <= 12)%nat ->
      parseRecord rec wantSQL ct
      = (Err (ErrWrap "parseRecord: error from calling parsingInCursor"
                (ErrWords "parseSQLID" (List.length (Fields rec)))),
         (wantSQL, ct))).
Proof.
  split; intros Hty Hlen; unfold parseRecord; rewrite Hty.
  - unfold parseExec. fold (execFields rec).
    by replace (_ <=? 5)%nat with true by (symmetry; by apply Nat.leb_le).
  - unfold parsingInCursor, parseSQLID.
    by replace (_ <=? 12)%nat with true by (symmetry; by apply Nat.leb_le).
Qed.

Lemma parseRecord_too_few_tokens_witness :
  parseRecord "EXEC #17:c=2000" Examples.OE Examples.t17
  = (Err (ErrWords "parseExec" 4), (Examples.OE, Examples.t17))
  /\ parseRecord "PARSING IN CURSOR #17 sqlid='abc'" Examples.OE Examples.t17
     = (Err (ErrWrap "parseRecord: error from calling parsingInCursor"
               (ErrWords "parseSQLID" 5)), (Examples.OE, Examples.t17)).
Proof.
  split.
  - assert (List.length (execFields "EXEC #17:c=2000") = 4%nat) as Hn
      by (vm_compute; reflexivity).
    rewrite <- Hn.
    apply (parseRecord_too_few_tokens "EXEC #17:c=2000");
      [vm_compute; reflexivity|rewrite Hn; lia].
  - assert (List.length (Fields "PARSING IN CURSOR #17 sqlid='abc'") = 5%nat)
      as Hn by (vm_compute; reflexivity).
    rewrite <- Hn.
    apply (parseRecord_too_few_tokens "PARSING IN CURSOR #17 sqlid='abc'");
      [vm_compute; reflexivity|rewrite Hn; lia].
Defined.

Lemma prefix_cons a s1 b s2 :
  String.prefix (String a s1) (String b s2)
  = Ascii.eqb a b && String.prefix s1 s2.
Proof.
  cbn [String.prefix]. destruct (ascii_dec a b) as [->|Hne].
  - by rewrite Ascii.eqb_refl.
  - apply Ascii.eqb_neq in Hne. by rewrite Hne.
Qed.

Lemma HasPrefix_PARSING_not_exec rec :
  HasPrefix rec "PARSING IN CURSOR" = true ->
  HasPrefix rec "PARSE #" || HasPrefix rec "EXEC #" || HasPrefix rec "FETCH #"
  = false.
Proof.
  unfold HasPrefix. intros Hp.
  destruct rec as [|c0 [|c1 [|c2 [|c3 [|c4 rec]]]]];
    rewrite ?prefix_cons in Hp; cbn [String.prefix] in Hp;
    rewrite ?andb_false_r in Hp; try discriminate Hp.
  apply andb_prop in Hp as [<-%Ascii.eqb_eq Hp].
  apply andb_prop in Hp as [<-%Ascii.eqb_eq Hp].
  apply andb_prop in Hp as [<-%Ascii.eqb_eq Hp].
  apply andb_prop in Hp as [<-%Ascii.eqb_eq Hp].
  apply andb_prop in Hp as [<-%Ascii.eqb_eq Hp].
  by rewrite !prefix_cons.
Qed.

(** X10. A record that begins with PARSING IN CURSOR but does not contain
    [sqlid] is of no interest: it is ignored without error, and it is not
    taken for a PARSE record. *)
Theorem parseRecord_parsing_without_sqlid (rec : string)
  (wantSQL : list MonitoredSQL) (ct : CursorTrackerProtected) :
  HasPrefix rec "PARSING IN CURSOR" = true ->
  Contains rec "sqlid" = false ->
  traceRecordType rec = traceRecordTypeInvalid
  /\ parseRecord rec wantSQL ct = (Ok emptySummary, (wantSQL, ct)).
Proof.
  intros Hp Hc.
  assert (traceRecordType rec = traceRecordTypeInvalid) as Hty.
  { unfold traceRecordType.
    by rewrite Hp, Hc, (HasPrefix_PARSING_not_exec rec Hp). }
  split; [done|]. unfold parseRecord. by rewrite Hty.
Qed.

Lemma parseRecord_parsing_without_sqlid_witness :
  parseRecord "PARSING IN CURSOR #17 len=120 dep=0" Examples.OE Examples.t17
  = (Ok emptySummary, (Examples.OE, Examples.t17)).
Proof.
  apply (parseRecord_parsing_without_sqlid
           "PARSING IN CURSOR #17 len=120 dep=0");
    vm_compute; reflexivity.
Defined.

(** X11. For a tracked cursor, a CPU or elapsed token that is not a number does
    not come back as an error: [parseExec] calls [log.Fatal], which ends
    the process. *)
Theorem parseRecord_fatal_on_time_tokens (rec : string)
  (wantSQL : list MonitoredSQL) (ct : CursorTrackerProtected)
  w1 w3 w5 id e :
  traceRecordType rec = traceRecordTypeParseExecFetch ->
  (5 < List.length (execFields rec))%nat ->
  execFields rec !! 1%nat = Some w1 -> strconv.Atoi w1 = Ok id ->
  is_Some (Cursors ct !! id) ->
  execFields rec !! 3%nat = Some w3 ->
  execFields rec !! 5%nat = Some w5 ->
  strconv.Atoi w3 = Err e
  \/ (is_Ok (strconv.Atoi w3) = true /\ strconv.Atoi w5 = Err e) ->
  exists what, parseRecord rec wantSQL ct = (Fatal what, (wantSQL, ct)).
Proof.
  intros Hty Hlen H1 Hid Hcur H3 H5 Hbad.
  unfold parseRecord, parseExec. rewrite Hty. fold (execFields rec).
  destruct (execFields rec)
    as [|x0 [|x1 [|x2 [|x3 [|x4 [|x5 ws]]]]]] eqn:E; simpl in Hlen; try lia.
  simpl in H1, H3, H5.
  injection H1 as ->. injection H3 as ->. injection H5 as ->.
  replace (_ <=? 5)%nat with false by (symmetry; apply Nat.leb_gt; simpl; lia).
  cbn. rewrite Hid, RUnlock_RLock.
  rewrite bool_decide_eq_true_2 by done. cbn.
  destruct Hbad as [Hcpu|[Hcpu Hela]].
  - rewrite Hcpu. cbn. by eexists.
  - destruct (strconv.Atoi w3); try done. cbn. rewrite Hela. cbn.
    by eexists.
Qed.

Lemma parseRecord_fatal_on_time_tokens_witness :
  exists what,
    parseRecord "EXEC #17:c=abc,e=5000,p=0" Examples.OE Examples.t17
    = (Fatal what, (Examples.OE, Examples.t17)).
Proof.
  apply (parseRecord_fatal_on_time_tokens _ _ _ "17" "abc" "5000" 17
           (ErrSyntax "Atoi" "abc")); try (vm_compute; reflexivity).
  - vm_compute. lia.
  - exists Examples.c17. vm_compute. reflexivity.
  - left. vm_compute. reflexivity.
Defined.

End ParsingRecordsEdge.

(** ** What a dumper emits *)

Section DumpProperties.
Import sink dumpers.

(** X12. [Dump] hands a summary to the output medium only for a violation: the
    list of emitted summaries is unchanged, or grows by the one violation
    summary [parseRecord] returned for the record. *)
Theorem Dump_emits_only_violations (rec : string) (g : Generic) :
  emitted (Dump rec g).2 = emitted g
  \/ exists pr,
       (parseRecord rec (MonitoredSQLs g) (CursorTracker g)).1 = Ok pr
       /\ isViolation pr = true
       /\ (Dump rec g).1 = Ok tt
       /\ emitted (Dump rec g).2 = emitted g ++ [pr].
Proof.
  unfold Dump.
  destruct (parseRecord rec (MonitoredSQLs g) (CursorTracker g))
    as [[pr| | |] st]; try by left.
  destruct (isViolation pr) eqn:Hv; [|by left]. simpl.
  destruct (Media g).
  - right. by exists pr.
  - destruct (enqueueFails g); [by left|]. right. by exists pr.
Qed.

(** X13. When the Pub/Sub enqueue fails, [Dump] returns the error and emits
    nothing, but the violation has already been counted: the watch list of
    the dumper is the one [parseRecord] updated. *)
Theorem Dump_enqueue_failure_keeps_count (rec : string) (g : Generic)
  (pr : parsedSummary) (st : pstate) :
  Media g = PubSubMedia ->
  enqueueFails g = true ->
  parseRecord rec (MonitoredSQLs g) (CursorTracker g) = (Ok pr, st) ->
  isViolation pr = true ->
  exists e,
    (Dump rec g).1 = Err e
    /\ emitted (Dump rec g).2 = emitted g
    /\ MonitoredSQLs (Dump rec g).2 = st.1
    /\ CursorTracker (Dump rec g).2 = st.2.
Proof.
  intros Hm Hf Hp Hv. unfold Dump. rewrite Hp, Hv, Hm, Hf. simpl.
  by eexists.
Qed.

Lemma Dump_enqueue_failure_keeps_count_witness :
  let g := mkGeneric PubSubMedia "db" Examples.OE Examples.t17 [] true in
  exists e,
    (Dump Examples.s2 g).1 = Err e
    /\ emitted (Dump Examples.s2 g).2 = []
    /\ NumViolations <$> MonitoredSQLs (Dump Examples.s2 g).2 = [1].
Proof.
  intros g.
  assert (exists pr st,
            parseRecord Examples.s2 (MonitoredSQLs g) (CursorTracker g)
            = (Ok pr, st) /\ isViolation pr = true
            /\ NumViolations <$> st.1 = [1]) as (pr & st & Hp & Hv & Hn).
  { do 2 eexists. split; [vm_compute; reflexivity|]. by split. }
  destruct (Dump_enqueue_failure_keeps_count Examples.s2 g pr st eq_refl
              eq_refl Hp Hv) as (e & He & Hem & Hsql & _).
  exists e. rewrite Hsql. by repeat split.
Defined.

End DumpProperties.

(** ** [ReadRecords], further *)

Section ReaderProperties.
Import rttanalyzer GoStrings.

Lemma skip_all n s : (String.length s <= n)%nat -> skip n s = "".
Proof.
  revert n. induction s as [|c s IH]; intros [|n] Hn; simpl in *;
    try done; try lia.
  apply IH. lia.
Qed.

Lemma withOffset_same tf : withOffset (offset tf) tf = tf.
Proof. by destruct tf. Qed.

Lemma dropCR_length l : (String.length (dropCR l) <= String.length l)%nat.
Proof.
  induction l as [|c l IH]; [done|]. simpl.
  destruct l as [|c' l'].
  - destruct (Ascii.eqb c CR); simpl; lia.
  - simpl in *. lia.
Qed.

Lemma scanTokens_head_length lines tok toks :
  scanTokens lines = tok :: toks -> 0 <= len tok < MaxScanTokenSize.
Proof.
  destruct lines as [|[l t] ls]; [done|]. simpl.
  destruct (len l <? MaxScanTokenSize) eqn:E; [|done].
  intros [= <- _]. apply Z.ltb_lt in E. unfold len in *.
  pose proof (dropCR_length l). lia.
Qed.

(** What [seek] refuses: a negative offset, and an offset beyond both the
    file and the largest offset of the file system. *)
Lemma seek_refused `{FileSystem} data tf :
  offset tf < 0 \/ (len data < offset tf /\ maxOffset < offset tf) ->
  seek data tf = Err (ErrIO "seek" (fileHandle tf)).
Proof.
  intros Hbad. unfold seek, seekable.
  destruct (0 <=? offset tf) eqn:E0; [|done]. apply Z.leb_le in E0.
  replace (offset tf <=? _) with false; [done|].
  symmetry. apply Z.leb_gt. lia.
Qed.

(** What [seek] accepts beyond the end of the file. *)
Lemma seek_accepted `{FileSystem} data tf :
  0 <= offset tf ->
  offset tf <= len data \/ offset tf <= maxOffset ->
  seek data tf = Ok tf.
Proof.
  intros H0 Hok. unfold seek, seekable.
  replace (0 <=? offset tf) with true by (symmetry; by apply Z.leb_le).
  replace (offset tf <=? _) with true by (symmetry; apply Z.leb_le; lia).
  done.
Qed.

(** X14. When the offset is at the end of the file, or beyond it and
    within the largest offset of the file system, [ReadRecords] returns
    the empty batch without error and leaves the trace file state, its
    offset included, as it was.  A negative offset, and an offset beyond
    both the file and the largest offset of the file system, are seek
    errors; the trace file state is left as it was then too. *)
Theorem ReadRecords_nothing_new `{FileSystem} (data : string)
  (tf : TraceFile) :
  (len data <= offset tf ->
   offset tf = len data \/ offset tf <= maxOffset ->
   ReadRecords data tf = (Ok [], tf))
  /\ (offset tf < 0 \/ (len data < offset tf /\ maxOffset < offset tf) ->
      ReadRecords data tf = (Err (ErrIO "seek" (fileHandle tf)), tf)).
Proof.
  unfold ReadRecords. split.
  - intros Hoff Hok. assert (0 <= len data) by (unfold len; lia).
    rewrite seek_accepted by lia.
    rewrite skip_all by (unfold len in *; lia). simpl.
    by rewrite withOffset_same.
  - intros Hbad. by rewrite seek_refused.
Qed.

Lemma ReadRecords_nothing_new_witness :
  @ReadRecords unix.ext4 ("abc" +:+ nl) (withOffset 4 Examples.trace1)
  = (Ok [], withOffset 4 Examples.trace1)
  /\ @ReadRecords unix.ext4 ("abc" +:+ nl) (withOffset 1000 Examples.trace1)
     = (Ok [], withOffset 1000 Examples.trace1)
  /\ @ReadRecords unix.ext4 ("abc" +:+ nl) (withOffset (-1) Examples.trace1)
     = (Err (ErrIO "seek" "/t/db_ora_1.trc"), withOffset (-1) Examples.trace1)
  /\ @ReadRecords unix.ext4 ("abc" +:+ nl)
       (withOffset (2 ^ 44 + 1) Examples.trace1)
     = (Err (ErrIO "seek" "/t/db_ora_1.trc"),
        withOffset (2 ^ 44 + 1) Examples.trace1).
Proof.
  destruct (@ReadRecords_nothing_new unix.ext4 ("abc" +:+ nl)
              (withOffset 4 Examples.trace1)) as [Heof _].
  destruct (@ReadRecords_nothing_new unix.ext4 ("abc" +:+ nl)
              (withOffset 1000 Examples.trace1)) as [Hbeyond _].
  destruct (@ReadRecords_nothing_new unix.ext4 ("abc" +:+ nl)
              (withOffset (-1) Examples.trace1)) as [_ Hneg].
  destruct (@ReadRecords_nothing_new unix.ext4 ("abc" +:+ nl)
              (withOffset (2 ^ 44 + 1) Examples.trace1)) as [_ Hfar].
  split; [|split; [|split]].
  - apply Heof; [vm_compute; congruence|left; vm_compute; reflexivity].
  - apply Hbeyond; [vm_compute; congruence|right; vm_compute; congruence].
  - apply Hneg. left. vm_compute. reflexivity.
  - apply Hfar. right. split; vm_compute; reflexivity.
Defined.

(** X15. A batch holds at most [recordsCount] records (one).  From an offset
    that is not negative, below 2^62 and accepted by the file system (it
    lies inside the file or within the largest offset of the file system),
    [ReadRecords] succeeds; the offset never moves backwards, it moves by
    less than the scanner's buffer size plus one, and it stays put exactly
    when the batch is empty; the other fields of the trace file state are
    never written. *)
Theorem ReadRecords_batch_and_offset `{FileSystem} (data : string)
  (tf : TraceFile) :
  0 <= offset tf <= 2 ^ 62 ->
  offset tf <= len data \/ offset tf <= maxOffset ->
  exists records off,
    ReadRecords data tf = (Ok records, withOffset off tf)
    /\ (List.length records <= recordsCount)%nat
    /\ offset tf <= off <= offset tf + MaxScanTokenSize
    /\ (off = offset tf <-> records = []).
Proof.
  intros Hoff Hok. unfold ReadRecords.
  rewrite seek_accepted by (done || lia).
  destruct (scanTokens (splitLines (skip (Z.to_nat (offset tf)) data)))
    as [|tok toks] eqn:E.
  - exists [], (offset tf). simpl. unfold MaxScanTokenSize.
    repeat split; try done; lia.
  - apply scanTokens_head_length in E. unfold MaxScanTokenSize in *.
    simpl.
    assert (wrap64 (offset tf + wrap64 (len tok + 1))
            = offset tf + len tok + 1) as Hw.
    { unfold wrap64. rewrite (Z.mod_small (len tok + 1 + 2 ^ 63)) by lia.
      rewrite Z.mod_small; lia. }
    exists [tok +:+ String LF ""], (offset tf + len tok + 1).
    destruct toks; simpl; rewrite Hw;
      (repeat split; try done; try lia).
Qed.

Lemma ReadRecords_batch_and_offset_witness :
  exists records off,
    @ReadRecords unix.ext4 ("ab" +:+ nl +:+ "cd" +:+ nl) Examples.trace1
    = (Ok records, withOffset off Examples.trace1)
    /\ (List.length records <= 1)%nat
    /\ 0 <= off <= 65536
    /\ (off = 0 <-> records = []).
Proof.
  assert (0 <= offset Examples.trace1 <= 2 ^ 62) as Hoff
    by (vm_compute; split; discriminate).
  assert (offset Examples.trace1 <= len ("ab" +:+ nl +:+ "cd" +:+ nl)
          \/ offset Examples.trace1 <= @maxOffset unix.ext4) as Hok
    by (left; vm_compute; discriminate).
  exact (@ReadRecords_batch_and_offset unix.ext4
           ("ab" +:+ nl +:+ "cd" +:+ nl) Examples.trace1 Hoff Hok).
Defined.

(** X16. A complete line at the offset is returned as it is in the file, line
    feed included, and the offset then points at the byte after that line
    feed. *)
Theorem ReadRecords_returns_complete_line `{FileSystem}
  (pre l rest : string) (tf : TraceFile) :
  completeLine l ->
  offset tf = len pre ->
  len pre + len l + 1 <= maxInt64 ->
  ReadRecords (pre +:+ l +:+ String LF rest) tf
  = (Ok [l +:+ nl], withOffset (len pre + len l + 1) tf).
Proof.
  intros (Hlf & Hcr & Hlen) Hoff Hmax.
  assert (0 <= len pre /\ 0 <= len l) as [Hp Hl] by (unfold len; lia).
  unfold MaxScanTokenSize, maxInt64 in *.
  rewrite (ReadRecords_complete_line _ tf l rest); try done; try lia.
  - do 2 f_equal. rewrite Hoff. unfold wrap64.
    rewrite (Z.mod_small (len l + 1 + 2 ^ 63)) by lia.
    rewrite Z.mod_small; lia.
  - rewrite Hoff. unfold len. rewrite Nat2Z.id. clear.
    induction pre as [|c pre IH]; [done|]. exact IH.
Qed.

Lemma ReadRecords_returns_complete_line_witness :
  @ReadRecords unix.ext4
    ("First line" +:+ nl +:+ "Second line" +:+ String LF "Thi")
    (withOffset 11 Examples.trace1)
  = (Ok ["Second line" +:+ nl], withOffset 23 Examples.trace1).
Proof.
  assert (completeLine "Second line") as Hc
    by (repeat split; vm_compute; reflexivity).
  exact (@ReadRecords_returns_complete_line unix.ext4 ("First line" +:+ nl)
           "Second line" "Thi" (withOffset 11 Examples.trace1) Hc eq_refl
           ltac:(vm_compute; discriminate)).
Defined.

End ReaderProperties.

(** ** [readRecords2] *)

Section Reader2Properties.
Import rttanalyzer GoStrings.

Lemma append_assoc (a b c : string) : (a +:+ b) +:+ c = a +:+ (b +:+ c).
Proof.
  induction a as [|x a IH]; [done|]. exact (f_equal (String x) IH).
Qed.

Lemma append_nil_r (a : string) : a +:+ "" = a.
Proof.
  induction a as [|x a IH]; [done|]. exact (f_equal (String x) IH).
Qed.

Lemma len_append (a b : string) : len (a +:+ b) = len a + len b.
Proof.
  unfold len. induction a as [|x a IH].
  - change ("" +:+ b) with b. simpl. lia.
  - change (String x a +:+ b) with (String x (a +:+ b)).
    simpl String.length. rewrite !Nat2Z.inj_succ. lia.
Qed.

Lemma len_cons c (s : string) : len (String c s) = 1 + len s.
Proof. unfold len. simpl String.length. lia. Qed.

Lemma len_nonneg (a : string) : 0 <= len a.
Proof. unfold len. lia. Qed.

Lemma skip_append (pre s : string) : skip (String.length pre) (pre +:+ s) = s.
Proof. induction pre as [|c pre IH]; [done|]. exact IH. Qed.

Lemma readString_Some s rec rest :
  readString s = Some (rec, rest) ->
  exists l, rec = l +:+ nl /\ hasByte LF l = false
            /\ s = l +:+ String LF rest.
Proof.
  revert rec. induction s as [|c s IH]; intros rec; simpl; [done|].
  destruct (Ascii.eqb c LF) eqn:E.
  - apply Ascii.eqb_eq in E as ->. intros [= <- <-]. by exists "".
  - destruct (readString s) as [[l' rest']|]; [|done].
    intros [= <- <-]. destruct (IH l' eq_refl) as (l & -> & Hl & ->).
    exists (String c l). simpl. by rewrite E.
Qed.

Lemma readString_None s : readString s = None -> hasByte LF s = false.
Proof.
  induction s as [|c s IH]; simpl; [done|].
  destruct (Ascii.eqb c LF); [done|].
  destruct (readString s) as [[l rest]|]; [done|]. auto.
Qed.

Lemma readLoop2_lines count : forall s records n off,
  0 <= n -> 0 <= off ->
  n + len s <= maxInt64 -> off + len s <= maxInt64 ->
  exists lines rest,
    readLoop2 count s records n n off
    = (records +:+ fileOf lines, n + Z.of_nat (List.length lines),
       off + len (fileOf lines))
    /\ s = fileOf lines +:+ rest
    /\ Forall (fun l => hasByte LF l = false) lines
    /\ (List.length lines <= count)%nat
    /\ (List.length lines = count \/ hasByte LF rest = false).
Proof.
  induction count as [|count IH]; intros s records n off Hn Hoff Hns Hos.
  - exists [], s. simpl. rewrite append_nil_r, !Z.add_0_r.
    repeat split; try done. by left.
  - simpl. destruct (readString s) as [[rec rest]|] eqn:E.
    + apply readString_Some in E as (l & -> & Hl & ->).
      pose proof (len_nonneg l). pose proof (len_nonneg rest).
      assert (len (l +:+ String LF rest) = len l + 1 + len rest) as Hlen.
      { rewrite len_append. unfold len. simpl String.length. lia. }
      assert (len (l +:+ nl) = len l + 1) as Hlen'.
      { rewrite len_append. unfold len. simpl. lia. }
      unfold maxInt64, minInt64 in *.
      assert (wrap64 (n + 1) = n + 1) as ->
        by (unfold wrap64; rewrite Z.mod_small; lia).
      assert (wrap64 (off + len (l +:+ nl)) = off + len l + 1) as ->
        by (unfold wrap64; rewrite Z.mod_small; lia).
      destruct (IH rest (records +:+ (l +:+ nl)) (n + 1) (off + len l + 1))
        as (lines & rest' & -> & -> & Hall & Hle & Hend); try lia.
      exists (l :: lines), rest'. simpl fileOf. simpl List.length.
      repeat split.
      * f_equal; [f_equal|].
        -- rewrite !append_assoc. done.
        -- lia.
        -- rewrite len_append, len_cons. lia.
      * by rewrite append_assoc.
      * by constructor.
      * lia.
      * destruct Hend as [Heq|Hno]; [left; lia|by right].
    + exists [], s. simpl. rewrite append_nil_r, !Z.add_0_r.
      repeat split; try done; [lia|]. right. by apply readString_None.
Qed.

(** X17. [readRecords2] returns whole lines only: what it returns is the
    concatenation of complete lines, each with its line feed, that the file
    holds from the given offset on; it stops after [recordsCount] lines or
    where the rest of the file has no line feed, so a partial last line is
    never returned.  The count returned is the number of those lines, and
    [tf.offset] grows by exactly the number of bytes returned.  This is
    so whenever the file system accepts the seek to the given offset
    (inside the file, or within its largest offset); when the seek is
    refused, nothing is returned but the error, and [tf.offset] is as it
    was. *)
Theorem readRecords2_whole_lines `{FileSystem} (data : string)
  (recordsCount off : Z) (tf : TraceFile) :
  0 <= off -> 0 <= offset tf ->
  offset tf + len data <= maxInt64 ->
  (off <= len data \/ off <= maxOffset ->
   exists lines rest,
     readRecords2 data recordsCount off tf
     = (Ok (fileOf lines, Z.of_nat (List.length lines),
            offset tf + len (fileOf lines)),
        withOffset (offset tf + len (fileOf lines)) tf)
     /\ skip (Z.to_nat off) data = fileOf lines +:+ rest
     /\ Forall (fun l => hasByte LF l = false) lines
     /\ (List.length lines <= Z.to_nat recordsCount)%nat
     /\ (List.length lines = Z.to_nat recordsCount
         \/ hasByte LF rest = false))
  /\ (len data < off /\ maxOffset < off ->
      readRecords2 data recordsCount off tf
      = (Err (ErrIO "seek" (fileHandle tf)), tf)).
Proof.
  intros Hoff Htf Hmax. unfold readRecords2, seekable.
  replace (0 <=? off) with true by (symmetry; by apply Z.leb_le).
  split; [intros Hok|intros Hbad].
  2:{ replace (off <=? _) with false; [done|].
      symmetry. apply Z.leb_gt. lia. }
  replace (off <=? _) with true by (symmetry; apply Z.leb_le; lia).
  cbn [andb negb].
  assert (len (skip (Z.to_nat off) data) <= len data) as Hskip.
  { unfold len. generalize (Z.to_nat off). clear.
    induction data as [|c data IH]; intros [|n]; simpl; try lia.
    specialize (IH n). lia. }
  pose proof (len_nonneg (skip (Z.to_nat off) data)).
  destruct (readLoop2_lines (Z.to_nat recordsCount)
              (skip (Z.to_nat off) data) "" 0 (offset tf))
    as (lines & rest & -> & Hs & Hall & Hle & Hend); try lia.
  exists lines, rest. by repeat split.
Qed.

(** Two complete lines and a partial third, three records asked for. *)
Lemma readRecords2_whole_lines_witness :
  let data := "ab" +:+ nl +:+ "cd" +:+ nl +:+ "ef" in
  exists lines rest,
    @readRecords2 unix.ext4 data 3 0 Examples.trace1
    = (Ok (fileOf lines, Z.of_nat (List.length lines),
           offset Examples.trace1 + len (fileOf lines)),
       withOffset (offset Examples.trace1 + len (fileOf lines))
         Examples.trace1)
    /\ skip (Z.to_nat 0) data = fileOf lines +:+ rest
    /\ Forall (fun l => hasByte LF l = false) lines
    /\ (List.length lines <= Z.to_nat 3)%nat
    /\ (List.length lines = Z.to_nat 3 \/ hasByte LF rest = false).
Proof.
  intros data.
  assert (offset Examples.trace1 + len data <= maxInt64) as Hmax
    by (vm_compute; discriminate).
  assert (0 <= len data \/ 0 <= @maxOffset unix.ext4) as Hok
    by (left; vm_compute; discriminate).
  destruct (@readRecords2_whole_lines unix.ext4 data 3 0 Examples.trace1
              (Z.le_refl 0) (Z.le_refl 0) Hmax) as [Hlines _].
  exact (Hlines Hok).
Defined.

End Reader2Properties.

(** ** The roster, further *)

Section RosterProperties.
Import rttanalyzer.

(** X18. A [Save] that fails returns the IO error, and the roster in
    memory nevertheless holds the new record.  The roster file is as
    before when the directory cannot be made or the file cannot be opened
    for writing.  When the write stops after the file has been opened
    ([ioutil.WriteFile] has emptied it by then), the file is left with a
    strict prefix of the document, which is no JSON document: the roster
    that was on disk is lost, and a later [LoadRoster] fails. *)
Theorem Save_io_failure `{Filepath} (fileName : string) (tf : TraceFile)
  (m : gmap string jsonTraceFile) (d : Disk) :
  mkdirFails d = true \/ writeFails d = true ->
  exists e d',
    Save fileName tf (mkRoster (Some m)) d
    = (Err e,
       mkRoster (Some (<[Join (DirectoryName tf) (Name tf) :=
          mkJsonTraceFile (Name tf) (DirectoryName tf) (version tf)
            (offset tf)]> m)),
       d')
    /\ (mkdirFails d = true \/ truncated d = false -> d' = d)
    /\ (mkdirFails d = false -> truncated d = true ->
        rosterFile d' = NotJSON
        /\ LoadRoster fileName d' = Err (ErrJSON "Unmarshal")).
Proof.
  intros Hfail. unfold Save. cbn [R].
  destruct (mkdirFails d) eqn:Hm.
  - eexists _, _. split; [reflexivity|]. split; [done|]. done.
  - destruct Hfail as [Hf|Hf]; [done|]. rewrite Hf.
    destruct (truncated d) eqn:Ht; eexists _, _;
      (split; [reflexivity|]); split; try done.
    by intros [|].
Qed.

(** A disk that is full: the roster file held a roster, and does not any
    more. *)
Lemma Save_io_failure_witness :
  let d := mkDisk (RosterJSON (Some [])) false true true in
  exists e d',
    @Save unix.paths "rtta.roster" Examples.trace1 (mkRoster (Some ∅)) d
    = (Err e,
       mkRoster (Some (<[@Join unix.paths (DirectoryName Examples.trace1)
                           (Name Examples.trace1) :=
          mkJsonTraceFile (Name Examples.trace1)
            (DirectoryName Examples.trace1) (version Examples.trace1)
            (offset Examples.trace1)]> ∅)),
       d')
    /\ (mkdirFails d = true \/ truncated d = false -> d' = d)
    /\ (mkdirFails d = false -> truncated d = true ->
        rosterFile d' = NotJSON
        /\ LoadRoster "rtta.roster" d' = Err (ErrJSON "Unmarshal")).
Proof.
  intros d.
  exact (@Save_io_failure unix.paths "rtta.roster" Examples.trace1 ∅ d
           (or_intror eq_refl)).
Defined.

(** What [Save] stored is what [Roster.TraceFile] resumes from: in the
    same run, whether or not the write to disk succeeded, opening the path
    [Join DirectoryName Name] yields the saved name, directory, version and
    offset. *)
Theorem Save_then_TraceFile `{Filepath} (fileName : string) (tf : TraceFile)
  (m : gmap string jsonTraceFile) (d : Disk) :
  let key := Join (DirectoryName tf) (Name tf) in
  TraceFileOf (Save fileName tf (mkRoster (Some m)) d).1.2 key true
  = Ok (mkTraceFile (Name tf) (DirectoryName tf) (version tf) (offset tf) key).
Proof.
  intros key. unfold Save. simpl. fold key.
  destruct (mkdirFails d); [|destruct (writeFails d); [destruct (truncated d)|]];
    unfold TraceFileOf; simpl; by rewrite lookup_insert_eq.
Qed.

(** X19. After a restart: when the save succeeded and the strings involved are
    valid UTF-8, the roster loaded from disk resumes the trace file at the
    saved version and offset. *)
Theorem restart_resumes_at_saved_offset `{Filepath} (fileName : string)
  (tf : TraceFile) (m : gmap string jsonTraceFile) (d : Disk) :
  mkdirFails d = false ->
  writeFails d = false ->
  json.validUTF8 (Name tf) ->
  json.validUTF8 (DirectoryName tf) ->
  json.validUTF8 (Join (DirectoryName tf) (Name tf)) ->
  map_Forall validEntry m ->
  let key := Join (DirectoryName tf) (Name tf) in
  exists r',
    LoadRoster fileName (Save fileName tf (mkRoster (Some m)) d).2 = Ok r'
    /\ TraceFileOf r' key true
       = Ok (mkTraceFile (Name tf) (DirectoryName tf) (version tf)
               (offset tf) key).
Proof.
  intros Hmk Hwr Hn Hd Hk Hm key.
  exists (mkRoster (Some (<[key := mkJsonTraceFile (Name tf)
            (DirectoryName tf) (version tf) (offset tf)]> m))).
  split.
  - unfold Save. cbn [R]. rewrite Hmk, Hwr. unfold LoadRoster.
    cbn [snd rosterFile]. f_equal. apply Unmarshal_Marshal.
    apply map_Forall_insert_2; [|done]. by repeat split.
  - unfold TraceFileOf. cbn [R mbind option_bind].
    by rewrite lookup_insert_eq.
Qed.

Lemma restart_resumes_at_saved_offset_witness :
  let tf := mkTraceFile "db_ora_7.trc" "/t" 1 42 "/t/db_ora_7.trc" in
  let key := @Join unix.paths (DirectoryName tf) (Name tf) in
  exists r',
    LoadRoster "/home/rtta.roster"
      (@Save unix.paths "/home/rtta.roster" tf (mkRoster (Some ∅))
         (mkDisk NoFile false false false)).2 = Ok r'
    /\ @TraceFileOf unix.paths r' key true
       = Ok (mkTraceFile (Name tf) (DirectoryName tf) (version tf)
               (offset tf) key).
Proof.
  intros tf key.
  assert (json.validUTF8 (Name tf)) as Hn by (vm_compute; reflexivity).
  assert (json.validUTF8 (DirectoryName tf)) as Hd
    by (vm_compute; reflexivity).
  assert (json.validUTF8 (@Join unix.paths (DirectoryName tf) (Name tf)))
    as Hk by (vm_compute; reflexivity).
  exact (@restart_resumes_at_saved_offset unix.paths "/home/rtta.roster" tf ∅
           (mkDisk NoFile false false false) eq_refl eq_refl Hn Hd Hk
           (map_Forall_empty _)).
Defined.

(** X20. A first start: with no roster file, [LoadRoster] succeeds with an
    empty roster, under which every trace file that exists is opened fresh,
    at offset 0 and version 1; a trace file that cannot be opened is an
    error whatever the roster holds. *)
Theorem first_start_reads_from_the_beginning `{Filepath}
  (rosterName : string) (d : Disk) :
  rosterFile d = NoFile ->
  exists r,
    LoadRoster rosterName d = Ok r
    /\ (forall f, TraceFileOf r f true
                  = Ok (mkTraceFile (Base f) (Dir f) 1 0 f))
    /\ (forall r' f, TraceFileOf r' f false = Err (ErrIO "open" f)).
Proof.
  intros Hno. unfold LoadRoster. rewrite Hno. eexists.
  split; [reflexivity|]. split.
  - intros f. unfold TraceFileOf. simpl. by rewrite lookup_empty.
  - intros r' f. unfold TraceFileOf, OpenTraceFile.
    by destruct (R r' ≫= _).
Qed.

Lemma first_start_reads_from_the_beginning_witness :
  exists r,
    LoadRoster "/home/rtta.roster" (mkDisk NoFile false false false) = Ok r
    /\ @TraceFileOf unix.paths r "/t/db_ora_1.trc" true = Ok Examples.trace1.
Proof.
  destruct (@first_start_reads_from_the_beginning unix.paths
              "/home/rtta.roster" (mkDisk NoFile false false false) eq_refl)
    as (r & Hl & Hf & _).
  exists r. split; [exact Hl|]. rewrite Hf. vm_compute. reflexivity.
Defined.

(** X21. A roster file whose [R] is [null] loads without error, but into a
    roster with no map: every [Save] on it panics on the assignment, and
    nothing is written. *)
Theorem Save_on_null_roster_panics `{Filepath} (rosterName : string)
  (d : Disk) :
  rosterFile d = RosterJSON None ->
  exists r,
    LoadRoster rosterName d = Ok r
    /\ (forall fileName tf d',
          Save fileName tf r d'
          = (Panic "assignment to entry in nil map", r, d')).
Proof.
  intros Hnull. unfold LoadRoster. rewrite Hnull. by eexists.
Qed.

Lemma Save_on_null_roster_panics_witness :
  exists r,
    LoadRoster "/home/rtta.roster" (mkDisk (RosterJSON None) false false false)
    = Ok r
    /\ @Save unix.paths "/home/rtta.roster" Examples.trace1 r
         (mkDisk (RosterJSON None) false false false)
       = (Panic "assignment to entry in nil map", r,
          mkDisk (RosterJSON None) false false false).
Proof.
  destruct (@Save_on_null_roster_panics unix.paths "/home/rtta.roster"
              (mkDisk (RosterJSON None) false false false) eq_refl) as (r & Hl & Hs).
  exists r. split; [exact Hl|apply Hs].
Defined.

End RosterProperties.

(** ** The Miner, end to end *)

Section MinerProperties.
Import GoStrings rttanalyzer miner.
Context `{Filepath} `{FileSystem} {D : Type} `{Dumper D}.

Lemma fileOf_app (a b : list string) :
  fileOf (a ++ b) = fileOf a +:+ fileOf b.
Proof.
  induction a as [|l a IH]; [done|].
  change (fileOf ((l :: a) ++ b)) with (l +:+ String LF (fileOf (a ++ b))).
  change (fileOf (l :: a)) with (l +:+ String LF (fileOf a)).
  rewrite IH, append_assoc. done.
Qed.

Lemma dumpAll_app (a b : list string) (dumper dumper' : D) :
  dumpAll (a ++ b) dumper = (Ok tt, dumper') ->
  exists d1, dumpAll a dumper = (Ok tt, d1)
             /\ dumpAll b d1 = (Ok tt, dumper').
Proof.
  revert dumper. induction a as [|v a IH]; intros dumper; simpl.
  - intros Hb. by exists dumper.
  - destruct (Dump v dumper) as [[[]| | |] d0]; try done. apply IH.
Qed.

Lemma UpdateRoster_again (tf0 : TraceFile) (off1 off2 : Z) (r : Roster)
  (d : Disk) :
  R r <> None ->
  let u1 := UpdateRoster (withOffset off1 tf0) r d in
  R u1.1.2 <> None
  /\ UpdateRoster (withOffset off2 tf0) u1.1.2 u1.2
     = UpdateRoster (withOffset off2 tf0) r d.
Proof.
  destruct r as [[m|]]; [intros _|done]. unfold UpdateRoster, Save.
  cbn [R Name DirectoryName version offset withOffset].
  destruct (mkdirFails d) eqn:Hm;
    [|destruct (writeFails d) eqn:Hw; [destruct (truncated d) eqn:Ht|]];
    cbn [fst snd R mkdirFails writeFails truncated]; rewrite ?Hm, ?Hw, ?Ht;
    (split; [done|]); by rewrite insert_insert_eq.
Qed.

(** The passes that read the lines still in the file: each reads one line
    and dumps it; the roster and the disk are not touched. *)
Lemma Mine_drain (lines : list string) (pre : string) (k : nat)
  (notify : list notification) (dumper dumper' : D) (e : Env) :
  Forall completeLine lines ->
  data e = pre +:+ fileOf lines ->
  offset (tf e) = len pre ->
  len (data e) <= 2 ^ 62 ->
  dumpAll (recordsOf lines) dumper = (Ok tt, dumper') ->
  Mine (length lines + k) notify dumper e
  = Mine k notify dumper'
      (mkEnv (withOffset (len (data e)) (tf e)) (data e) (roster e) (disk e)).
Proof.
  revert pre dumper e.
  induction lines as [|l ls IH]; intros pre dumper e Hall Hdata Hoff Hlen Hd.
  - simpl in Hd. injection Hd as <-.
    change (fileOf []) with "" in Hdata. rewrite append_nil_r in Hdata.
    rewrite Hdata, <- Hoff, withOffset_same. rewrite <- Hdata.
    by destruct e.
  - apply Forall_cons in Hall as [(Hlf & Hcr & Hsz) Hall].
    change (fileOf (l :: ls)) with (l +:+ String LF (fileOf ls)) in Hdata.
    assert (0 <= len pre /\ 0 <= len l /\ 0 <= len (fileOf ls))
      as (Hp0 & Hl0 & Hf0) by (repeat split; apply len_nonneg).
    assert (len (data e) = len pre + len l + 1 + len (fileOf ls)) as Hsum.
    { rewrite Hdata, !len_append, len_cons. lia. }
    assert (wrap64 (offset (tf e) + wrap64 (len l + 1))
            = len (pre +:+ (l +:+ nl))) as Hw.
    { rewrite !len_append. change (len nl) with 1. rewrite Hoff.
      unfold wrap64. rewrite (Z.mod_small (len l + 1 + 2 ^ 63)) by lia.
      rewrite Z.mod_small; lia. }
    assert (ReadRecords (data e) (tf e)
            = (Ok [l +:+ nl],
               withOffset (len (pre +:+ (l +:+ nl))) (tf e))) as Hread.
    { rewrite <- Hw. apply (ReadRecords_complete_line _ _ l (fileOf ls));
        try done; [lia|].
      rewrite Hoff. unfold len. rewrite Nat2Z.id, Hdata.
      apply skip_append. }
    change (recordsOf (l :: ls)) with ([l +:+ nl] ++ recordsOf ls) in Hd.
    apply dumpAll_app in Hd as (d1 & Hd1 & Hd2).
    change (length (l :: ls) + k)%nat with (S (length ls + k)).
    cbn [Mine]. unfold minePass. rewrite Hread, Hd1.
    cbn [List.length Nat.eqb].
    rewrite (IH (pre +:+ (l +:+ nl)) d1); cbn [data tf roster disk]; try done.
    rewrite Hdata, !append_assoc. done.
Qed.

(** A Miner at the end of the bytes it has: the batch is empty, the offset
    is saved, and the Miner is at its receive. *)
Lemma minePass_at_end (dumper : D) (e : Env) :
  offset (tf e) = len (data e) ->
  R (roster e) <> None ->
  let u := UpdateRoster (tf e) (roster e) (disk e) in
  minePass dumper e
  = (Receive, dumper, mkEnv (tf e) (data e) u.1.2 u.2).
Proof.
  intros Hoff Hr u. unfold minePass, ReadRecords.
  pose proof (len_nonneg (data e)).
  rewrite seek_inside by lia.
  rewrite skip_all by (rewrite Hoff; unfold len; lia).
  cbn [splitLines scanTokens readLoop dumpAll List.length Nat.eqb].
  rewrite withOffset_same. cbn [roster disk]. fold u.
  assert (forall w, u.1.1 <> Panic w) as Hnp.
  { intros w. subst u. unfold UpdateRoster, Save.
    destruct (R (roster e)); [|done].
    cbv zeta.
    by destruct (mkdirFails (disk e)), (writeFails (disk e)),
         (truncated (disk e)). }
  destruct u as [[[] r'] d']; try done. by destruct (Hnp what).
Qed.

(** X22. A Miner started on a trace file whose unread part is made of complete
    lines, and woken once for each of the [chunks] of complete lines
    appended afterwards, hands every line to its dumper exactly once, in
    file order and with its line feed, as long as the dumper accepts them.
    When the channel is closed it returns nil; by then its offset is the
    length of the file, and the roster and the disk are as after one
    [UpdateRoster] at that offset. *)
Theorem Mine_delivers_every_line (lines : list string)
  (chunks : list (list string)) (pre : string) (dumper dumper' : D)
  (e : Env) :
  Forall completeLine (lines ++ concat chunks) ->
  data e = pre +:+ fileOf lines ->
  offset (tf e) = len pre ->
  len (data e +:+ fileOf (concat chunks)) <= 2 ^ 62 ->
  R (roster e) <> None ->
  dumpAll (recordsOf (lines ++ concat chunks)) dumper = (Ok tt, dumper') ->
  let dataN := data e +:+ fileOf (concat chunks) in
  let tfN := withOffset (len dataN) (tf e) in
  let u := UpdateRoster tfN (roster e) (disk e) in
  Mine (length (lines ++ concat chunks) + S (length chunks))
    (((fun c => Wake (fileOf c)) <$> chunks) ++ [Closed]) dumper e
  = (Returned None, dumper', mkEnv tfN dataN u.1.2 u.2).
Proof.
  revert lines pre dumper e.
  induction chunks as [|c cs IH];
    intros lines pre dumper e Hall Hdata Hoff Hlen Hr Hd dataN tfN u.
  - subst u tfN dataN. cbn [concat fmap list_fmap app] in *.
    change (fileOf []) with "" in *.
    rewrite append_nil_r in *. rewrite app_nil_r in *.
    rewrite (Mine_drain lines pre 1 [Closed] dumper dumper') by done.
    cbn [Mine]. rewrite minePass_at_end by done. done.
  - subst u tfN dataN. cbn [concat] in *.
    rewrite fileOf_app in *.
    unfold recordsOf in Hd. rewrite fmap_app in Hd.
    apply dumpAll_app in Hd as (d0 & Hd0 & Hd1).
    apply Forall_app in Hall as [Hls Hcs].
    assert (0 <= len (fileOf c) /\ 0 <= len (fileOf (concat cs))
            /\ 0 <= len (data e)) as (? & ? & ?)
      by (repeat split; apply len_nonneg).
    rewrite !len_append in Hlen.
    rewrite length_app, <- Nat.add_assoc.
    rewrite (Mine_drain lines pre _ _ dumper d0) by (try done; lia).
    cbn [length Nat.add fmap list_fmap app]. rewrite Nat.add_succ_r.
    cbn [Mine]. rewrite minePass_at_end by done.
    cbn [tf data roster disk].
    set (e0 := mkEnv _ _ _ _).
    assert (Mine (length (c ++ concat cs) + S (length cs))
              (((fun c0 => Wake (fileOf c0)) <$> cs) ++ [Closed]) d0 e0
            = (Returned None, dumper',
               mkEnv (withOffset (len (data e0 +:+ fileOf (concat cs)))
                        (tf e0))
                 (data e0 +:+ fileOf (concat cs))
                 (UpdateRoster
                    (withOffset (len (data e0 +:+ fileOf (concat cs)))
                       (tf e0)) (roster e0) (disk e0)).1.2
                 (UpdateRoster
                    (withOffset (len (data e0 +:+ fileOf (concat cs)))
                       (tf e0)) (roster e0) (disk e0)).2)) as Hrest.
    { apply (IH c (data e)); subst e0;
        cbn [tf data roster disk offset withOffset]; try done.
      - rewrite !len_append. lia.
      - by destruct (UpdateRoster_again (tf e) (len (data e)) 0 (roster e)
                      (disk e) Hr) as [Hx _]. }
    rewrite Hrest. subst e0.
    cbn [tf data roster disk].
    rewrite append_assoc.
    change (withOffset ?o (withOffset ?o' (tf e))) with (withOffset o (tf e)).
    by destruct (UpdateRoster_again (tf e) (len (data e))
                   (len (data e +:+ (fileOf c +:+ fileOf (concat cs))))
                   (roster e) (disk e) Hr) as [_ ->].
Qed.

End MinerProperties.

Section MinerScenario.
Import miner.

(** The scenario of the package's test: a file of two lines, then a wake
    for a third, then the channel is closed. *)
Lemma Mine_delivers_every_line_witness :
  let e := mkEnv Examples.trace1 ("a" +:+ nl +:+ "b" +:+ nl)
             (rttanalyzer.mkRoster (Some ∅))
             (rttanalyzer.mkDisk rttanalyzer.NoFile false false false) in
  let dataN := data e +:+ fileOf (concat [["c"]]) in
  let tfN := rttanalyzer.withOffset (GoStrings.len dataN) (tf e) in
  let u := @rttanalyzer.UpdateRoster unix.paths tfN (roster e)
             (disk e) in
  @Mine unix.paths unix.ext4 string testDumper
    (length (["a"; "b"] ++ concat [["c"]]) + S (length [["c"]]))
    (((fun c => Wake (fileOf c)) <$> [["c"]]) ++ [Closed]) "" e
  = (Returned None, "a" +:+ nl +:+ "b" +:+ nl +:+ "c" +:+ nl,
     mkEnv tfN dataN u.1.2 u.2).
Proof.
  intros e.
  assert (Forall completeLine (["a"; "b"] ++ concat [["c"]])) as Hall
    by (repeat constructor; vm_compute; reflexivity).
  assert (data e = "" +:+ fileOf ["a"; "b"]) as Hdata
    by (vm_compute; reflexivity).
  assert (rttanalyzer.offset (tf e) = GoStrings.len "") as Hoff
    by (vm_compute; reflexivity).
  assert (GoStrings.len (data e +:+ fileOf (concat [["c"]])) <= 2 ^ 62)
    as Hlen by (vm_compute; congruence).
  assert (rttanalyzer.R (roster e) <> None) as Hr by (simpl; congruence).
  assert (@dumpAll string testDumper
            (recordsOf (["a"; "b"] ++ concat [["c"]])) ""
          = (Ok tt, "a" +:+ nl +:+ "b" +:+ nl +:+ "c" +:+ nl)) as Hd
    by (vm_compute; reflexivity).
  exact (@Mine_delivers_every_line unix.paths unix.ext4 string testDumper
           ["a"; "b"] [["c"]] "" "" _ e Hall Hdata Hoff Hlen Hr Hd).
Defined.

End MinerScenario.

(** ** The Watchdog, further *)

Section WatchdogProperties.
Import rttanalyzer miner watchdog.
Context `{Filepath} `{FileSystem}.

(** X23. [addOrGetTrace] reports [true] at most once per trace: whatever it
    returned, calling it again for the same key reports [false] with the
    same channel and changes nothing.  The other traces keep their
    channels, and no channel is lost. *)
Theorem addOrGetTrace_idempotent (key : string) (t : stat) :
  let '(_, i, t') := addOrGetTrace key t in
  addOrGetTrace key t' = (false, i, t')
  /\ traces t' !! key = Some i
  /\ (forall k, k <> key -> traces t' !! k = traces t !! k)
  /\ (forall j c, chans t !! j = Some c -> chans t' !! j = Some c).
Proof.
  unfold addOrGetTrace. destruct (traces t !! key) as [i|] eqn:E.
  - by rewrite E.
  - cbn [traces chans]. rewrite lookup_insert_eq. repeat split.
    + intros k Hk. by rewrite lookup_insert_ne.
    + intros j c Hj. by apply lookup_app_l_Some.
Qed.

(** X24. After [deleteTrace] the trace is unknown again: the next
    [addOrGetTrace] reports [true], with a new unbuffered channel that is
    not the one the trace had (the channel of the Miner that ended is not
    used again, and is left as it was). *)
Theorem deleteTrace_then_relaunch (key : string) (t : stat) (i : nat) :
  traces t !! key = Some i ->
  (i < length (chans t))%nat ->
  traces (deleteTrace key t) !! key = None
  /\ (forall k, k <> key ->
        traces (deleteTrace key t) !! k = traces t !! k)
  /\ exists j t',
       addOrGetTrace key (deleteTrace key t) = (true, j, t')
       /\ j <> i
       /\ chans t' !! j = Some (make 0)
       /\ chans t' !! i = chans t !! i.
Proof.
  intros Hi Hlt. unfold deleteTrace. cbn [traces].
  split; [by rewrite lookup_delete_eq|].
  split; [intros k Hk; by rewrite lookup_delete_ne|].
  unfold addOrGetTrace. cbn [traces chans]. rewrite lookup_delete_eq.
  eexists _, _. split; [reflexivity|]. cbn [chans]. repeat split.
  - lia.
  - by apply list_lookup_middle.
  - by rewrite lookup_app_l.
Qed.

Lemma deleteTrace_then_relaunch_witness :
  let t := mkStat {[ "/t/db_ora_1.trc" := 0%nat ]} [make 0] in
  traces (deleteTrace "/t/db_ora_1.trc" t) !! "/t/db_ora_1.trc" = None
  /\ (forall k, k <> "/t/db_ora_1.trc" ->
        traces (deleteTrace "/t/db_ora_1.trc" t) !! k = traces t !! k)
  /\ exists j t',
       addOrGetTrace "/t/db_ora_1.trc" (deleteTrace "/t/db_ora_1.trc" t)
       = (true, j, t')
       /\ j <> 0%nat
       /\ chans t' !! j = Some (make 0)
       /\ chans t' !! 0%nat = chans t !! 0%nat.
Proof.
  intros t.
  exact (deleteTrace_then_relaunch "/t/db_ora_1.trc" t 0
           (lookup_singleton_eq _ _) (Nat.lt_0_succ 0)).
Defined.

(** [checkFile] ignores every file that is not a trace file of the
    database: without the extension [.trc], or with a base name that does
    not start with the database name and [_ora_], nothing changes. *)
Theorem checkFile_ignores_other_files (fileName : string) (s : System) :
  Ext fileName <> ".trc"
  \/ GoStrings.HasPrefix (Base fileName) (dbName s +:+ "_ora_") = false ->
  checkFile fileName s = (Skipped, s).
Proof.
  intros Hno. unfold checkFile.
  destruct (String.eqb (Ext fileName) ".trc") eqn:E; [|done].
  apply String.eqb_eq in E. destruct Hno as [Hx|Hx]; [done|].
  by rewrite Hx.
Qed.

(** [checkFile] on a trace file of the database that is not in the table:
    the trace is entered with a new channel, then the file is opened. *)
Lemma checkFile_untracked (fileName : string) (s : System) :
  Ext fileName = ".trc" ->
  GoStrings.HasPrefix (Base fileName) (dbName s +:+ "_ora_") = true ->
  traces (table s) !! fileName = None ->
  let i := length (chans (table s)) in
  let s1 := withTable (mkStat (<[fileName := i]> (traces (table s)))
                         (chans (table s) ++ [make 0])) s in
  checkFile fileName s
  = match TraceFileOf (theRoster s) fileName
            (bool_decide (is_Some (files s !! fileName))) with
    | Ok f => (Launched, withMiner fileName (mkMiner f i false) s1)
    | Panic _ => (WatchdogPanics, s1)
    | _ => (WatchdogFatal, s1)
    end.
Proof.
  intros Hext Hpre Hnew i s1. unfold checkFile, addOrGetTrace.
  rewrite Hext, Hpre, Hnew. rewrite String.eqb_refl. done.
Qed.

(** X25. The first event for a trace file of the database that exists starts
    its Miner: the trace gets a new unbuffered channel, and the Miner is
    given that channel and the trace file state [Roster.TraceFile] returns
    (the roster's entry for the path, or version 1 and offset 0 when there
    is none).  The dumper, the roster and the other Miners are as before. *)
Theorem checkFile_launches_miner (fileName : string) (s : System) :
  Ext fileName = ".trc" ->
  GoStrings.HasPrefix (Base fileName) (dbName s +:+ "_ora_") = true ->
  traces (table s) !! fileName = None ->
  is_Some (files s !! fileName) ->
  let i := length (chans (table s)) in
  let f := match R (theRoster s) ≫= (.!! fileName) with
           | Some rf => mkTraceFile (jName rf) (jDirectoryName rf)
                          (jVersion rf) (jOffset rf) fileName
           | None => mkTraceFile (Base fileName) (Dir fileName) 1 0 fileName
           end in
  checkFile fileName s
  = (Launched,
     mkSystem (dbName s) (dumper s)
       (mkStat (<[fileName := i]> (traces (table s)))
          (chans (table s) ++ [make 0]))
       (theRoster s) (theDisk s) (files s)
       (<[fileName := mkMiner f i false]> (miners s))).
Proof.
  intros Hext Hpre Hnew Hfile i f. rewrite checkFile_untracked by done.
  rewrite bool_decide_eq_true_2 by done.
  unfold TraceFileOf, OpenTraceFile. subst f.
  by destruct (R (theRoster s) ≫= _).
Qed.

(** X26. An event for a trace file that is gone by the time it is opened ends
    the process: [Roster.TraceFile] fails and [checkFile] calls
    [log.Fatal], with the trace already entered in the table. *)
Theorem checkFile_vanished_file_is_fatal (fileName : string) (s : System) :
  Ext fileName = ".trc" ->
  GoStrings.HasPrefix (Base fileName) (dbName s +:+ "_ora_") = true ->
  traces (table s) !! fileName = None ->
  files s !! fileName = None ->
  (checkFile fileName s).1 = WatchdogFatal
  /\ is_Some (traces (table (checkFile fileName s).2) !! fileName)
  /\ miners (checkFile fileName s).2 = miners s.
Proof.
  intros Hext Hpre Hnew Hfile. rewrite checkFile_untracked by done.
  rewrite Hfile.
  rewrite bool_decide_eq_false_2 by (by intros [? ?]).
  unfold TraceFileOf, OpenTraceFile.
  destruct (R (theRoster s) ≫= _);
    cbn [fst snd withTable table traces miners];
    by rewrite lookup_insert_eq.
Qed.

(** A pass of [Mine] that returns an error has not saved anything: the
    roster and the disk are as before the pass. *)
Lemma minePass_Return_roster {D} `{Dumper D} (dumper d' : D) (e e' : Env)
  (err : error) :
  minePass dumper e = (Return err, d', e') ->
  roster e' = roster e /\ disk e' = disk e.
Proof.
  unfold minePass.
  destruct (ReadRecords (data e) (tf e)) as [[strs| | |] tf'];
    cbn [crashOf]; try (intros Heq; injection Heq as _ _ <-; done);
    try done.
  destruct (dumpAll strs dumper) as [[[]| | |] dx]; cbn [crashOf];
    try (intros Heq; injection Heq as _ _ <-; done); try done.
  destruct (_ =? _)%nat; [|done].
  by destruct (UpdateRoster _ _ _) as [[[]] ?].
Qed.

(** X27. When the Miner of a trace file returns an error, the trace is
    forgotten and nothing is saved; the next event for the file starts a
    new Miner, at the state the roster holds for the file.  What the Miner
    that ended had read since the last save is read again. *)
Theorem hiccup_relaunches_from_roster (fileName : string) (s : System)
  (m : Miner) (err : error) (d' : dumpers.Generic) (e' : Env) :
  miners s !! fileName = Some m ->
  receiving m = false ->
  minePass (dumper s)
    (mkEnv (file m) (default "" (files s !! fileName)) (theRoster s)
       (theDisk s))
  = (Return err, d', e') ->
  Ext fileName = ".trc" ->
  GoStrings.HasPrefix (Base fileName) (dbName s +:+ "_ora_") = true ->
  is_Some (files s !! fileName) ->
  let s1 := minerPass fileName s in
  theRoster s1 = theRoster s
  /\ theDisk s1 = theDisk s
  /\ miners s1 !! fileName = None
  /\ traces (table s1) !! fileName = None
  /\ exists f,
       TraceFileOf (theRoster s) fileName true = Ok f
       /\ (checkFile fileName s1).1 = Launched
       /\ miners (checkFile fileName s1).2 !! fileName
          = Some (mkMiner f (length (chans (table s))) false).
Proof.
  intros Hm Hrecv Hpass Hext Hpre Hfile s1.
  destruct (minePass_Return_roster _ _ _ _ _ Hpass) as [Hr Hd].
  cbn [roster disk] in Hr, Hd.
  assert (s1 = mkSystem (dbName s) d' (deleteTrace fileName (table s))
                 (theRoster s) (theDisk s) (files s)
                 (base.delete fileName (miners s))) as Hs1.
  { subst s1. unfold minerPass. rewrite Hm, Hrecv, Hpass. by rewrite Hr, Hd. }
  rewrite Hs1. cbn [theRoster theDisk miners table].
  assert (traces (deleteTrace fileName (table s)) !! fileName = None) as Hnew
    by (unfold deleteTrace; cbn [traces]; by rewrite lookup_delete_eq).
  repeat split; try done; [by rewrite lookup_delete_eq|].
  rewrite checkFile_untracked by done.
  cbn [theRoster files]. rewrite bool_decide_eq_true_2 by done.
  unfold TraceFileOf, OpenTraceFile.
  destruct (R (theRoster s) ≫= _); eexists; (split; [reflexivity|]);
    cbn [fst snd withMiner miners]; by rewrite lookup_insert_eq.
Qed.

End WatchdogProperties.

Section WatchdogScenarios.
Import rttanalyzer miner watchdog.

Lemma checkFile_ignores_other_files_witness :
  @checkFile unix.paths "/t/alert_db.log" SystemExamples.start
  = (Skipped, SystemExamples.start).
Proof.
  apply (@checkFile_ignores_other_files unix.paths). left.
  vm_compute. congruence.
Defined.

Lemma checkFile_launches_miner_witness :
  let s := SystemExamples.start in
  let fileName := SystemExamples.file1 in
  let i := length (chans (table s)) in
  let f := match R (theRoster s) ≫= (.!! fileName) with
           | Some rf => mkTraceFile (jName rf) (jDirectoryName rf)
                          (jVersion rf) (jOffset rf) fileName
           | None => mkTraceFile (@Base unix.paths fileName)
                       (@Dir unix.paths fileName) 1 0 fileName
           end in
  @checkFile unix.paths fileName s
  = (Launched,
     mkSystem (dbName s) (dumper s)
       (mkStat (<[fileName := i]> (traces (table s)))
          (chans (table s) ++ [make 0]))
       (theRoster s) (theDisk s) (files s)
       (<[fileName := mkMiner f i false]> (miners s))).
Proof.
  intros s fileName.
  assert (@Ext unix.paths fileName = ".trc") as Hext
    by (vm_compute; reflexivity).
  assert (GoStrings.HasPrefix (@Base unix.paths fileName)
            (dbName s +:+ "_ora_") = true) as Hpre
    by (vm_compute; reflexivity).
  assert (traces (table s) !! fileName = None) as Hnew
    by (vm_compute; reflexivity).
  assert (is_Some (files s !! fileName)) as Hfile
    by (exists (Examples.s1 +:+ nl); vm_compute; reflexivity).
  exact (@checkFile_launches_miner unix.paths fileName s Hext Hpre Hnew
           Hfile).
Defined.

Lemma checkFile_vanished_file_is_fatal_witness :
  let s := SystemExamples.start in
  let fileName := "/t/db_ora_9.trc" in
  (@checkFile unix.paths fileName s).1 = WatchdogFatal
  /\ is_Some (traces (table (@checkFile unix.paths fileName s).2)
                !! fileName)
  /\ miners (@checkFile unix.paths fileName s).2 = miners s.
Proof.
  intros s fileName.
  assert (@Ext unix.paths fileName = ".trc") as Hext
    by (vm_compute; reflexivity).
  assert (GoStrings.HasPrefix (@Base unix.paths fileName)
            (dbName s +:+ "_ora_") = true) as Hpre
    by (vm_compute; reflexivity).
  assert (traces (table s) !! fileName = None) as Hnew
    by (vm_compute; reflexivity).
  assert (files s !! fileName = None) as Hfile
    by (vm_compute; reflexivity).
  exact (@checkFile_vanished_file_is_fatal unix.paths fileName s Hext Hpre
           Hnew Hfile).
Defined.

(** A trace file whose second record has a cursor number that is not a
    number: its Miner has dumped the first record, returns the error at the
    second, and is started again at offset 0. *)
Lemma hiccup_relaunches_from_roster_witness :
  let fileName := SystemExamples.file1 in
  let bytes := Examples.s1 +:+ nl +:+ "EXEC #x7:c=1,e=2,p=0" +:+ nl in
  let s :=
    mkSystem "db" Examples.varz17 (mkStat {[ fileName := 0%nat ]} [make 0])
      (mkRoster (Some ∅)) (mkDisk NoFile false false false)
      {[ fileName := bytes ]}
      {[ fileName :=
           mkMiner (withOffset (GoStrings.len (Examples.s1 +:+ nl))
                      Examples.trace1) 0 false ]} in
  let s1 := @minerPass unix.paths unix.ext4 fileName s in
  theRoster s1 = theRoster s
  /\ theDisk s1 = theDisk s
  /\ miners s1 !! fileName = None
  /\ traces (table s1) !! fileName = None
  /\ exists f,
       @TraceFileOf unix.paths (theRoster s) fileName true = Ok f
       /\ (@checkFile unix.paths fileName s1).1 = Launched
       /\ miners (@checkFile unix.paths fileName s1).2 !! fileName
          = Some (mkMiner f (length (chans (table s))) false).
Proof.
  intros fileName bytes s.
  set (m := mkMiner (withOffset (GoStrings.len (Examples.s1 +:+ nl))
                       Examples.trace1) 0 false).
  set (err := ErrWrap "parseExec: cursor# doesn't appear to be a number"
                (ErrSyntax "Atoi" "x7")).
  set (e' := mkEnv (withOffset (GoStrings.len bytes) Examples.trace1) bytes
               (theRoster s) (theDisk s)).
  assert (miners s !! fileName = Some m) as Hm by (vm_compute; reflexivity).
  assert (@minePass unix.paths unix.ext4 _ sinkDumper (dumper s)
            (mkEnv (file m) (default "" (files s !! fileName)) (theRoster s)
               (theDisk s))
          = (Return err, Examples.varz17, e')) as Hpass
    by (vm_compute; reflexivity).
  assert (@Ext unix.paths fileName = ".trc") as Hext
    by (vm_compute; reflexivity).
  assert (GoStrings.HasPrefix (@Base unix.paths fileName)
            (dbName s +:+ "_ora_") = true) as Hpre
    by (vm_compute; reflexivity).
  assert (is_Some (files s !! fileName)) as Hfile
    by (exists bytes; vm_compute; reflexivity).
  exact (@hiccup_relaunches_from_roster unix.paths unix.ext4 fileName s m err
           Examples.varz17 e' Hm eq_refl Hpass Hext Hpre Hfile).
Defined.

End WatchdogScenarios.

(** ** The setup mode: reading an AWR report *)

Section ParseAWRProperties.
Import GoStrings rttanalyzer sqlinput.
Context `{Filepath} `{FileSystem}.
Variable ParseFloat : string -> option spec_float.

(** A record is a line and its line feed: a prefix without a line feed is
    a prefix of the one when it is a prefix of the other. *)
Lemma HasPrefix_record (p l : string) :
  hasByte LF p = false ->
  HasPrefix (l +:+ nl) p = HasPrefix l p.
Proof.
  unfold HasPrefix. revert l. induction p as [|c p IH]; intros l Hp.
  - by destruct l.
  - simpl in Hp. apply orb_false_elim in Hp as [Hc Hp].
    destruct l as [|d l].
    + change ("" +:+ nl) with nl. unfold nl. simpl.
      destruct (ascii_dec c LF) as [->|Hne].
      * by rewrite Ascii.eqb_refl in Hc.
      * done.
    + change (String d l +:+ nl) with (String d (l +:+ nl)). simpl.
      destruct (ascii_dec c d); [by apply IH|done].
Qed.

(** Asked for seven fields, [parseAWRLine] returns a row or an error. *)
Lemma parseAWRLine_returns (rec : string) :
  match parseAWRLine ParseFloat rec fieldsInAWRReport with
  | Ok _ | Err _ => True
  | _ => False
  end.
Proof.
  unfold parseAWRLine, fieldsInAWRReport.
  destruct (_ =? _)%nat eqn:E; [|done]. apply Nat.eqb_eq in E.
  destruct (FieldsFunc rec IsSpace) as [|? [|? [|? [|? [|? [|? [|? [|]]]]]]]];
    try done.
  cbn. by destruct (ParseFloat _).
Qed.

Lemma awrLines_app (x y : list string) a e :
  awrLines ParseFloat (x ++ y) a e
  = match awrLines ParseFloat x a e with
    | Ok (a', e') => awrLines ParseFloat y a' e'
    | other => other
    end.
Proof.
  revert a e. induction x as [|v x IH]; intros a e; [done|].
  cbn [app awrLines]. by destruct (awrBatch _ _ _ _) as [[a' e']| | |].
Qed.

(** Outside the section nothing is looked at. *)
Lemma awrLines_outside (ls : list string) e :
  Forall (fun l => HasPrefix l sqlOrderedByELA = false) ls ->
  awrLines ParseFloat (recordsOf ls) false e = Ok (false, e).
Proof.
  induction 1 as [|l ls Hl _ IH]; [done|].
  change (recordsOf (l :: ls)) with ((l +:+ nl) :: recordsOf ls).
  cbn [awrLines awrBatch]. rewrite HasPrefix_record, Hl by done. done.
Qed.

Lemma awrLines_header (l : string) a e :
  HasPrefix l sqlOrderedByELA = true ->
  awrLines ParseFloat [l +:+ nl] a e = Ok (true, e).
Proof.
  intros Hl. cbn [awrLines awrBatch]. by rewrite HasPrefix_record, Hl.
Qed.

Lemma no_formfeed_no_header (l : string) :
  HasPrefix l cntrlL = false -> HasPrefix l sqlOrderedByELA = false.
Proof.
  unfold HasPrefix, cntrlL, sqlOrderedByELA. destruct l as [|c l]; [done|].
  cbn [String.prefix]. destruct (ascii_dec (byte_of 12) c); [|done].
  by destruct l.
Qed.

(** Inside the section every line that is no form feed is parsed, and the
    rows of those that parse are appended. *)
Lemma awrLines_page (ls : list string) e :
  Forall (fun l => HasPrefix l cntrlL = false) ls ->
  awrLines ParseFloat (recordsOf ls) true e = Ok (true, e ++ rowsOf ParseFloat ls).
Proof.
  intros Hls. revert e. induction Hls as [|l ls Hl _ IH]; intros e.
  - by rewrite app_nil_r.
  - change (recordsOf (l :: ls)) with ((l +:+ nl) :: recordsOf ls).
    cbn [awrLines awrBatch negb].
    rewrite !HasPrefix_record, Hl, (no_formfeed_no_header l Hl) by done.
    unfold rowsOf. cbn [omap list_omap]. fold (rowsOf ParseFloat ls).
    pose proof (parseAWRLine_returns (l +:+ nl)) as Hret.
    destruct (parseAWRLine ParseFloat (l +:+ nl) fieldsInAWRReport)
      as [s|err| |]; [|apply IH|done|done].
    rewrite IH. by rewrite <- app_assoc.
Qed.

Lemma awrLines_formfeed (l : string) e :
  HasPrefix l cntrlL = true ->
  HasPrefix l sqlOrderedByELA = false ->
  awrLines ParseFloat [l +:+ nl] true e = Ok (false, e).
Proof.
  intros Hl Hh. cbn [awrLines awrBatch negb].
  by rewrite !HasPrefix_record, Hl, Hh.
Qed.

(** On a report made of complete lines, the outer loop hands every line
    to the inner one, once and in order, and ends at the end of the file. *)
Lemma parseLoop_lines (lines : list string) (pre data : string)
  (f : TraceFile) a e :
  Forall completeLine lines ->
  data = pre +:+ fileOf lines ->
  offset f = len pre ->
  len data <= 2 ^ 62 ->
  parseLoop ParseFloat (S (length lines)) data f a e
  = Some match awrLines ParseFloat (recordsOf lines) a e with
         | Ok (_, e') => Ok e'
         | Err err => Err err
         | Panic w => Panic w
         | Fatal w => Fatal w
         end.
Proof.
  revert pre f a e.
  induction lines as [|l ls IH]; intros pre f a e Hall Hdata Hoff Hlen.
  - change (fileOf []) with "" in Hdata. rewrite append_nil_r in Hdata.
    cbn [length parseLoop]. unfold ReadRecords.
    pose proof (len_nonneg pre).
    rewrite seek_inside by (rewrite Hoff, Hdata; lia).
    rewrite skip_all by (rewrite Hoff, Hdata; unfold len; lia). done.
  - apply Forall_cons in Hall as [(Hlf & Hcr & Hsz) Hall].
    change (fileOf (l :: ls)) with (l +:+ String LF (fileOf ls)) in Hdata.
    assert (0 <= len pre /\ 0 <= len l /\ 0 <= len (fileOf ls))
      as (Hp0 & Hl0 & Hf0) by (repeat split; apply len_nonneg).
    assert (len data = len pre + len l + 1 + len (fileOf ls)) as Hsum.
    { rewrite Hdata, !len_append, len_cons. lia. }
    assert (wrap64 (offset f + wrap64 (len l + 1))
            = len (pre +:+ (l +:+ nl))) as Hw.
    { rewrite !len_append. change (len nl) with 1. rewrite Hoff.
      unfold wrap64. rewrite (Z.mod_small (len l + 1 + 2 ^ 63)) by lia.
      rewrite Z.mod_small; lia. }
    assert (ReadRecords data f
            = (Ok [l +:+ nl], withOffset (len (pre +:+ (l +:+ nl))) f))
      as Hread.
    { rewrite <- Hw. apply (ReadRecords_complete_line _ _ l (fileOf ls));
        try done; [lia|].
      rewrite Hoff. unfold len. rewrite Nat2Z.id, Hdata.
      apply skip_append. }
    change (recordsOf (l :: ls)) with ((l +:+ nl) :: recordsOf ls).
    cbn [length]. remember (S (length ls)) as n eqn:Hn.
    cbn [parseLoop awrLines]. rewrite Hread. cbn [length Nat.eqb].
    destruct (awrBatch ParseFloat [l +:+ nl] a e) as [[a' e']| | |];
      try done.
    subst n. apply (IH (pre +:+ (l +:+ nl))); try done.
    rewrite Hdata, !append_assoc. done.
Qed.


End ParseAWRProperties.

Section ParseAWRScenario.
Import GoStrings rttanalyzer sqlinput.

Ltac all_lines :=
  repeat first
    [ apply Forall_nil_2
    | apply Forall_cons_2; [vm_compute; repeat split; congruence|] ].


End ParseAWRScenario.

(** ** The configuration file *)

Section ConfigProperties.
Import GoStrings rtta.

(** One record that assigns a known parameter: that parameter gets the
    trimmed second field, the others keep their values. *)
Lemma loadLoop_assignment (r0 r1 : string) (fields : list string)
  (reads : list (res (list string))) (c : config) :
  TrimSpace r0 ∈ parameters ->
  let upd key old :=
    if String.eqb (TrimSpace r0) key then TrimSpace r1 else old in
  loadLoop (Ok (r0 :: r1 :: fields) :: reads) c
  = loadLoop reads
      (mkConfig (upd "dbname" (dbName c)) (upd "dirname" (dirName c))
         (upd "mode" (mode c)) (upd "sqlinput" (sqlInput c))
         (upd "outputtype" (outputType c))
         (upd "appcredentials" (appCred c))
         (upd "projectname" (projectName c))).
Proof.
  intros Hin upd. subst upd. cbn [loadLoop]. unfold index.
  cbn [mbind res_bind lookup list_lookup]. cbv zeta.
  generalize dependent (TrimSpace r0). intros k Hin.
  generalize (TrimSpace r1). intros v.
  unfold parameters in Hin.
  repeat (apply elem_of_cons in Hin as [->|Hin]); [..|by apply elem_of_nil in Hin];
    reflexivity.
Qed.

Lemma valueOf_cons key init (r0 r1 : string) fields records :
  valueOf key init ((r0 :: r1 :: fields) :: records)
  = valueOf key
      (if String.eqb (TrimSpace r0) key then TrimSpace r1 else init) records.
Proof. reflexivity. Qed.

Lemma loadLoop_assignments (records : list (list string))
  (reads : list (res (list string))) (c : config) :
  Forall assignment records ->
  loadLoop ((Ok <$> records) ++ reads) c
  = loadLoop reads
      (mkConfig (valueOf "dbname" (dbName c) records)
         (valueOf "dirname" (dirName c) records)
         (valueOf "mode" (mode c) records)
         (valueOf "sqlinput" (sqlInput c) records)
         (valueOf "outputtype" (outputType c) records)
         (valueOf "appcredentials" (appCred c) records)
         (valueOf "projectname" (projectName c) records)).
Proof.
  intros Hall. revert c. induction Hall as [|record records Hr _ IH]; intros c.
  - by destruct c.
  - destruct record as [|r0 [|r1 fields]]; try done.
    rewrite fmap_cons. cbn [app].
    rewrite loadLoop_assignment by exact Hr. cbv zeta.
    rewrite IH. cbn [dbName dirName mode sqlInput outputType appCred
                       projectName].
    by rewrite !valueOf_cons.
Qed.


End ConfigProperties.

(** ** Setting up the output *)

Section OutputProperties.
Import sink dumpers watchdog.

Lemma loadRecords_untouched reads s sql :
  loadRecords reads s = Ok sql ->
  Forall untouched s -> Forall untouched sql.
Proof.
  revert s. induction reads as [|rd reads IH]; intros s; simpl.
  - by intros [= ->].
  - destruct rd as [record| | |]; try done. cbn.
    destruct (GoStrings.index record 1) as [f1| | |]; try done. cbn.
    destruct (strconv.Atoi f1) as [v| | |]; try done.
    destruct (GoStrings.index record 0) as [f0| | |]; try done. cbn.
    destruct (GoStrings.sliceList 2 record) as [ids| | |]; try done. cbn.
    intros Hl Hs. apply (IH _ Hl). apply Forall_app. split; [done|].
    by repeat constructor.
Qed.

(** X30. What [output] returns.
    - For the output types [varz] and [pubsub], when the watch list loads,
      [output] returns a dumper for that medium: it carries the database
      name, the watch list exactly as [loadSQL] read it, with no execution
      and no violation recorded in any entry, and an empty cursor table;
      nothing has been emitted.
    - A dumper is returned in no other case.
    - For these two output types, a watch list that cannot be loaded ends
      the process ([log.Fatalf]); the error is not returned.
    - Any other output type is an error, returned without reading the
      watch list. *)
Theorem output_outcome (dbName outputType : string)
  (opened : res (list (res (list string)))) :
  (forall sql,
     outputType = "varz" \/ outputType = "pubsub" ->
     loadSQL opened = Ok sql ->
     output dbName outputType opened
     = Ok (mkGeneric
             (if String.eqb outputType "varz" then VarzMedia
              else PubSubMedia)
             dbName sql newTracker [] false)
     /\ Forall untouched sql)
  /\ (forall g,
        output dbName outputType opened = Ok g ->
        (outputType = "varz" /\ Media g = VarzMedia
         \/ outputType = "pubsub" /\ Media g = PubSubMedia)
        /\ loadSQL opened = Ok (MonitoredSQLs g)
        /\ Forall untouched (MonitoredSQLs g)
        /\ DBName g = dbName
        /\ Cursors (CursorTracker g) = ∅
        /\ emitted g = [])
  /\ (forall e,
        outputType = "varz" \/ outputType = "pubsub" ->
        loadSQL opened = Err e ->
        output dbName outputType opened
        = Fatal "LoadSQL: error reading SQL statements input file")
  /\ (outputType <> "varz" -> outputType <> "pubsub" ->
      forall opened',
        output dbName outputType opened'
        = Err (ErrOther
                 "output error: outputtype can be one of varz, pubsub")).
Proof.
  assert (forall sql, loadSQL opened = Ok sql -> Forall untouched sql)
    as Hfresh.
  { intros sql. unfold loadSQL. destruct opened as [reads| | |]; try done.
    cbn. intros Hl. by apply (loadRecords_untouched reads []). }
  unfold output. split; [|split; [|split]].
  - intros sql [->| ->] El; cbn [String.eqb]; rewrite El;
      (split; [reflexivity|by apply Hfresh]).
  - intros g.
    destruct (String.eqb outputType "varz") eqn:Ev;
      [apply String.eqb_eq in Ev
      |destruct (String.eqb outputType "pubsub") eqn:Ep;
       [apply String.eqb_eq in Ep|done]];
      (destruct (loadSQL opened) as [sql| | |] eqn:El; try done;
       intros [= <-]; cbn [Media MonitoredSQLs DBName CursorTracker emitted];
       repeat split; auto).
  - intros e [->| ->] El; cbn [String.eqb]; by rewrite El.
  - intros Hv Hp opened'.
    apply String.eqb_neq in Hv, Hp. by rewrite Hv, Hp.
Qed.

(** The watch list of the scenarios, loaded for Pub/Sub. *)
Lemma output_outcome_witness :
  output "db" "pubsub" (Ok [Ok ["OE"; "1"; "abc"]])
  = Ok (mkGeneric PubSubMedia "db" Examples.OE newTracker [] false).
Proof.
  destruct (output_outcome "db" "pubsub" (Ok [Ok ["OE"; "1"; "abc"]]))
    as [Hok _].
  destruct (Hok Examples.OE (or_intror eq_refl) eq_refl) as [Hout _].
  exact Hout.
Defined.

End OutputProperties.
